(** * LoadCell_Project: the framing protocol, the exact-length reader, the
      circular sample buffer, the batch queue and the calibration step

    A shallow embedding of the C sources

      - [src/11-07-2025/server.c]   (producer: [send_file_by_path],
                                      [send_control_message], [htobe64_custom])
      - [src/11-07-2025/c2.c]       (consumer: [recv_all], [main],
                                      [normalize_to_weight], [be64toh_custom])
      - [src/04-07-2025/client.c]   (GUI consumer: [recvall],
                                      [network_thread_func], the circular
                                      buffer, the batch queue,
                                      [process_data_gui_callback],
                                      [normalize_to_weights])

    Integers are [Z] with the C conversions written out, bytes are
    [Byte.byte], C [double]s are the kernel's binary64 floats, a socket is
    the list of deliveries its peer will make. *)

From Stdlib Require Import ZArith List Lia Bool.
From Stdlib Require Import Strings.String Strings.Byte.
From Stdlib Require Import Floats.
From coqutil Require Import Byte Word.LittleEndianList.
From stdpp Require Import base option list.

Local Open Scope Z_scope.

(** ** Machine integers *)

Module MachInt.

(** Conversion to an unsigned type of [w] bits. *)
Definition to_unsigned (w : Z) (x : Z) : Z := x mod 2 ^ w.

(** Conversion to a signed type of [w] bits (two's complement). *)
Definition to_signed (w : Z) (x : Z) : Z :=
  (x + 2 ^ (w - 1)) mod 2 ^ w - 2 ^ (w - 1).

Definition uint32_t : Z -> Z := to_unsigned 32.
Definition uint64_t : Z -> Z := to_unsigned 64.
Definition int : Z -> Z := to_signed 32.
Definition ssize_t : Z -> Z := to_signed 64.

Definition INT_MAX : Z := 2 ^ 31 - 1.
Definition SSIZE_MAX : Z := 2 ^ 63 - 1.

End MachInt.

(** ** Byte order

    Both programs run on little-endian hosts (x86, Windows and Linux): an
    integer object of [n] bytes sits in memory as [le_split n]. [htonl] and
    [ntohl] are the C library's: on such a host they reverse the four
    bytes of their argument. *)

Module ByteOrder.
Import MachInt.

(** The bytes of the object [&x], [x] an unsigned integer of [n] bytes. *)
Definition object_bytes (n : nat) (x : Z) : list byte := le_split n x.

(** The value of an unsigned integer object holding [bs]. *)
Definition object_value (bs : list byte) : Z := le_combine bs.

Definition htonl (x : Z) : Z := le_combine (rev (le_split 4 x)).
Definition ntohl (x : Z) : Z := le_combine (rev (le_split 4 x)).

(** server.c:45
    [return ((uint64_t)htonl((uint32_t)(host_val & 0xFFFFFFFFUL)) << 32)
            | htonl((uint32_t)(host_val >> 32));] *)
Definition htobe64_custom (host_val : Z) : Z :=
  Z.lor (uint64_t (Z.shiftl (uint64_t (htonl (uint32_t (Z.land host_val 0xFFFFFFFF)))) 32))
        (htonl (uint32_t (Z.shiftr host_val 32))).

(** c2.c:58 (and 02-07-2025/client.c:45)
    [return ((uint64_t)ntohl((uint32_t)(big_endian_val & 0xFFFFFFFFUL)) << 32)
            | ntohl((uint32_t)(big_endian_val >> 32));] *)
Definition be64toh_custom (big_endian_val : Z) : Z :=
  Z.lor (uint64_t (Z.shiftl (uint64_t (ntohl (uint32_t (Z.land big_endian_val 0xFFFFFFFF)))) 32))
        (ntohl (uint32_t (Z.shiftr big_endian_val 32))).

(** 04-07-2025/client.c:115
    [return (((uint64_t)ntohl((uint32_t)(val & 0xFFFFFFFF))) << 32)
            | htonl((uint32_t)(val >> 32));] *)
Definition ntohll_custom (val : Z) : Z :=
  Z.lor (uint64_t (Z.shiftl (uint64_t (ntohl (uint32_t (Z.land val 0xFFFFFFFF)))) 32))
        (htonl (uint32_t (Z.shiftr val 32))).

(** The wire format the specification names: [n] bytes, most significant
    first. *)
Definition big_endian (n : nat) (x : Z) : list byte := rev (le_split n x).

End ByteOrder.

(** ** C strings *)

Module CString.

Definition NUL : byte := x00.

(** The string a [char*] to [buf] denotes: the bytes before the first NUL. *)
Fixpoint c_str (buf : list byte) : list byte :=
  match buf with
  | [] => []
  | b :: rest => if Byte.eqb b NUL then [] else b :: c_str rest
  end.

Definition strlen (s : list byte) : Z := Z.of_nat (length (c_str s)).

Fixpoint bytes_eqb (a b : list byte) : bool :=
  match a, b with
  | [], [] => true
  | x :: a', y :: b' => Byte.eqb x y && bytes_eqb a' b'
  | _, _ => false
  end.

(** [strcmp(a, b) == 0] *)
Definition strcmp_is_0 (a b : list byte) : bool := bytes_eqb (c_str a) (c_str b).

Fixpoint starts_with (needle s : list byte) : bool :=
  match needle, s with
  | [], _ => true
  | x :: needle', y :: s' => Byte.eqb x y && starts_with needle' s'
  | _ :: _, [] => false
  end.

Fixpoint find_from (needle s : list byte) : option (list byte) :=
  if starts_with needle s then Some s
  else match s with
       | [] => None
       | _ :: s' => find_from needle s'
       end.

(** [strstr(haystack, needle)]: the suffix of the haystack at the first
    occurrence of the needle, [None] for a null pointer. *)
Definition strstr (haystack needle : list byte) : option (list byte) :=
  find_from (c_str needle) (c_str haystack).

(** A string literal. *)
Definition lit (s : string) : list byte := list_byte_of_string s.

End CString.

(** ** Stream sockets and the exact-length readers *)

Module Sock.
Import MachInt.

(** What the peer and the network will do, in order: deliver some bytes,
    or fail. When the list is empty the peer has closed the connection. A
    delivery of no bytes is the end of the stream too: [recv] reports 0. *)
Inductive recv_event : Type :=
| Chunk (bs : list byte)
| RecvError.

Definition socket : Type := list recv_event.

(** [recv(sock, p, want, 0)]: the return value, the bytes stored at [p],
    the socket afterwards. A delivery longer than [want] is split. *)
Definition recv (sock : socket) (want : Z) : Z * list byte * socket :=
  match sock with
  | [] => (0, [], [])
  | RecvError :: rest => (-1, [], rest)
  | Chunk bs :: rest =>
      if Z.of_nat (length bs) <=? want then (Z.of_nat (length bs), bs, rest)
      else (want, take (Z.to_nat want) bs, Chunk (drop (Z.to_nat want) bs) :: rest)
  end.

(** c2.c:201 [recv_all]. [buf] holds the bytes stored so far, that is
    [buf[0 .. total_received)]. Each turn of the loop adds at least one
    byte, so [len] turns are enough; [None] is fuel exhaustion. *)
Fixpoint recv_all_loop (fuel : nat) (sock : socket) (buf : list byte)
         (total_received len : Z) : option (Z * list byte * socket) :=
  if total_received <? len then
    match fuel with
    | O => None
    | S fuel' =>
        let '(bytes_received, data, sock') := recv sock (len - total_received) in
        if bytes_received <=? 0 then Some (bytes_received, buf ++ data, sock')
        else recv_all_loop fuel' sock' (buf ++ data)
                           (total_received + bytes_received) len
    end
  else Some (ssize_t total_received, buf, sock).

Definition recv_all (sock : socket) (len : Z) : option (Z * list byte * socket) :=
  recv_all_loop (Z.to_nat len) sock [] 0 len.

(** client.c:326 [recvall]: the same loop, but every failure is reported
    as -1 and the count is returned as an [int]. *)
Fixpoint recvall_loop (fuel : nat) (sock : socket) (buffer : list byte)
         (total_received len : Z) : option (Z * list byte * socket) :=
  if total_received <? len then
    match fuel with
    | O => None
    | S fuel' =>
        let '(bytes_received, data, sock') := recv sock (int (len - total_received)) in
        if bytes_received <=? 0 then Some (-1, buffer ++ data, sock')
        else recvall_loop fuel' sock' (buffer ++ data)
                          (total_received + bytes_received) len
    end
  else Some (int total_received, buffer, sock).

Definition recvall (sock : socket) (len : Z) : option (Z * list byte * socket) :=
  recvall_loop (Z.to_nat len) sock [] 0 len.

(** The bytes a socket will deliver before it ends or fails. *)
Fixpoint pending (sock : socket) : list byte :=
  match sock with
  | [] => []
  | RecvError :: _ => []
  | Chunk [] :: _ => []
  | Chunk bs :: rest => bs ++ pending rest
  end.

(** The socket once its first [n] pending bytes have been taken. *)
Fixpoint advance (sock : socket) (n : nat) : socket :=
  match n, sock with
  | S _, Chunk bs :: rest =>
      if (length bs <=? n)%nat then advance rest (n - length bs)
      else Chunk (drop n bs) :: rest
  | _, _ => sock
  end.

(** A socket that delivers [chunks] one after the other, then closes. *)
Definition delivering (chunks : list (list byte)) : socket := map Chunk chunks.

End Sock.

(** ** The producer: server.c *)

Module Server.
Import MachInt ByteOrder CString.

Definition BUFFER_SIZE : Z := 4096.
Definition FILENAME_LENGTH_BYTES : Z := 4.
Definition FILE_CONTENT_LENGTH_BYTES : Z := 8.

(** What went out on the connection: one entry for each [send]. *)
Definition wire : Type := list (list byte).

(** [send(sock, p, n, 0)] on a blocking socket that accepts the [n] bytes
    at [p]. *)
Definition send (w : wire) (object : list byte) (n : Z) : wire :=
  w ++ [take (Z.to_nat n) object].

(** [strrchr(s, c)]: the suffix of [s] at the last [c]. *)
Fixpoint strrchr (s : list byte) (c : byte) : option (list byte) :=
  match s with
  | [] => None
  | b :: rest =>
      match strrchr rest c with
      | Some found => Some found
      | None => if Byte.eqb b c then Some s else None
      end
  end.

(** server.c:213-222: the file name inside a path. *)
Definition filename_of_path (filepath : list byte) : list byte :=
  let path := c_str filepath in
  let filename := strrchr path x2f in
  let filename := match filename with
                  | None => strrchr path x5c
                  | found => found
                  end in
  match filename with
  | None => path
  | Some found => drop 1 found
  end.

(** server.c:257 [while ((bytes_read = fread(buffer, 1, BUFFER_SIZE, file)) > 0)]
    over the unread part of the file. Every turn reads at least one byte. *)
Fixpoint send_content (fuel : nat) (unread : list byte) (w : wire) : option wire :=
  let bytes_read := Z.min BUFFER_SIZE (Z.of_nat (length unread)) in
  if 0 <? bytes_read then
    match fuel with
    | O => None
    | S fuel' =>
        send_content fuel' (drop (Z.to_nat bytes_read) unread)
                     (send w (take (Z.to_nat bytes_read) unread) bytes_read)
    end
  else Some w.

(** server.c:271 [send_control_message] *)
Definition send_control_message (w : wire) (message : list byte) : wire :=
  let msg_len := strlen message in
  let net_msg_len := htonl (uint32_t msg_len) in
  let net_zero_content_len := htobe64_custom 0 in
  let w := send w (object_bytes 4 net_msg_len) FILENAME_LENGTH_BYTES in
  let w := send w (c_str message) msg_len in
  send w (object_bytes 8 net_zero_content_len) FILE_CONTENT_LENGTH_BYTES.

(** The platform of server.c is Windows (winsock2.h, [Sleep], [SOCKET]) in
    its 64-bit data model: a [long] has 32 bits, [size_t] has 64. *)
Definition LONG_MAX : Z := 2 ^ 31 - 1.
Definition size_t : Z -> Z := to_unsigned 64.

(** What [ftell] can return at the end of a file of [size] bytes: [size]
    when a [long] holds it. When it does not, the call cannot give the
    position: it fails with -1L, or a library that does not notice hands
    back some other [long]. *)
Definition ftell_reports (size result : Z) : Prop :=
  if size <=? LONG_MAX then result = size else - 2 ^ 31 <= result <= LONG_MAX.

(** [ftell] at the end of the file as the C standard has it: the size, or
    the failure value -1L when a [long] does not hold it. *)
Definition ftell_at_end (content : list byte) : Z :=
  if Z.of_nat (length content) <=? LONG_MAX then Z.of_nat (length content) else -1.

(** server.c:212-267: the part of [send_file_by_path] behind a successful
    [fopen], for a file of [content] at whose end [ftell] returned
    [ftell_result]. *)
Definition send_open_file (w : wire) (filepath content : list byte)
           (ftell_result : Z) : option wire :=
  let filename := filename_of_path filepath in
  let filename_len := strlen filename in
  let net_filename_len := htonl (uint32_t filename_len) in
  let file_content_len := size_t ftell_result in
  let net_file_content_len := htobe64_custom (uint64_t file_content_len) in
  let w := send w (object_bytes 4 net_filename_len) FILENAME_LENGTH_BYTES in
  let w := send w filename filename_len in
  let w := send w (object_bytes 8 net_file_content_len) FILE_CONTENT_LENGTH_BYTES in
  send_content (length content) content w.

(** server.c:205 [send_file_by_path]. [file] is what [fopen] finds:
    [None] when the file cannot be opened, else its content. *)
Definition send_file_by_path (w : wire) (filepath : list byte)
           (file : option (list byte)) : option wire :=
  match file with
  | None => Some (send_control_message w (lit "FILE_NOT_FOUND"))
  | Some content => send_open_file w filepath content (ftell_at_end content)
  end.

(** The bytes of a frame as the specification lays them out:
    name length (u32, big-endian), name, content length (u64,
    big-endian), content. *)
Definition frame_layout (name content : list byte) : list byte :=
  big_endian 4 (Z.of_nat (length name)) ++ name ++
  big_endian 8 (Z.of_nat (length content)) ++ content.

End Server.

(** ** The consumer of c2.c *)

Module Client2.
Import MachInt ByteOrder CString Sock.

Definition FILENAME_LENGTH_BYTES : Z := 4.
Definition FILE_CONTENT_LENGTH_BYTES : Z := 8.

(** glibc's [be64toh] on a little-endian host; the file's own fallback
    [be64toh_custom] is the same function there. *)
Definition be64toh (x : Z) : Z := be64toh_custom x.

(** Why the receive loop of [main] was left. *)
Inductive loop_exit : Type :=
| NoFilenameLength
| FilenameAllocFailed
| NoFilename
| NoContentLength
| ControlMessage (filename : list byte)
| ContentAllocFailed
| NoContent (filename : list byte).

Inductive outcome (A : Type) : Type :=
| Break (why : loop_exit) (sock : socket)
| Go (a : A) (sock : socket).
Arguments Break {A} why sock.
Arguments Go {A} a sock.

(** c2.c:163-166 *)
Definition is_control_message (filename : list byte) : bool :=
  strcmp_is_0 filename (lit "END_OF_TRANSMISSION")
  || bool_decide (strstr filename (lit "NO_FILE_FOUND:") <> None)
  || strcmp_is_0 filename (lit "NO_FILE_SELECTED")
  || strcmp_is_0 filename (lit "NO_FILES_IN_FOLDER").

Section Loop.
(** Whether [malloc(size)] returns a block. *)
Variable malloc_ok : Z -> bool.

(** c2.c:134-160: the three header fields. The result is the file name
    buffer (terminator included) and the content length. *)
Definition recv_frame_header (sock : socket)
  : option (outcome (list byte * Z)) :=
  '(r, net_filename_len, sock) ← recv_all sock FILENAME_LENGTH_BYTES;
  if r <=? 0 then Some (Break NoFilenameLength sock) else
  let filename_len := uint64_t (ntohl (object_value net_filename_len)) in
  if negb (malloc_ok (uint64_t (filename_len + 1)))
  then Some (Break FilenameAllocFailed sock) else
  '(r, filename, sock) ← recv_all sock filename_len;
  if r <=? 0 then Some (Break NoFilename sock) else
  let filename := filename ++ [NUL] in
  '(r, net_file_content_len, sock) ← recv_all sock FILE_CONTENT_LENGTH_BYTES;
  if r <=? 0 then Some (Break NoContentLength sock) else
  let file_content_len := uint64_t (be64toh (object_value net_file_content_len)) in
  Some (Go (filename, file_content_len) sock).

(** c2.c:133-193: one turn of [while (1)]. A file that was received is
    handed to [process_data] as (name, content). *)
Definition receive_one (sock : socket)
  : option (outcome (list byte * list byte)) :=
  header ← recv_frame_header sock;
  match header with
  | Break why sock => Some (Break why sock)
  | Go (filename, file_content_len) sock =>
      if is_control_message filename
      then Some (Break (ControlMessage (c_str filename)) sock) else
      if negb (malloc_ok (uint64_t (file_content_len + 1)))
      then Some (Break ContentAllocFailed sock) else
      '(r, file_content, sock) ← recv_all sock file_content_len;
      if r <=? 0 then Some (Break (NoContent (c_str filename)) sock) else
      Some (Go (c_str filename, c_str (file_content ++ [NUL])) sock)
  end.

(** The loop: the files processed, in order, and how it ended. *)
Fixpoint receive_files (fuel : nat) (sock : socket)
  : option (list (list byte * list byte) * loop_exit * socket) :=
  match fuel with
  | O => None
  | S fuel' =>
      step ← receive_one sock;
      match step with
      | Break why sock => Some ([], why, sock)
      | Go file sock =>
          '(files, why, sock) ← receive_files fuel' sock;
          Some (file :: files, why, sock)
      end
  end.
End Loop.

End Client2.

(** ** The GUI consumer's network thread: 04-07-2025/client.c *)

Module Client.
Import MachInt ByteOrder CString Sock.

Definition FILENAME_LENGTH_BYTES : Z := 4.
Definition FILE_CONTENT_LENGTH_BYTES : Z := 8.

(** [sizeof(file_name)] for [char file_name[256]]. *)
Definition sizeof_file_name : Z := 256.

Inductive loop_exit : Type :=
| NoFilenameLength
| NoFilename
| EndOfTransmission
| ServerMessage (file_name : list byte)
| NoContentLength
| ContentAllocFailed
| NoContent (file_name : list byte).

Inductive outcome (A : Type) : Type :=
| Break (why : loop_exit) (sock : socket)
| Go (a : A) (sock : socket).
Arguments Break {A} why sock.
Arguments Go {A} a sock.

(** client.c:410-411 *)
Definition is_server_message (file_name : list byte) : bool :=
  bool_decide (strstr file_name (lit "NO_FILE_FOUND:") <> None)
  || strcmp_is_0 file_name (lit "NO_FILE_SELECTED")
  || strcmp_is_0 file_name (lit "NO_FILES_IN_FOLDER").

Section Loop.
Variable malloc_ok : Z -> bool.

(** client.c:390-404: the name of the next frame. *)
Definition recv_file_name (sock : socket) : option (outcome (list byte)) :=
  '(r, filename_len_network, sock) ← recvall sock FILENAME_LENGTH_BYTES;
  if r =? -1 then Some (Break NoFilenameLength sock) else
  let filename_length := uint32_t (ntohl (object_value filename_len_network)) in
  let filename_length :=
    if sizeof_file_name <=? filename_length
    then uint32_t (sizeof_file_name - 1) else filename_length in
  '(r, file_name, sock) ← recvall sock filename_length;
  if r =? -1 then Some (Break NoFilename sock) else
  Some (Go (file_name ++ [NUL]) sock).

(** client.c:389-485, up to the parsing of the content: one turn of
    [while (plotting_active)]. *)
Definition receive_one (sock : socket)
  : option (outcome (list byte * list byte)) :=
  name ← recv_file_name sock;
  match name with
  | Break why sock => Some (Break why sock)
  | Go file_name sock =>
      if strcmp_is_0 file_name (lit "END_OF_TRANSMISSION")
      then Some (Break EndOfTransmission sock) else
      if is_server_message file_name then
        '(_, _, sock) ← recvall sock FILE_CONTENT_LENGTH_BYTES;
        Some (Break (ServerMessage (c_str file_name)) sock)
      else
      '(r, file_content_len_network, sock) ← recvall sock FILE_CONTENT_LENGTH_BYTES;
      if r =? -1 then Some (Break NoContentLength sock) else
      let file_content_length :=
        uint64_t (ntohll_custom (object_value file_content_len_network)) in
      if negb (malloc_ok (uint64_t (file_content_length + 1)))
      then Some (Break ContentAllocFailed sock) else
      '(r, file_content_data, sock) ← recvall sock file_content_length;
      if r =? -1 then Some (Break (NoContent (c_str file_name)) sock) else
      Some (Go (c_str file_name, c_str (file_content_data ++ [NUL])) sock)
  end.
End Loop.

End Client.

(** ** The queue between the network thread and the GUI thread *)

Module Queue.
Import MachInt CString.

(** client.c:65 [QueuedData] *)
Record QueuedData : Type := {
  raw_adc_values : list float;
  num_samples : Z;
  interval_ms : Z;
  file_name : list byte
}.

(** client.c:73-76: [data_queue[10]] and its three indices. *)
Record queue : Type := {
  data_queue : list (option QueuedData);
  queue_head : Z;
  queue_tail : Z;
  queue_count : Z
}.

Definition initial : queue :=
  {| data_queue := replicate 10 None;
     queue_head := 0; queue_tail := 0; queue_count := 0 |}.

Inductive put_result : Type :=
| Put                (* "Put full file ... into queue" *)
| DroppedQueueFull   (* "Queue is full, dropping file" *)
| DroppedNoMemory    (* malloc for QueuedData failed *)
| NotAdded.          (* "No valid ADC values found" *)

(** client.c:458-484. [raw_adc_values] is [None] for a null pointer;
    [item_alloc_ok] says whether [malloc(sizeof(QueuedData))] succeeds. *)
Definition put_file (item_alloc_ok : bool) (q : queue)
           (raw_adc_values : option (list float)) (raw_adc_count : Z)
           (interval_ms : Z) (file_name : list byte) : queue * put_result :=
  match raw_adc_values with
  | Some values =>
      if 0 <? raw_adc_count then
        if queue_count q <? 10 then
          if item_alloc_ok then
            let data_item :=
              {| raw_adc_values := values;
                 num_samples := raw_adc_count;
                 interval_ms := interval_ms;
                 file_name := take 255 (c_str file_name) |} in
            ({| data_queue := <[Z.to_nat (queue_tail q) := Some data_item]> (data_queue q);
                queue_head := queue_head q;
                queue_tail := Z.rem (int (queue_tail q + 1)) 10;
                queue_count := int (queue_count q + 1) |}, Put)
          else (q, DroppedNoMemory)
        else (q, DroppedQueueFull)
      else (q, NotAdded)
  | None => (q, NotAdded)
  end.

(** client.c:981-984: the GUI thread takes the oldest file, if any. *)
Definition take_file (q : queue) : option (option QueuedData * queue) :=
  if 0 <? queue_count q then
    Some (default None (data_queue q !! Z.to_nat (queue_head q)),
          {| data_queue := data_queue q;
             queue_head := Z.rem (int (queue_head q + 1)) 10;
             queue_tail := queue_tail q;
             queue_count := int (queue_count q - 1) |})
  else None.

(** The slots in use, oldest first. *)
Definition waiting (q : queue) : list (option QueuedData) :=
  map (fun i => default None
                  (data_queue q !! Z.to_nat (Z.rem (queue_head q + Z.of_nat i) 10)))
      (seq 0 (Z.to_nat (queue_count q))).

(** The states the two threads can reach. *)
Definition well_formed (q : queue) : Prop :=
  length (data_queue q) = 10%nat /\
  0 <= queue_head q < 10 /\
  0 <= queue_count q <= 10 /\
  queue_tail q = Z.rem (queue_head q + queue_count q) 10.

End Queue.

(** ** The circular buffer of client.c *)

Module CircBuf.
Import MachInt.

Section Buffer.
(** The element type; [double] in the program. *)
Context {T : Type}.

(** client.c:43. [data] is [None] for a null pointer, else the block. *)
Record CircularBuffer : Type := {
  data : option (list T);
  head : Z;
  tail : Z;
  count : Z;
  max_size : Z
}.

(** A buffer in static storage before [init_circular_buffer]. *)
Definition zeroed : CircularBuffer :=
  {| data := None; head := 0; tail := 0; count := 0; max_size := 0 |}.

(** client.c:163. [block] is what [malloc] returns: [None], or a block
    of [max_size] elements with whatever content. A failed [malloc]
    ends the process ([None]). *)
Definition init_circular_buffer (block : option (list T)) (max_size : Z)
  : option CircularBuffer :=
  match block with
  | None => None
  | Some d => Some {| data := Some d; head := 0; tail := 0; count := 0;
                      max_size := max_size |}
  end.

(** client.c:173 *)
Definition append_circular_buffer (cb : CircularBuffer) (value : T)
  : CircularBuffer :=
  match data cb with
  | None => cb
  | Some d =>
      let d := <[Z.to_nat (tail cb) := value]> d in
      let new_tail := Z.rem (int (tail cb + 1)) (max_size cb) in
      if count cb <? max_size cb then
        {| data := Some d; head := head cb; tail := new_tail;
           count := int (count cb + 1); max_size := max_size cb |}
      else
        {| data := Some d; head := Z.rem (int (head cb + 1)) (max_size cb);
           tail := new_tail; count := count cb; max_size := max_size cb |}
  end.

(** client.c:181. The result is the returned pointer ([None] for NULL),
    [*actual_len], and the buffer as the call leaves it.
    [snapshot_alloc_ok] says whether the [malloc] of the copy succeeds. *)
Definition get_circular_buffer_snapshot (snapshot_alloc_ok : bool)
           (cb : CircularBuffer) : option (list T) * Z * CircularBuffer :=
  let actual_len := count cb in
  if count cb =? 0 then (None, actual_len, cb) else
  if negb snapshot_alloc_ok then (None, actual_len, cb) else
  let d := default [] (data cb) in
  if head cb <? tail cb then
    (Some (take (Z.to_nat (count cb)) (drop (Z.to_nat (head cb)) d)),
     actual_len, cb)
  else
    let part1_len := int (max_size cb - head cb) in
    (Some (take (Z.to_nat part1_len) (drop (Z.to_nat (head cb)) d)
           ++ take (Z.to_nat (tail cb)) d),
     actual_len, cb).

(** client.c:999-1001: [head = tail = count = 0]. *)
Definition clear (cb : CircularBuffer) : CircularBuffer :=
  {| data := data cb; head := 0; tail := 0; count := 0;
     max_size := max_size cb |}.

(** Operations on a buffer, for statements about sequences of them. *)
Inductive operation : Type :=
| Init (block : list T) (max_size : Z)
| Append (value : T).

Definition apply (cb : CircularBuffer) (op : operation) : CircularBuffer :=
  match op with
  | Init block max_size =>
      default cb (init_circular_buffer (Some block) max_size)
  | Append value => append_circular_buffer cb value
  end.

Definition run (cb : CircularBuffer) (ops : list operation) : CircularBuffer :=
  fold_left apply ops cb.

(** An [Init] the program can make: a positive [int] size and a block
    of that many elements. *)
Definition valid_operation (op : operation) : Prop :=
  match op with
  | Init block max_size =>
      0 < max_size <= INT_MAX /\ Z.of_nat (length block) = max_size
  | Append _ => True
  end.

(** The last [n] elements of a list. *)
Definition last_n (n : nat) (l : list T) : list T := drop (length l - n) l.

(** The structural invariant: the indices stay inside the block and
    [tail] is [count] places after [head], around the end of the block. *)
Definition well_formed (cb : CircularBuffer) : Prop :=
  0 < max_size cb <= INT_MAX /\
  0 <= count cb <= max_size cb /\
  0 <= head cb < max_size cb /\
  tail cb = (head cb + count cb) mod max_size cb.

(** [cb] is what [init_circular_buffer] and then one
    [append_circular_buffer] for each of [pushed] lead to: before the
    block is full the values sit at its start, afterwards the newest
    [max_size] of them sit around [head]. *)
Definition holds (cb : CircularBuffer) (pushed : list T) : Prop :=
  0 < max_size cb <= INT_MAX /\
  exists d,
    data cb = Some d /\ Z.of_nat (length d) = max_size cb /\
    (Z.of_nat (length pushed) < max_size cb ->
     head cb = 0 /\ tail cb = Z.of_nat (length pushed) /\
     count cb = Z.of_nat (length pushed) /\
     take (length pushed) d = pushed) /\
    (max_size cb <= Z.of_nat (length pushed) ->
     count cb = max_size cb /\ head cb = tail cb /\
     0 <= head cb < max_size cb /\
     drop (Z.to_nat (head cb)) d ++ take (Z.to_nat (head cb)) d
     = last_n (Z.to_nat (max_size cb)) pushed).

End Buffer.
Arguments CircularBuffer T : clear implicits.
Arguments operation T : clear implicits.

End CircBuf.

(** ** C doubles *)

Module Double.
Import MachInt.

(** [(double)z] for an integer [z]: the nearest binary64 value. *)
Definition of_Z (z : Z) : float := SF2Prim (binary_normalize prec emax z 0 false).

(** [(int)x]: the fraction is dropped. The C result is undefined for a
    NaN, an infinity or a value outside [int]; x86 then yields [INT_MIN],
    and so does this model (a finite value outside [int] is wrapped). *)
Definition to_int (x : float) : Z :=
  match Prim2SF x with
  | S754_zero _ => 0
  | S754_finite s m e =>
      let magnitude := Z.shiftl (Z.pos m) e in
      int (if s then - magnitude else magnitude)
  | _ => - 2 ^ 31
  end.

(** [isnan(x)] *)
Definition isnan (x : float) : bool := is_nan x.

(** [NAN] *)
Definition NAN : float := nan.

End Double.

(** ** Calibration: raw ADC counts to weights *)

Module Calibration.
Import Double.
Local Open Scope float_scope.

(** client.c:32 [#define ADC_MAX_VAL 2147483648.0] *)
Definition ADC_MAX_VAL : float := 2147483648.

Section Constants.
(** The two calibration macros of the translation unit. *)
Variables ZERO_CAL SCALE_CAL : float.

(** client.c:207-208: the body of the loop of [normalize_to_weights]. *)
Definition weight_of (value : Z) : float :=
  let data_in := Double.of_Z value / ADC_MAX_VAL in
  if negb (SCALE_CAL =? 0) then (data_in - ZERO_CAL) / SCALE_CAL else NAN.

(** client.c:201 [normalize_to_weights]: [None] is a null pointer, for
    the argument and for the result. [num_values] elements are read. *)
Definition normalize_to_weights (values : option (list Z)) (num_values : Z)
  : option (list float) :=
  match values with
  | Some values =>
      if (num_values <=? 0)%Z then None
      else Some (map weight_of (take (Z.to_nat num_values) values))
  | None => None
  end.

(** c2.c:368 [normalize_to_weight]; [0x80000000] is 2^31. *)
Definition normalize_to_weight (adc_value : Z) : float :=
  let data_in := Double.of_Z adc_value / Double.of_Z 0x80000000 in
  if SCALE_CAL =? 0 then 0 else (data_in - ZERO_CAL) / SCALE_CAL.
End Constants.

(** The constants of client.c:30-31 and of c2.c:32-33, each read as the
    nearest binary64 value, as a C compiler reads it. *)
#[local] Set Warnings "-inexact-float".
Definition client_ZERO_CAL : float := 0.01823035255075.
Definition client_SCALE_CAL : float := 0.00000451794631.
Definition c2_ZERO_CAL : float := -0.0006981067708.
Definition c2_SCALE_CAL : float := 0.00000452466566.

End Calibration.

(** ** The per-sample processing step of client.c *)

Module Pipeline.
Import MachInt Double CircBuf.
Local Open Scope float_scope.

Definition PLOT_BUFFER_SIZE : Z := 500.
Definition DSP_BUFFER_SIZE : Z := 500.
Definition FFT_WINDOW_SIZE : Z := 256.
Definition FIR_NUM_TAPS : Z := 51.

(** client.c:214 [remove_dc_offset_temp]: the returned block ([None] for
    NULL) and [*out_len]. *)
Definition remove_dc_offset_temp (values : option (list float)) (num_values : Z)
  : option (list float) * Z :=
  let out_len := num_values in
  match values with
  | None => (None, out_len)
  | Some values =>
      if (num_values =? 0)%Z then (None, out_len) else
      let values := take (Z.to_nat num_values) values in
      let '(sum, nan_count) :=
        fold_left (fun '(sum, nan_count) v =>
                     if negb (isnan v) then (sum + v, nan_count)
                     else (sum, int (nan_count + 1)%Z))
                  values (0, 0%Z) in
      if (int (num_values - nan_count) =? 0)%Z
      then (Some (map (fun _ => NAN) values), out_len) else
      let mean := sum / Double.of_Z (int (num_values - nan_count)) in
      (Some (map (fun v => v - mean) values), out_len)
  end.

(** client.c:233 [compute_fft] (a placeholder in the source): the
    frequencies, the magnitudes, the dominant frequency, [*fft_len_out]. *)
Definition compute_fft (values : list float) (num_values : Z) (sampling_rate : float)
  : option (list float) * option (list float) * float * Z :=
  let fft_len := Z.quot num_values 2 in
  if (num_values <? 2)%Z then (None, None, 0, 0%Z) else
  let frequencies :=
    map (fun i => Double.of_Z (Z.of_nat i) * sampling_rate / Double.of_Z num_values)
        (seq 0 (Z.to_nat fft_len)) in
  let magnitude := map (fun _ => 1) (seq 0 (Z.to_nat fft_len)) in
  let dominant_frequency :=
    if (1 <? fft_len)%Z then nth 1 frequencies 0 else 0 in
  (Some frequencies, Some magnitude, dominant_frequency, fft_len).

(** client.c:258 [fir_filter] (a placeholder in the source): the filtered
    values, the coefficients, and the two lengths. *)
Definition fir_filter (values : list float) (num_values : Z)
           (cut_off_frequency sampling_rate : float)
  : option (list float) * option (list float) * Z * Z :=
  if (num_values =? 0)%Z || (sampling_rate <=? 0)
  then (None, None, 0%Z, 0%Z) else
  let filtered_values := take (Z.to_nat num_values) values in
  let fir_coefficients :=
    <[Z.to_nat (Z.quot FIR_NUM_TAPS 2) := 1]> (replicate (Z.to_nat FIR_NUM_TAPS) 0) in
  (Some filtered_values, Some fir_coefficients, num_values, FIR_NUM_TAPS).

(** client.c:79 [FileProcessingState], the fields the step uses. *)
Record FileProcessingState : Type := {
  current_file_raw_adc_values : list float;
  current_file_num_samples : Z;
  current_file_interval_ms : Z;
  current_file_index : Z;
  all_raw_weights_to_save : list float;
  all_filtered_weights_to_save : list float;
  last_fir_coefficients_to_save : option (list float);
  last_fft_frequencies_to_save : option (list float);
  last_fft_magnitude_to_save : option (list float)
}.

(** client.c:849 [current_file_raw_adc_values[current_file_index]]: the
    sample the next step works on. *)
Definition sample_of (st : FileProcessingState) : float :=
  nth (Z.to_nat (current_file_index st)) (current_file_raw_adc_values st) NAN.

(** client.c:51-53: the three global buffers. *)
Record Buffers : Type := {
  current_raw_buffer : CircularBuffer float;
  current_filtered_buffer : CircularBuffer float;
  dsp_raw_adc_buffer : CircularBuffer float
}.

Inductive step_result : Type :=
| Processed (st : FileProcessingState) (b : Buffers)
| SnapshotFailed (st : FileProcessingState) (b : Buffers).

Section Step.
Variables ZERO_CAL SCALE_CAL : float.

(** client.c:849-944: the branch of [process_data_gui_callback] taken
    while [current_file_index < current_file_num_samples]. The
    [realloc]s of the two save arrays are taken to succeed. *)
Definition process_sample (snapshot_alloc_ok : bool)
           (st : FileProcessingState) (b : Buffers) : step_result :=
  let current_raw_adc := sample_of st in
  let dsp := append_circular_buffer (dsp_raw_adc_buffer b) current_raw_adc in
  let temp_adc := Double.to_int current_raw_adc in
  let current_raw_weight_arr :=
    Calibration.normalize_to_weights ZERO_CAL SCALE_CAL (Some [temp_adc]) 1 in
  let current_raw_weight :=
    match current_raw_weight_arr with
    | Some arr => nth 0 arr NAN
    | None => NAN
    end in
  let raw := append_circular_buffer (current_raw_buffer b) current_raw_weight in
  let st := {| current_file_raw_adc_values := current_file_raw_adc_values st;
               current_file_num_samples := current_file_num_samples st;
               current_file_interval_ms := current_file_interval_ms st;
               current_file_index := current_file_index st;
               all_raw_weights_to_save :=
                 all_raw_weights_to_save st ++ [current_raw_weight];
               all_filtered_weights_to_save := all_filtered_weights_to_save st;
               last_fir_coefficients_to_save := last_fir_coefficients_to_save st;
               last_fft_frequencies_to_save := last_fft_frequencies_to_save st;
               last_fft_magnitude_to_save := last_fft_magnitude_to_save st |} in
  let sampling_rate :=
    if (0 <? current_file_interval_ms st)%Z
    then 1000 / Double.of_Z (current_file_interval_ms st) else 1 in
  let min_dsp_samples :=
    if (FFT_WINDOW_SIZE <? FIR_NUM_TAPS)%Z then FIR_NUM_TAPS else FFT_WINDOW_SIZE in
  let finish (st : FileProcessingState) (filtered_weight_for_plot
              filtered_weight_to_save : float) : step_result :=
    let filtered :=
      if (FIR_NUM_TAPS <=? count dsp)%Z
      then append_circular_buffer (current_filtered_buffer b) filtered_weight_for_plot
      else append_circular_buffer (current_filtered_buffer b) NAN in
    Processed
      {| current_file_raw_adc_values := current_file_raw_adc_values st;
         current_file_num_samples := current_file_num_samples st;
         current_file_interval_ms := current_file_interval_ms st;
         current_file_index := int (current_file_index st + 1)%Z;
         all_raw_weights_to_save := all_raw_weights_to_save st;
         all_filtered_weights_to_save :=
           all_filtered_weights_to_save st ++ [filtered_weight_to_save];
         last_fir_coefficients_to_save := last_fir_coefficients_to_save st;
         last_fft_frequencies_to_save := last_fft_frequencies_to_save st;
         last_fft_magnitude_to_save := last_fft_magnitude_to_save st |}
      {| current_raw_buffer := raw;
         current_filtered_buffer := filtered;
         dsp_raw_adc_buffer := dsp |} in
  if (min_dsp_samples <=? count dsp)%Z then
    match get_circular_buffer_snapshot snapshot_alloc_ok dsp with
    | (None, _, _) =>
        SnapshotFailed st {| current_raw_buffer := raw;
                             current_filtered_buffer := current_filtered_buffer b;
                             dsp_raw_adc_buffer := dsp |}
    | (Some snapshot, dsp_snapshot_len, _) =>
        match remove_dc_offset_temp (Some snapshot) dsp_snapshot_len with
        | (Some processed_window_dc_removed, processed_len_dc_removed) =>
            let '(frequencies, magnitude, dom_freq, fft_len) :=
              compute_fft processed_window_dc_removed processed_len_dc_removed
                          sampling_rate in
            let '(filtered_segment, fir_coefficients, filtered_segment_len, _) :=
              fir_filter processed_window_dc_removed processed_len_dc_removed
                         dom_freq sampling_rate in
            let st :=
              {| current_file_raw_adc_values := current_file_raw_adc_values st;
                 current_file_num_samples := current_file_num_samples st;
                 current_file_interval_ms := current_file_interval_ms st;
                 current_file_index := current_file_index st;
                 all_raw_weights_to_save := all_raw_weights_to_save st;
                 all_filtered_weights_to_save := all_filtered_weights_to_save st;
                 last_fir_coefficients_to_save := fir_coefficients;
                 last_fft_frequencies_to_save := frequencies;
                 last_fft_magnitude_to_save := magnitude |} in
            match filtered_segment with
            | Some segment =>
                if (0 <? filtered_segment_len)%Z then
                  let filtered_point_dc_removed :=
                    nth (Z.to_nat (filtered_segment_len - 1)) segment NAN in
                  finish st filtered_point_dc_removed filtered_point_dc_removed
                else finish st current_raw_weight current_raw_weight
            | None => finish st current_raw_weight current_raw_weight
            end
        | (None, _) => finish st current_raw_weight current_raw_weight
        end
    end
  else finish st current_raw_weight current_raw_weight.

(** A file taken from the queue (client.c:988-1001): the state is
    reset and the three buffers are emptied. *)
Definition start_file (values : list float) (num_samples interval_ms : Z)
           (b : Buffers) : FileProcessingState * Buffers :=
  ({| current_file_raw_adc_values := values;
      current_file_num_samples := num_samples;
      current_file_interval_ms := interval_ms;
      current_file_index := 0;
      all_raw_weights_to_save := [];
      all_filtered_weights_to_save := [];
      last_fir_coefficients_to_save := None;
      last_fft_frequencies_to_save := None;
      last_fft_magnitude_to_save := None |},
   {| current_raw_buffer := clear (current_raw_buffer b);
      current_filtered_buffer := clear (current_filtered_buffer b);
      dsp_raw_adc_buffer := clear (dsp_raw_adc_buffer b) |}).

(** [n] steps in a row, stopping at a failed snapshot. *)
Fixpoint process_samples (n : nat) (st : FileProcessingState) (b : Buffers)
  : step_result :=
  match n with
  | O => Processed st b
  | S n' =>
      match process_sample true st b with
      | Processed st b => process_samples n' st b
      | failed => failed
      end
  end.
End Step.

(** client.c:1070-1072: the buffers [main] allocates; [blank] stands for
    the content of a fresh block. *)
Definition initial_buffers (blank : float) : Buffers :=
  let fresh size :=
    {| data := Some (replicate (Z.to_nat size) blank);
       head := 0%Z; tail := 0%Z; count := 0%Z; max_size := size |} in
  {| current_raw_buffer := fresh PLOT_BUFFER_SIZE;
     current_filtered_buffer := fresh PLOT_BUFFER_SIZE;
     dsp_raw_adc_buffer := fresh DSP_BUFFER_SIZE |}.

End Pipeline.

(** ** The configuration text: c2.c:118-130 and client.c:366-387 *)

Module Config.
Import MachInt CString.

(** [isspace] in the C locale. *)
Definition isspace (b : byte) : bool :=
  match b with
  | x20 | x09 | x0a | x0b | x0c | x0d => true
  | _ => false
  end.

Definition digit_value (b : byte) : option Z :=
  let v := byte.unsigned b - 48 in
  if (0 <=? v) && (v <=? 9) then Some v else None.

Fixpoint skip_spaces (s : list byte) : list byte :=
  match s with
  | b :: rest => if isspace b then skip_spaces rest else s
  | [] => []
  end.

(** The value of the longest run of digits at the start of [s], read
    after the value [acc]. *)
Fixpoint scan_digits (s : list byte) (acc : Z) : Z :=
  match s with
  | b :: rest =>
      match digit_value b with
      | Some v => scan_digits rest (10 * acc + v)
      | None => acc
      end
  | [] => acc
  end.

(** The conversion [%d] of [sscanf]: white space, a sign, digits. [None]
    when no digit follows. For a numeral whose value an [int] holds the
    result is that value. For a numeral outside [int] the C standard leaves
    the behaviour undefined and the libraries differ; the wrapped value
    given here stands for none of them. The theorems are about numerals an
    [int] holds. *)
Definition scan_d (s : list byte) : option Z :=
  let s := skip_spaces s in
  let '(negative, s) :=
    match s with
    | x2d :: rest => (true, rest)
    | x2b :: rest => (false, rest)
    | _ => (false, s)
    end in
  match s with
  | b :: _ =>
      match digit_value b with
      | Some _ =>
          let magnitude := scan_digits s 0 in
          Some (int (if negative then - magnitude else magnitude))
      | None => None
      end
  | [] => None
  end.

Fixpoint scan_word (s : list byte) : list byte :=
  match s with
  | b :: rest => if isspace b then [] else b :: scan_word rest
  | [] => []
  end.

(** The conversion [%s] of [sscanf]: white space, then the characters up
    to the next white space. [None] at the end of the input. *)
Definition scan_s (s : list byte) : option (list byte) :=
  match skip_spaces s with
  | [] => None
  | s => Some (scan_word s)
  end.

(** [sscanf(input, "<literal>%d", &x) == 1], with the value stored. *)
Definition sscanf_d (input literal : list byte) : option Z :=
  if starts_with literal (c_str input)
  then scan_d (drop (length literal) (c_str input)) else None.

(** [sscanf(input, "<literal>%s", buf) == 1], with the string stored. *)
Definition sscanf_s (input literal : list byte) : option (list byte) :=
  if starts_with literal (c_str input)
  then scan_s (drop (length literal) (c_str input)) else None.

(** c2.c:119,121-124 *)
Definition parse_interval (config_data : list byte) : Z :=
  let interval_ms := 20 in
  match strstr config_data (lit "INTERVAL:") with
  | Some interval_ptr =>
      match sscanf_d interval_ptr (lit "INTERVAL:") with
      | Some scanned => scanned
      | None => interval_ms
      end
  | None => interval_ms
  end.

(** [sizeof(mode)] for [char mode[50]]. *)
Definition sizeof_mode : Z := 50.

(** c2.c:120,125-128. [None] when the scanned word and its terminator
    do not fit [char mode[50]]: the store runs past the array. *)
Definition parse_mode (config_data : list byte) : option (list byte) :=
  let mode := lit "interval" in
  match strstr config_data (lit "MODE:") with
  | Some mode_ptr =>
      match sscanf_s mode_ptr (lit "MODE:") with
      | Some scanned =>
          if Z.of_nat (length scanned) + 1 <=? sizeof_mode then Some scanned else None
      | None => Some mode
      end
  | None => Some mode
  end.

(** The lines [strtok(s, "\n")] yields, one call after the other. *)
Fixpoint strtok_lines (s : list byte) (line : list byte) : list (list byte) :=
  match s with
  | [] => match line with [] => [] | _ => [line] end
  | b :: rest =>
      if Byte.eqb b x0a
      then match line with
           | [] => strtok_lines rest []
           | _ => line :: strtok_lines rest []
           end
      else strtok_lines rest (line ++ [b])
  end.

(** client.c:366,381-386: only [INTERVAL] is read; there is no mode. *)
Definition client_parse_interval (config_data : list byte) : Z :=
  fold_left
    (fun interval_ms line =>
       match strstr line (lit "INTERVAL:") with
       | Some _ => default interval_ms (sscanf_d line (lit "INTERVAL:"))
       | None => interval_ms
       end)
    (strtok_lines (c_str config_data) []) 20.

(** A decimal numeral: its characters and its value. *)
Definition digit_char (d : Z) : byte := byte.of_Z (48 + d).
Definition numeral_text (negative : bool) (digits : list Z) : list byte :=
  (if negative then [x2d] else []) ++ map digit_char digits.
Definition numeral_value (negative : bool) (digits : list Z) : Z :=
  let magnitude := fold_left (fun acc d => 10 * acc + d) digits 0 in
  if negative then - magnitude else magnitude.
Definition is_digit (d : Z) : Prop := 0 <= d <= 9.

(** The text after a numeral does not go on with a digit. *)
Definition ends_numeral (post : list byte) : Prop :=
  match post with
  | [] => True
  | b :: _ => digit_value b = None
  end.

(** The text after a word is empty or starts with white space. *)
Definition ends_word (post : list byte) : Prop :=
  match post with
  | [] => True
  | b :: _ => isspace b = true
  end.

End Config.

(** ** The vocabulary of the protocol *)

Module Protocol.
Import CString.

(** The names that end the stream of frames. *)
Inductive sentinel : list byte -> Prop :=
| sentinel_end_of_transmission : sentinel (lit "END_OF_TRANSMISSION")
| sentinel_no_file_selected : sentinel (lit "NO_FILE_SELECTED")
| sentinel_no_files_in_folder : sentinel (lit "NO_FILES_IN_FOLDER")
| sentinel_no_file_found suffix : sentinel (lit "NO_FILE_FOUND:" ++ suffix).

(** A control frame: a name and a content length of zero. *)
Definition control_frame (name : list byte) : list byte :=
  Server.frame_layout name [].

(** A name a C string can hold. *)
Definition c_name (name : list byte) : Prop := Forall (fun b => b <> NUL) name.

End Protocol.

(** ** Sample inputs *)

Module Samples.
Import ByteOrder CString.

(** A frame whose name field holds 256 bytes, 255 times the letter A and a
    NUL, with a content of five bytes. *)
Definition overlong_name : list byte := replicate 255 x41 ++ [x00].
Definition overlong_frame : list byte :=
  big_endian 4 256 ++ overlong_name ++ big_endian 8 5 ++ lit "ADC:1".

(** A content of 2^31 bytes, each the letter A. *)
Definition content_of_2_GiB : list byte := replicate (Z.to_nat (2 ^ 31)) x41.

(** The configuration text of scenario A: [INTERVAL:20], a newline,
    [MODE:interval], a newline. *)
Definition scenario_config : list byte :=
  lit "INTERVAL:20" ++ [x0a] ++ lit "MODE:interval" ++ [x0a].

(** A configuration text with values that are not the defaults:
    [MODE:freq], a line feed, [INTERVAL:35], a line feed. *)
Definition config_with_values : list byte :=
  lit "MODE:freq" ++ [x0a] ++ lit "INTERVAL:35" ++ [x0a].

(** Two lines with an interval: [INTERVAL:5], a line feed, [INTERVAL:7]. *)
Definition two_intervals : list byte :=
  lit "INTERVAL:5" ++ [x0a] ++ lit "INTERVAL:7".

End Samples.

(** ** Sample states *)

Module SampleStates.
Import CString.

(** The file the network thread puts in the queue for frame number [i]. *)
Definition put_numbered (q : Queue.queue) (i : nat) : Queue.queue :=
  (Queue.put_file true q (Some [Double.of_Z (Z.of_nat i)]) 1 20
                  (lit "f" ++ [byte.of_Z (48 + Z.of_nat i)] ++ lit ".txt")).1.

(** The queue after ten files were put and none was taken. *)
Definition full_queue : Queue.queue := fold_left put_numbered (seq 0 10) Queue.initial.

(** A file of 300 samples, 1000, 1001, ..., as the GUI thread starts on it,
    and the state after [n] of its samples were processed. *)
Definition ramp : list float := map (fun i => Double.of_Z (Z.of_nat i)) (seq 1000 300).

Definition after_samples (n : nat) : Pipeline.step_result :=
  let '(st, b) := Pipeline.start_file ramp 300 20 (Pipeline.initial_buffers 0%float) in
  Pipeline.process_samples Calibration.client_ZERO_CAL Calibration.client_SCALE_CAL n st b.

Definition state_after (n : nat) : Pipeline.FileProcessingState * Pipeline.Buffers :=
  match after_samples n with
  | Pipeline.Processed st b => (st, b)
  | Pipeline.SnapshotFailed st b => (st, b)
  end.

End SampleStates.

(** ** Formatted output *)

Module Printf.
Import Config.

(** The decimal digits of [n], the least significant first. One digit is
    produced for each turn, and a number has no more digits than bits. *)
Fixpoint digits_rev (fuel : nat) (n : Z) : list Z :=
  match fuel with
  | O => []
  | S fuel' => if n <? 10 then [n] else (n mod 10) :: digits_rev fuel' (n / 10)
  end.

Definition digits (n : Z) : list Z := rev (digits_rev (S (Z.to_nat (Z.log2 n))) n).

(** The conversion [%d] of [printf]. *)
Definition format_d (n : Z) : list byte := numeral_text (n <? 0) (digits (Z.abs n)).

(** [snprintf(buf, size, ...)] keeps the first [size - 1] characters of the
    text. *)
Definition snprintf (size : Z) (text : list byte) : list byte :=
  take (Z.to_nat (size - 1)) text.

End Printf.

(** ** The session of server.c *)

Module ServerSession.
Import MachInt ByteOrder CString Server Printf.

Definition CONFIG_LENGTH_BYTES : Z := 4.

(** [#define DATA_FOLDER "adc_data"] *)
Definition DATA_FOLDER : list byte := lit "adc_data".

(** The two characters the format string of [send_config] writes as
    [\\n]: a backslash and the letter n. *)
Definition backslash_n : list byte := [x5c; x6e].

(** server.c:185 [send_config] *)
Definition send_config (w : wire) (interval_ms : Z) (mode : list byte) : wire :=
  let config_str :=
    snprintf BUFFER_SIZE
             (lit "INTERVAL:" ++ format_d interval_ms ++ backslash_n ++
              lit "MODE:" ++ c_str mode ++ backslash_n) in
  let config_len := strlen config_str in
  let net_config_len := htonl (uint32_t config_len) in
  let w := send w (object_bytes 4 net_config_len) CONFIG_LENGTH_BYTES in
  send w config_str config_len.

(** What [readdir] yields: whether [d_type == DT_REG], and [d_name]. *)
Record dirent : Type := { is_regular : bool; d_name : list byte }.

(** server.c:160: the entries that are sent. *)
Definition is_sent (dir : dirent) : bool :=
  is_regular dir && bool_decide (strstr (d_name dir) (lit ".txt") <> None).

(** server.c:162 [snprintf(filepath, sizeof(filepath), "%s/%s", ...)] with
    [char filepath[256]]. *)
Definition filepath_of (dir : dirent) : list byte :=
  snprintf 256 (DATA_FOLDER ++ [x2f] ++ c_str (d_name dir)).

(** server.c:159-167: the loop over the directory. [fopen_rb] is the file
    system: the content of the file at a path, if it can be opened. *)
Fixpoint send_entries (fopen_rb : list byte -> option (list byte))
         (entries : list dirent) (w : wire) (file_count : Z) : option (wire * Z) :=
  match entries with
  | [] => Some (w, file_count)
  | dir :: entries =>
      if is_sent dir then
        let filepath := filepath_of dir in
        w ← send_file_by_path w filepath (fopen_rb filepath);
        send_entries fopen_rb entries w (int (file_count + 1))
      else send_entries fopen_rb entries w file_count
  end.

(** server.c:143 [handle_client]. [opendir_result] is [None] when the data
    folder cannot be opened, else its entries in the order of [readdir]. *)
Definition handle_client (opendir_result : option (list dirent))
           (fopen_rb : list byte -> option (list byte)) : option wire :=
  let mode := lit "interval" in
  let interval_ms := 20 in
  let w := send_config [] interval_ms mode in
  match opendir_result with
  | Some entries =>
      '(w, file_count) ← send_entries fopen_rb entries w 0;
      if file_count =? 0
      then Some (send_control_message w (lit "NO_FILES_IN_FOLDER"))
      else Some (send_control_message w (lit "END_OF_TRANSMISSION"))
  | None => Some (send_control_message w (lit "NO_FILES_IN_FOLDER"))
  end.

End ServerSession.

(** ** The session of c2.c *)

Module Client2Session.
Import MachInt ByteOrder CString Sock Client2 Config.

Definition CONFIG_LENGTH_BYTES : Z := 4.

(** Why [main] called [exit(EXIT_FAILURE)] in its first phase. *)
Inductive config_exit : Type :=
| NoConfigLength
| ConfigAllocFailed
| NoConfigData.

Inductive config_outcome : Type :=
| ConfigExit (why : config_exit)
| ModeOverrun
| Configured (interval_ms : Z) (mode : list byte) (sock : socket).


Section Main.
Variable malloc_ok : Z -> bool.

(** c2.c:94-130: the configuration is received and read. [ModeOverrun]
    is the store of a word of 50 characters or more into [char mode[50]]. *)
Definition recv_config (sock : socket) : option config_outcome :=
  '(r, net_config_len, sock) ← recv_all sock CONFIG_LENGTH_BYTES;
  if r <=? 0 then Some (ConfigExit NoConfigLength) else
  let config_len := uint64_t (ntohl (object_value net_config_len)) in
  if negb (malloc_ok (uint64_t (config_len + 1)))
  then Some (ConfigExit ConfigAllocFailed) else
  '(r, config_data, sock) ← recv_all sock config_len;
  if r <=? 0 then Some (ConfigExit NoConfigData) else
  let config_data := config_data ++ [NUL] in
  let interval_ms := parse_interval config_data in
  match parse_mode config_data with
  | Some mode => Some (Configured interval_ms mode sock)
  | None => Some ModeOverrun
  end.

End Main.

End Client2Session.

(** ** The network thread of client.c, whole *)

Module ClientSession.
Import MachInt ByteOrder CString Sock Config.

Definition CONFIG_LENGTH_BYTES : Z := 4.

(** client.c:438-454: the samples of a file, one for each line that
    starts with [ADC:] and a number. *)
Definition parse_adc_lines (file_content_data : list byte) : list float :=
  fold_left
    (fun raw_adc_values current_adc_line =>
       match strstr current_adc_line (lit "ADC:") with
       | Some _ =>
           match sscanf_d current_adc_line (lit "ADC:") with
           | Some adc_val => raw_adc_values ++ [Double.of_Z adc_val]
           | None => raw_adc_values
           end
       | None => raw_adc_values
       end)
    (strtok_lines (c_str file_content_data) []) [].

Inductive config_outcome : Type :=
| ConfigExit
| Configured (interval_ms : Z) (sock : socket).

Section Thread.
Variable malloc_ok : Z -> bool.

(** client.c:366-387: the configuration is received and the interval is
    read from it. [config_len + 1] is computed in 32 bits. *)
Definition recv_config (sock : socket) : option config_outcome :=
  '(r, config_len_network, sock) ← recvall sock CONFIG_LENGTH_BYTES;
  if r =? -1 then Some ConfigExit else
  let config_len := uint32_t (ntohl (object_value config_len_network)) in
  if negb (malloc_ok (uint32_t (config_len + 1))) then Some ConfigExit else
  '(r, config_data_bytes, sock) ← recvall sock config_len;
  if r =? -1 then Some ConfigExit else
  Some (Configured (client_parse_interval (config_data_bytes ++ [NUL])) sock).

(** What one turn of the loop did. *)
Inductive turn : Type :=
| Stopped (why : Client.loop_exit)
| Handled (result : Queue.put_result).

(** client.c:389-485: one turn of [while (plotting_active)]: a frame is
    received, its samples are read and the file is put in the queue.
    [item_alloc_ok] says whether the [malloc] of the queue entry succeeds. *)
Definition network_turn (item_alloc_ok : bool) (interval_ms : Z)
           (q : Queue.queue) (sock : socket)
  : option (turn * Queue.queue * socket) :=
  step ← Client.receive_one malloc_ok sock;
  match step with
  | Client.Break why sock => Some (Stopped why, q, sock)
  | Client.Go (file_name, file_content_data) sock =>
      let raw_adc_values := parse_adc_lines file_content_data in
      let raw_adc_count := Z.of_nat (length raw_adc_values) in
      let '(q, result) :=
        Queue.put_file item_alloc_ok q
                       (match raw_adc_values with [] => None | _ => Some raw_adc_values end)
                       (int raw_adc_count) interval_ms file_name in
      Some (Handled result, q, sock)
  end.
(** client.c:389-485: the loop, while [plotting_active] stays set and the
    queue entries can be allocated: how each file ended, why the loop was
    left, and the queue and the socket then. *)
Fixpoint network_loop (fuel : nat) (interval_ms : Z) (q : Queue.queue) (sock : socket)
  : option (list Queue.put_result * Client.loop_exit * Queue.queue * socket) :=
  match fuel with
  | O => None
  | S fuel' =>
      '(t, q, sock) ← network_turn true interval_ms q sock;
      match t with
      | Stopped why => Some ([], why, q, sock)
      | Handled result =>
          '(results, why, q, sock) ← network_loop fuel' interval_ms q sock;
          Some (result :: results, why, q, sock)
      end
  end.

Inductive thread_result : Type :=
| ConfigFailed
| Ended (interval_ms : Z) (results : list Queue.put_result) (why : Client.loop_exit)
        (q : Queue.queue) (sock : socket).

(** client.c:337 [network_thread_func], from the connected socket on. *)
Definition network_thread_func (fuel : nat) (q : Queue.queue) (sock : socket)
  : option thread_result :=
  config ← recv_config sock;
  match config with
  | ConfigExit => Some ConfigFailed
  | Configured interval_ms sock =>
      '(results, why, q, sock) ← network_loop fuel interval_ms q sock;
      Some (Ended interval_ms results why q sock)
  end.
End Thread.

End ClientSession.

(** ** The text of a data file *)

Module AdcText.
Import CString Printf.

(** A line of a data file: a sample, or a line that holds no [ADC:]. *)
Inductive line : Type :=
| SampleLine (adc : Z)
| OtherLine (text : list byte).

Definition line_text (l : line) : list byte :=
  match l with
  | SampleLine adc => lit "ADC:" ++ format_d adc ++ [x0a]
  | OtherLine text => text ++ [x0a]
  end.

Definition file_text (lines : list line) : list byte := concat (map line_text lines).

(** The samples among the lines, in order. *)
Definition samples (lines : list line) : list Z :=
  omap (fun l => match l with SampleLine adc => Some adc | OtherLine _ => None end) lines.

(** A sample an [int] holds; a line that does not start with [ADC:] and
    holds no line feed and no NUL. *)
Definition valid_line (l : line) : Prop :=
  match l with
  | SampleLine adc => - 2 ^ 31 <= adc <= MachInt.INT_MAX
  | OtherLine text =>
      starts_with (lit "ADC:") text = false /\
      Forall (fun b => b <> x0a /\ b <> NUL) text
  end.

(** The same with a sample a [long] of 64 bits holds. *)
Definition valid_long_line (l : line) : Prop :=
  match l with
  | SampleLine adc => - 2 ^ 63 <= adc < 2 ^ 63
  | OtherLine text =>
      starts_with (lit "ADC:") text = false /\
      Forall (fun b => b <> x0a /\ b <> NUL) text
  end.

End AdcText.

(** ** Taking files from the queue *)

Module QueueUse.
Import Queue.

(** [n] calls of the code that takes a file (client.c:981-984): the
    entries taken, in order, and the queue that is left. *)
Fixpoint drain (n : nat) (q : queue) : list (option QueuedData) * queue :=
  match n with
  | O => ([], q)
  | S n' =>
      match take_file q with
      | Some (item, q') => let '(items, q'') := drain n' q' in (item :: items, q'')
      | None => ([], q)
      end
  end.

(** The entry [put_file] makes for a file. *)
Definition entry (values : list float) (n interval_ms : Z) (name : list byte)
  : QueuedData :=
  {| raw_adc_values := values; num_samples := n; interval_ms := interval_ms;
     file_name := take 255 (CString.c_str name) |}.

(** What the two threads do with the queue: the network thread offers a
    file (client.c:458-484), the GUI thread asks for one
    (client.c:980-985). *)
Inductive operation : Type :=
| Offer (item_alloc_ok : bool) (raw_adc_values : option (list float))
        (raw_adc_count interval_ms : Z) (file_name : list byte)
| Ask.

(** What the thread saw: how the offer ended, or the entry it got
    ([None] when none waited). *)
Inductive event : Type :=
| Offered (result : put_result)
| Got (item : option (option QueuedData)).

Definition apply (q : queue) (op : operation) : queue * event :=
  match op with
  | Offer item_alloc_ok raw_adc_values raw_adc_count interval_ms file_name =>
      let '(q, result) :=
        put_file item_alloc_ok q raw_adc_values raw_adc_count interval_ms file_name in
      (q, Offered result)
  | Ask =>
      match take_file q with
      | Some (item, q) => (q, Got (Some item))
      | None => (q, Got None)
      end
  end.

Fixpoint run (q : queue) (ops : list operation) : list event * queue :=
  match ops with
  | [] => ([], q)
  | op :: ops =>
      let '(q, e) := apply q op in
      let '(events, q) := run q ops in
      (e :: events, q)
  end.

(** A first-in first-out list of at most ten entries, under the same
    operations. *)
Definition fifo_apply (waiting : list QueuedData) (op : operation)
  : list QueuedData * event :=
  match op with
  | Offer item_alloc_ok (Some values) raw_adc_count interval_ms file_name =>
      if 0 <? raw_adc_count then
        if (length waiting <? 10)%nat then
          if item_alloc_ok
          then (waiting ++ [entry values raw_adc_count interval_ms file_name],
                Offered Put)
          else (waiting, Offered DroppedNoMemory)
        else (waiting, Offered DroppedQueueFull)
      else (waiting, Offered NotAdded)
  | Offer _ None _ _ _ => (waiting, Offered NotAdded)
  | Ask =>
      match waiting with
      | [] => ([], Got None)
      | first :: waiting => (waiting, Got (Some (Some first)))
      end
  end.

(** The queue [q] holds the entries [l], oldest first. *)
Definition represents (q : queue) (l : list QueuedData) : Prop :=
  well_formed q /\ waiting q = map Some l.

Fixpoint fifo_run (waiting : list QueuedData) (ops : list operation)
  : list event * list QueuedData :=
  match ops with
  | [] => ([], waiting)
  | op :: ops =>
      let '(waiting, e) := fifo_apply waiting op in
      let '(events, waiting) := fifo_run waiting ops in
      (e :: events, waiting)
  end.

End QueueUse.

(** ** The configuration text of server.c *)

Module ConfigText.
Import CString Printf ServerSession.

(** What the format [INTERVAL:%d\\nMODE:%s\\n] of [send_config] expands
    to. *)
Definition config_text (interval_ms : Z) (mode : list byte) : list byte :=
  lit "INTERVAL:" ++ format_d interval_ms ++ backslash_n ++
  lit "MODE:" ++ mode ++ backslash_n.

(** A mode [send_config] and the consumers can carry: a C string without
    white space. *)
Definition plain_word (mode : list byte) : Prop :=
  Forall (fun b => b <> NUL /\ Config.isspace b = false) mode.

End ConfigText.

(** ** Keys in a configuration text *)

(** What the specification means by a key that is present, said of the
    text alone. *)
Module KeyText.

(** The payload is text: it holds no NUL. *)
Definition text (payload : list byte) : Prop := Forall (fun b => b <> x00) payload.

(** The key is present in the text. *)
Definition occurs (key payload : list byte) : Prop :=
  exists pre post, payload = pre ++ key ++ post.

(** [pre] and [post] are what stands before and behind the first
    occurrence of the key. *)
Definition first_occurrence (key payload pre post : list byte) : Prop :=
  payload = pre ++ key ++ post /\
  forall pre' post', payload = pre' ++ key ++ post' -> (length pre <= length pre')%nat.

(** What follows [pre] is at the start of a line. *)
Definition line_start (pre : list byte) : Prop :=
  pre = [] \/ exists before, pre = before ++ [x0a].

End KeyText.

(** ** A whole session: server.c and c2.c *)

Module Session.
Import MachInt CString Protocol ServerSession.

(** The files of the data folder [handle_client] sends, in the order of
    [readdir]: the name of the entry and the content of the file. *)
Definition sent_files (fopen_rb : list byte -> option (list byte))
           (entries : list dirent) : list (list byte * list byte) :=
  omap (fun dir =>
          if is_sent dir
          then content ← fopen_rb (filepath_of dir); Some (d_name dir, content)
          else None)
       entries.

(** An entry [handle_client] makes one frame of, if it is one that is
    sent: its name is a C string without [/] whose path fits
    [char filepath[256]], and its file can be opened and has a size the
    [long] of [ftell] holds. *)
Definition sendable (fopen_rb : list byte -> option (list byte)) (dir : dirent) : Prop :=
  is_sent dir = true ->
  c_name (d_name dir) /\
  Forall (fun b => b <> x2f) (d_name dir) /\
  (length (d_name dir) <= 246)%nat /\
  exists content,
    fopen_rb (filepath_of dir) = Some content /\
    Z.of_nat (length content) <= Server.LONG_MAX.


(** The frame of a file. *)
Definition frame_of (file : list byte * list byte) : list byte :=
  Server.frame_layout file.1 file.2.


(** The same for client.c: the name is neither [END_OF_TRANSMISSION] nor
    a message of the server, and the file, which may be empty, is one
    [recvall] can be asked for. *)
Definition carried_to_client (fopen_rb : list byte -> option (list byte))
           (dir : dirent) : Prop :=
  is_sent dir = true ->
  c_name (d_name dir) /\
  Forall (fun b => b <> x2f) (d_name dir) /\
  (length (d_name dir) <= 246)%nat /\
  strcmp_is_0 (d_name dir ++ [NUL]) (lit "END_OF_TRANSMISSION") = false /\
  Client.is_server_message (d_name dir ++ [NUL]) = false /\
  exists content,
    fopen_rb (filepath_of dir) = Some content /\
    Z.of_nat (length content) < INT_MAX.

(** The queue entry client.c makes of a file that was sent, if it holds
    a sample. *)
Definition queued (interval_ms : Z) (file : list byte * list byte)
  : option Queue.QueuedData :=
  match ClientSession.parse_adc_lines (c_str (file.2 ++ [NUL])) with
  | [] => None
  | values =>
      Some (QueueUse.entry values (Z.of_nat (length values)) interval_ms file.1)
  end.

(** How the loop of client.c ends at the last message of the server, and
    what it leaves unread: the content length, at
    [END_OF_TRANSMISSION]. *)
Definition client_exit (files : list (list byte * list byte)) : Client.loop_exit :=
  match files with
  | [] => Client.ServerMessage (lit "NO_FILES_IN_FOLDER")
  | _ => Client.EndOfTransmission
  end.
Definition client_unread (files : list (list byte * list byte)) : list byte :=
  match files with
  | [] => []
  | _ => ByteOrder.big_endian 8 0
  end.

(** A data folder given by the lines of its files: the file at a path, if
    it can be opened, holds the text of its lines. *)
Definition fopen_text (lines_of : list byte -> option (list AdcText.line))
           (path : list byte) : option (list byte) :=
  match lines_of path with
  | Some lines => Some (AdcText.file_text lines)
  | None => None
  end.

(** The files that are sent, by name and lines. *)
Definition sent_lines (lines_of : list byte -> option (list AdcText.line))
           (entries : list dirent) : list (list byte * list AdcText.line) :=
  omap (fun dir =>
          if is_sent dir
          then match lines_of (filepath_of dir) with
               | Some lines => Some (d_name dir, lines)
               | None => None
               end
          else None)
       entries.

(** An entry client.c gets whole, with samples an [int] holds, if it is
    one that is sent: its name is a C string without [/] whose path fits
    [char filepath[256]], it is not one of the three fixed messages and
    [NO_FILE_FOUND:] does not occur in it, and its file can be opened and
    holds valid lines, fewer bytes than [INT_MAX]. *)
Definition lines_carried_to_client (lines_of : list byte -> option (list AdcText.line))
           (dir : dirent) : Prop :=
  is_sent dir = true ->
  c_name (d_name dir) /\
  Forall (fun b => b <> x2f) (d_name dir) /\
  (length (d_name dir) <= 246)%nat /\
  d_name dir <> lit "END_OF_TRANSMISSION" /\
  d_name dir <> lit "NO_FILE_SELECTED" /\
  d_name dir <> lit "NO_FILES_IN_FOLDER" /\
  ~ KeyText.occurs (lit "NO_FILE_FOUND:") (d_name dir) /\
  exists lines,
    lines_of (filepath_of dir) = Some lines /\
    Forall AdcText.valid_line lines /\
    Z.of_nat (length (AdcText.file_text lines)) < INT_MAX.

(** The queue entry of a file that holds a sample: the samples of its
    lines, their number, the interval and the name. *)
Definition queued_samples (interval_ms : Z) (file : list byte * list AdcText.line)
  : option Queue.QueuedData :=
  match AdcText.samples file.2 with
  | [] => None
  | adcs =>
      Some {| Queue.raw_adc_values := map Double.of_Z adcs;
              Queue.num_samples := Z.of_nat (length adcs);
              Queue.interval_ms := interval_ms;
              Queue.file_name := file.1 |}
  end.

(** The control message that ends the session. *)
Definition last_message (files : list (list byte * list byte)) : list byte :=
  match files with
  | [] => lit "NO_FILES_IN_FOLDER"
  | _ => lit "END_OF_TRANSMISSION"
  end.

End Session.

(** ** A sample data folder *)

Module SampleFolder.
Import CString ServerSession.

(** The entries of the folder, in the order of [readdir]: the directory
    itself, two data files, a file of another kind, and a directory whose
    name ends in [.txt]. *)
Definition entries : list dirent :=
  [ {| is_regular := false; d_name := lit "." |};
    {| is_regular := true; d_name := lit "b.txt" |};
    {| is_regular := true; d_name := lit "notes.md" |};
    {| is_regular := false; d_name := lit "old.txt" |};
    {| is_regular := true; d_name := lit "a.txt" |} ].

(** The files of the folder. *)
Definition fopen_rb (path : list byte) : option (list byte) :=
  if bytes_eqb path (lit "adc_data/b.txt") then Some (lit "ADC:2" ++ [x0a])
  else if bytes_eqb path (lit "adc_data/a.txt")
       then Some (lit "ADC:1" ++ [x0a] ++ lit "ADC:3" ++ [x0a])
       else None.

(** The same files by their lines. *)
Definition lines_of (path : list byte) : option (list AdcText.line) :=
  if bytes_eqb path (lit "adc_data/b.txt") then Some [AdcText.SampleLine 2]
  else if bytes_eqb path (lit "adc_data/a.txt")
       then Some [AdcText.SampleLine 1; AdcText.SampleLine 3]
       else None.

End SampleFolder.

(** ** The steps of a file once the DSP window is long enough *)

Module PipelineUse.
Import MachInt Double Pipeline.
Local Open Scope float_scope.

(** client.c:876: the sampling rate a step works with. *)
Definition sampling_rate_of (interval_ms : Z) : float :=
  if (0 <? interval_ms)%Z then 1000 / Double.of_Z interval_ms else 1.

(** client.c:221-224, the first loop of [remove_dc_offset_temp]: the sum
    of the values that are no NaN, and the number of NaNs. *)
Definition sum_and_nan_count (window : list float) : float * Z :=
  fold_left (fun '(sum, nan_count) v =>
               if negb (isnan v) then (sum + v, nan_count)
               else (sum, int (nan_count + 1)%Z))
            window (0, 0%Z).

(** What [remove_dc_offset_temp] makes of the value [x] of a window: [x]
    less the mean of the values that are no NaN; NaN when all are. *)
Definition without_mean (window : list float) (x : float) : float :=
  let '(sum, nan_count) := sum_and_nan_count window in
  let valid := int (Z.of_nat (length window) - nan_count) in
  if (valid =? 0)%Z then NAN else x - sum / Double.of_Z valid.

End PipelineUse.

(** ** The callback of the GUI thread of client.c *)

Module Gui.
Import MachInt CString Queue Pipeline.

(** What a call of the callback returns to GLib. *)
Inductive gboolean : Type :=
| G_SOURCE_CONTINUE
| G_SOURCE_REMOVE.

(** The calls a call of the callback makes that reach outside it. *)
Inductive call : Type :=
| write_data_to_file (file_name : list byte)
                     (raw_weights_all filtered_weights_all : list float)
                     (fir_coefficients fft_frequencies_last
                      fft_magnitude_last : option (list float))
| g_source_remove (id : Z)
| g_timeout_add (interval : Z)
| gtk_main_quit.

(** The globals the callback works on: [g_file_state] (with the two
    fields the step leaves alone), the three buffers, the queue, and
    [data_processing_source_id]. *)
Record State : Type := {
  is_processing_file : bool;
  current_file_name : list byte;
  g_file_state : FileProcessingState;
  buffers : Buffers;
  queue_state : queue;
  data_processing_source_id : Z
}.

(** [memset(&g_file_state, 0, sizeof(FileProcessingState))] *)
Definition zeroed_file_state : FileProcessingState :=
  {| current_file_raw_adc_values := [];
     current_file_num_samples := 0;
     current_file_interval_ms := 0;
     current_file_index := 0;
     all_raw_weights_to_save := [];
     all_filtered_weights_to_save := [];
     last_fir_coefficients_to_save := None;
     last_fft_frequencies_to_save := None;
     last_fft_magnitude_to_save := None |}.

(** The state of the GUI thread when [main] starts the main loop. *)
Definition initial (blank : float) : State :=
  {| is_processing_file := false;
     current_file_name := [];
     g_file_state := zeroed_file_state;
     buffers := initial_buffers blank;
     queue_state := Queue.initial;
     data_processing_source_id := 0 |}.

(** client.c:978-1026, from the label [end_processing_loop_return_continue]
    on: the next file is taken from the queue, if one waits.
    [new_source_id] is what [g_timeout_add] returns. The result is [None]
    when the slot at [queue_head] holds a null pointer. *)
Definition check_queue (new_source_id : Z) (network_thread_running : bool)
           (s : State) (calls : list call) : option (State * list call * gboolean) :=
  match take_file (queue_state s) with
  | Some (Some data_item, q) =>
      let '(st, b) :=
        start_file (raw_adc_values data_item) (num_samples data_item)
                   (interval_ms data_item) (buffers s) in
      let s := {| is_processing_file := true;
                  current_file_name := take 255 (c_str (file_name data_item));
                  g_file_state := st;
                  buffers := b;
                  queue_state := q;
                  data_processing_source_id := new_source_id |} in
      let calls := calls ++ [g_timeout_add (current_file_interval_ms st)] in
      if new_source_id =? 0
      then Some (s, calls ++ [gtk_main_quit], G_SOURCE_REMOVE)
      else Some (s, calls, G_SOURCE_CONTINUE)
  | Some (None, _) => None
  | None =>
      if negb network_thread_running && (queue_count (queue_state s) =? 0)
         && negb (is_processing_file s)
      then Some (s, calls ++ [gtk_main_quit], G_SOURCE_REMOVE)
      else if negb (data_processing_source_id s =? 0)
           then Some (s, calls, G_SOURCE_CONTINUE)
           else Some (s, calls, G_SOURCE_REMOVE)
  end.

Section Callback.
Variables ZERO_CAL SCALE_CAL : float.

(** client.c:845 [process_data_gui_callback]: one call. The [realloc]s
    of the step are taken to succeed; drawing and the status label are
    left out. *)
Definition process_data_gui_callback (snapshot_alloc_ok : bool) (new_source_id : Z)
           (network_thread_running : bool) (s : State)
  : option (State * list call * gboolean) :=
  if is_processing_file s then
    if current_file_index (g_file_state s) <? current_file_num_samples (g_file_state s)
    then
      match process_sample ZERO_CAL SCALE_CAL snapshot_alloc_ok
                           (g_file_state s) (buffers s) with
      | Processed st b =>
          Some ({| is_processing_file := is_processing_file s;
                   current_file_name := current_file_name s;
                   g_file_state := st;
                   buffers := b;
                   queue_state := queue_state s;
                   data_processing_source_id := data_processing_source_id s |},
                [], G_SOURCE_CONTINUE)
      | SnapshotFailed st b =>
          check_queue new_source_id network_thread_running
                      {| is_processing_file := is_processing_file s;
                         current_file_name := current_file_name s;
                         g_file_state := st;
                         buffers := b;
                         queue_state := queue_state s;
                         data_processing_source_id := data_processing_source_id s |}
                      []
      end
    else
      let st := g_file_state s in
      let calls :=
        [write_data_to_file (current_file_name s)
                            (all_raw_weights_to_save st)
                            (all_filtered_weights_to_save st)
                            (last_fir_coefficients_to_save st)
                            (last_fft_frequencies_to_save st)
                            (last_fft_magnitude_to_save st)] in
      let calls :=
        if negb (data_processing_source_id s =? 0)
        then calls ++ [g_source_remove (data_processing_source_id s)]
        else calls in
      check_queue new_source_id network_thread_running
                  {| is_processing_file := false;
                     current_file_name := [];
                     g_file_state := zeroed_file_state;
                     buffers := buffers s;
                     queue_state := queue_state s;
                     data_processing_source_id := 0 |}
                  calls
  else check_queue new_source_id network_thread_running s [].

(** Calls in a row, with nothing put in the queue in between; each
    [g_timeout_add] returns [new_source_id]. The calls the callback made
    are collected. *)
Fixpoint callbacks (n : nat) (new_source_id : Z) (network_thread_running : bool)
         (s : State) : option (State * list call) :=
  match n with
  | O => Some (s, [])
  | S n' =>
      '(s, calls, _) ← process_data_gui_callback true new_source_id
                         network_thread_running s;
      '(s, more) ← callbacks n' new_source_id network_thread_running s;
      Some (s, calls ++ more)
  end.
End Callback.

(** The files written by the calls: the name, the raw weights and the
    number of filtered weights of each [write_data_to_file]. *)
Definition saved (calls : list call) : list (list byte * list float * nat) :=
  omap (fun c => match c with
                 | write_data_to_file file_name raw_weights_all filtered_weights_all _ _ _ =>
                     Some (file_name, raw_weights_all, length filtered_weights_all)
                 | _ => None
                 end)
       calls.

(** The calls it takes to work off the entries of the queue: one for
    each sample and one to finish each file. *)
Definition calls_for (waiting : list QueuedData) : nat :=
  fold_right (fun data_item n => (length (raw_adc_values data_item) + 1 + n)%nat)
             0%nat waiting.

(** client.c:858-864: the weight the raw plot gets for a sample of a
    file. *)
Definition raw_weight (ZERO_CAL SCALE_CAL : float) (current_raw_adc : float) : float :=
  Calibration.weight_of ZERO_CAL SCALE_CAL (Double.to_int current_raw_adc).

(** An entry whose [num_samples] is the number of its samples. *)
Definition sized (data_item : QueuedData) : Prop :=
  num_samples data_item = Z.of_nat (length (raw_adc_values data_item)) /\
  num_samples data_item <= INT_MAX.

End Gui.

(** ** A sample state of the GUI thread *)

Module SampleGui.
Import CString.

(** Two files as the network thread puts them in the queue. *)
Definition files : list Queue.QueuedData :=
  [QueueUse.entry [Double.of_Z 100; Double.of_Z 200] 2 20 (lit "f1.txt");
   QueueUse.entry [Double.of_Z 7] 1 20 (lit "f2.txt")].

(** The GUI thread before its first call, with the two files waiting. *)
Definition state : Gui.State :=
  {| Gui.is_processing_file := false;
     Gui.current_file_name := [];
     Gui.g_file_state := Gui.zeroed_file_state;
     Gui.buffers := Pipeline.initial_buffers 0%float;
     Gui.queue_state :=
       (QueueUse.run Queue.initial
          [QueueUse.Offer true (Some [Double.of_Z 100; Double.of_Z 200]) 2 20 (lit "f1.txt");
           QueueUse.Offer true (Some [Double.of_Z 7]) 1 20 (lit "f2.txt")]).2;
     Gui.data_processing_source_id := 0 |}.

End SampleGui.

(** ** The samples and raw weights of [process_data] of c2.c *)

Module Client2Process.
Import MachInt CString Config.

(** [long] on x86-64 Linux, the platform of c2.c: 64 bits. *)
Definition long (x : Z) : Z := to_signed 64 x.

(** The conversion [%ld] of [sscanf]: as [%d], into a [long]. *)
Definition scan_ld (s : list byte) : option Z :=
  let s := skip_spaces s in
  let '(negative, s) :=
    match s with
    | x2d :: rest => (true, rest)
    | x2b :: rest => (false, rest)
    | _ => (false, s)
    end in
  match s with
  | b :: _ =>
      match digit_value b with
      | Some _ =>
          let magnitude := scan_digits s 0 in
          Some (long (if negative then - magnitude else magnitude))
      | None => None
      end
  | [] => None
  end.

(** [sscanf(input, "<literal>%ld", &x) == 1], with the value stored. *)
Definition sscanf_ld (input literal : list byte) : option Z :=
  if starts_with literal (c_str input)
  then scan_ld (drop (length literal) (c_str input)) else None.

(** c2.c:219-243: the samples of a file, one for each line that starts
    with [ADC:] and a number. [strdup] and [realloc] are taken to
    succeed. *)
Definition parse_adc_lines (file_content : list byte) : list Z :=
  fold_left
    (fun raw_adc_values_long line =>
       match strstr line (lit "ADC:") with
       | Some _ =>
           match sscanf_ld line (lit "ADC:") with
           | Some adc_val => raw_adc_values_long ++ [adc_val]
           | None => raw_adc_values_long
           end
       | None => raw_adc_values_long
       end)
    (strtok_lines (c_str file_content) []) [].

Section Weights.
Variables ZERO_CAL SCALE_CAL : float.

(** c2.c:245-269: [raw_count] and the array [raw_weights] as the loop
    at line 266 fills it; [None] when [process_data] returns for want of
    samples. The allocations are taken to succeed. *)
Definition raw_weights (file_content : list byte) : option (Z * list float) :=
  let raw_adc_values_long := parse_adc_lines file_content in
  let raw_count := int (Z.of_nat (length raw_adc_values_long)) in
  if raw_count =? 0 then None
  else Some (raw_count,
             map (Calibration.normalize_to_weight ZERO_CAL SCALE_CAL)
                 raw_adc_values_long).
End Weights.

End Client2Process.

(** * Properties *)

(** ** Machine integers and byte order *)

Section MachIntFacts.
Import MachInt.

Lemma uint32_t_small x : 0 <= x < 2 ^ 32 -> uint32_t x = x.
Proof. intros. unfold uint32_t, to_unsigned. apply Z.mod_small. lia. Qed.

Lemma uint64_t_small x : 0 <= x < 2 ^ 64 -> uint64_t x = x.
Proof. intros. unfold uint64_t, to_unsigned. apply Z.mod_small. lia. Qed.

Lemma int_small x : - 2 ^ 31 <= x <= INT_MAX -> int x = x.
Proof.
  unfold int, to_signed, INT_MAX. intros.
  rewrite Z.mod_small; lia.
Qed.

Lemma ssize_t_small x : - 2 ^ 63 <= x <= SSIZE_MAX -> ssize_t x = x.
Proof.
  unfold ssize_t, to_signed, SSIZE_MAX. intros.
  rewrite Z.mod_small; lia.
Qed.
End MachIntFacts.

Section ByteOrderFacts.
Import MachInt ByteOrder.

Lemma le_split_add (n m : nat) (z : Z) :
  le_split (n + m) z = le_split n z ++ le_split m (Z.shiftr z (8 * Z.of_nat n)).
Proof.
  revert z. induction n as [|n IH]; intros z.
  - cbn. now rewrite Z.shiftr_0_r.
  - change (le_split (S n + m) z)
      with (byte.of_Z z :: le_split (n + m) (Z.shiftr z 8)).
    change (le_split (S n) z) with (byte.of_Z z :: le_split n (Z.shiftr z 8)).
    rewrite IH, Z.shiftr_shiftr by lia. cbn [app].
    repeat f_equal. lia.
Qed.

Lemma swapped_range x : 0 <= le_combine (rev (le_split 4 x)) < 2 ^ 32.
Proof.
  pose proof (le_combine_bound (rev (le_split 4 x))) as H.
  now rewrite length_rev, length_le_split in H.
Qed.

(** [htonl] puts the most significant byte first in memory. *)
Lemma object_bytes_htonl x : object_bytes 4 (htonl x) = big_endian 4 x.
Proof.
  unfold object_bytes, htonl, big_endian.
  apply split_le_combine'. now rewrite length_rev, length_le_split.
Qed.

Lemma ntohl_object_value bs :
  length bs = 4%nat -> ntohl (object_value bs) = le_combine (rev bs).
Proof.
  intros H. unfold ntohl, object_value.
  now rewrite (split_le_combine' bs 4 H).
Qed.

Lemma ntohl_big_endian x :
  0 <= x < 2 ^ 32 -> ntohl (object_value (big_endian 4 x)) = x.
Proof.
  intros H. rewrite ntohl_object_value.
  - unfold big_endian. rewrite rev_involutive, le_combine_split.
    apply Z.mod_small. simpl. lia.
  - unfold big_endian. now rewrite length_rev, length_le_split.
Qed.

(** The hand-written 64-bit swap in terms of the two 32-bit halves. *)
Lemma swap64_halves (f g : Z -> Z) v :
  (forall x, f x = le_combine (rev (le_split 4 x))) ->
  (forall x, g x = le_combine (rev (le_split 4 x))) ->
  Z.lor (uint64_t (Z.shiftl (uint64_t (f (uint32_t (Z.land v 0xFFFFFFFF)))) 32))
        (g (uint32_t (Z.shiftr v 32)))
  = le_combine (rev (le_split 8 v)).
Proof.
  intros Hf Hg. rewrite Hf, Hg.
  change 8%nat with (4 + 4)%nat. rewrite le_split_add, rev_app_distr.
  rewrite le_combine_app, length_rev, length_le_split.
  change (8 * Z.of_nat 4) with 32. change (Z.of_nat 4 * 8) with 32.
  assert (E1 : le_split 4 (uint32_t (Z.land v 0xFFFFFFFF)) = le_split 4 v).
  { rewrite (le_split_mod v 4). change 0xFFFFFFFF with (Z.ones 32).
    rewrite Z.land_ones by lia. unfold uint32_t, to_unsigned.
    change (Z.of_nat 4 * 8) with 32. now rewrite Z.mod_mod by lia. }
  assert (E2 : le_split 4 (uint32_t (Z.shiftr v 32)) = le_split 4 (Z.shiftr v 32)).
  { unfold uint32_t, to_unsigned. symmetry. apply le_split_mod. }
  rewrite E1, E2.
  pose proof (swapped_range v) as B1.
  rewrite (uint64_t_small (le_combine _)) by lia.
  rewrite uint64_t_small.
  - apply Z.lor_comm.
  - rewrite Z.shiftl_mul_pow2 by lia. lia.
Qed.

Lemma htobe64_custom_swaps v : htobe64_custom v = le_combine (rev (le_split 8 v)).
Proof. unfold htobe64_custom. now apply swap64_halves. Qed.

Lemma be64toh_custom_swaps v : be64toh_custom v = le_combine (rev (le_split 8 v)).
Proof. unfold be64toh_custom. now apply swap64_halves. Qed.

Lemma ntohll_custom_swaps v : ntohll_custom v = le_combine (rev (le_split 8 v)).
Proof. unfold ntohll_custom. now apply swap64_halves. Qed.

(** [htobe64_custom] puts the most significant byte first in memory. *)
Lemma object_bytes_htobe64 v : object_bytes 8 (htobe64_custom v) = big_endian 8 v.
Proof.
  rewrite htobe64_custom_swaps. unfold object_bytes, big_endian.
  apply split_le_combine'. now rewrite length_rev, length_le_split.
Qed.

Lemma be64toh_big_endian v :
  0 <= v < 2 ^ 64 -> be64toh_custom (object_value (big_endian 8 v)) = v.
Proof.
  intros H. rewrite be64toh_custom_swaps. unfold object_value, big_endian.
  rewrite split_le_combine'.
  - rewrite rev_involutive, le_combine_split. apply Z.mod_small. simpl. lia.
  - now rewrite length_rev, length_le_split.
Qed.

Lemma ntohll_big_endian v :
  0 <= v < 2 ^ 64 -> ntohll_custom (object_value (big_endian 8 v)) = v.
Proof.
  intros H. rewrite ntohll_custom_swaps, <- be64toh_custom_swaps.
  now apply be64toh_big_endian.
Qed.

Lemma length_big_endian n x : length (big_endian n x) = n.
Proof. unfold big_endian. now rewrite length_rev, length_le_split. Qed.
End ByteOrderFacts.

(** ** The exact-length readers *)

Section SockFacts.
Import MachInt Sock.

Lemma pending_chunk c rest :
  c <> [] -> pending (Chunk c :: rest) = c ++ pending rest.
Proof. destruct c; [congruence | reflexivity]. Qed.

Lemma advance_0 sock : advance sock 0 = sock.
Proof. now destruct sock. Qed.

Lemma pending_advance sock : forall n,
  (n <= length (pending sock))%nat ->
  pending (advance sock n) = drop n (pending sock).
Proof.
  induction sock as [|ev rest IH]; intros n Hn.
  - cbn in *. now destruct n.
  - destruct n as [|n]; [now rewrite advance_0|].
    destruct ev as [c|]; [|cbn in Hn; lia].
    destruct c as [|b c]; [cbn in Hn; lia|].
    rewrite pending_chunk in * by congruence.
    cbn [advance]. destruct (Nat.leb_spec (length (b :: c)) (S n)) as [Hle|Hgt].
    + rewrite length_app in Hn. rewrite IH by lia.
      now rewrite drop_app_ge by lia.
    + rewrite pending_chunk.
      * now rewrite drop_app_le by lia.
      * intros E. apply (f_equal length) in E. rewrite length_drop in E.
        cbn in E, Hgt. lia.
Qed.

Lemma recv_all_loop_done fuel sock buf total len :
  len <= total ->
  recv_all_loop fuel sock buf total len = Some (ssize_t total, buf, sock).
Proof.
  intros H. destruct fuel; cbn [recv_all_loop];
    now rewrite (proj2 (Z.ltb_ge total len)).
Qed.

Lemma recv_all_loop_step fuel sock buf total len :
  total < len ->
  recv_all_loop (S fuel) sock buf total len =
  let '(bytes_received, data, sock') := recv sock (len - total) in
  if bytes_received <=? 0 then Some (bytes_received, buf ++ data, sock')
  else recv_all_loop fuel sock' (buf ++ data) (total + bytes_received) len.
Proof.
  intros H. cbn [recv_all_loop]. now rewrite (proj2 (Z.ltb_lt total len)).
Qed.

(** What the loop of [recv_all] returns, by whether the socket still has
    the missing bytes to deliver. *)
Lemma recv_all_loop_spec sock : forall fuel buf total len,
  0 <= total <= len -> len <= SSIZE_MAX -> len - total <= Z.of_nat fuel ->
  ((Z.to_nat (len - total) <= length (pending sock))%nat ->
   recv_all_loop fuel sock buf total len =
   Some (len, buf ++ take (Z.to_nat (len - total)) (pending sock),
         advance sock (Z.to_nat (len - total)))) /\
  ((length (pending sock) < Z.to_nat (len - total))%nat ->
   exists ret buf' sock',
     recv_all_loop fuel sock buf total len = Some (ret, buf', sock') /\
     (ret = 0 \/ ret = -1)).
Proof.
  induction sock as [|ev rest IH]; intros fuel buf total len Ht Hl Hf.
  - destruct (Z.lt_ge_cases total len) as [Hlt|Hge].
    + destruct fuel as [|fuel]; [lia|]. rewrite recv_all_loop_step by lia.
      cbn. split; [lia|]. intros _. eauto 6.
    + assert (total = len) as -> by lia.
      rewrite recv_all_loop_done, Z.sub_diag by lia. cbn.
      rewrite app_nil_r, ssize_t_small by (unfold SSIZE_MAX in *; lia).
      split; [reflexivity | lia].
  - destruct (Z.lt_ge_cases total len) as [Hlt|Hge].
    2:{ assert (total = len) as -> by lia.
        rewrite recv_all_loop_done, Z.sub_diag by lia.
        change (Z.to_nat 0) with 0%nat. rewrite advance_0, take_0.
        rewrite app_nil_r, ssize_t_small by (unfold SSIZE_MAX in *; lia).
        split; [reflexivity | lia]. }
    destruct fuel as [|fuel]; [lia|]. rewrite recv_all_loop_step by lia.
    destruct ev as [c|].
    2:{ cbn. split; [lia|]. intros _. eauto 6. }
    destruct c as [|b c].
    { cbn [recv length].
      replace (Z.of_nat 0 <=? len - total) with true
        by (symmetry; apply Z.leb_le; lia).
      cbn. split; [lia|]. intros _. eauto 6. }
    rewrite pending_chunk by congruence.
    set (c' := b :: c) in *.
    assert (Hc : (0 < length c')%nat) by (cbn; lia).
    cbn [recv]. fold c'.
    destruct (Z.leb_spec (Z.of_nat (length c')) (len - total)) as [Hfit|Hbig].
    + replace (Z.of_nat (length c') <=? 0) with false
        by (symmetry; apply Z.leb_gt; lia).
      destruct (IH fuel (buf ++ c') (total + Z.of_nat (length c')) len)
        as [IHok IHfail]; [lia..|].
      replace (Z.to_nat (len - (total + Z.of_nat (length c'))))
        with (Z.to_nat (len - total) - length c')%nat in * by lia.
      split; intros Hp; rewrite length_app in Hp.
      * rewrite IHok by lia. rewrite take_app_ge by lia.
        rewrite <- app_assoc.
        replace (advance (Chunk c' :: rest) (Z.to_nat (len - total)))
          with (advance rest (Z.to_nat (len - total) - length c')); [reflexivity|].
        destruct (Z.to_nat (len - total)) as [|k] eqn:Ek; [lia|].
        cbn [advance]. fold c'.
        now rewrite (proj2 (Nat.leb_le (length c') (S k))) by lia.
      * apply IHfail. lia.
    + replace (len - total <=? 0) with false by (symmetry; apply Z.leb_gt; lia).
      rewrite recv_all_loop_done by lia.
      rewrite ssize_t_small by (unfold SSIZE_MAX in *; lia).
      split; [intros _ | rewrite length_app; lia].
      rewrite take_app_le by lia.
      replace (total + (len - total)) with len by lia.
      replace (advance (Chunk c' :: rest) (Z.to_nat (len - total)))
        with (Chunk (drop (Z.to_nat (len - total)) c') :: rest); [reflexivity|].
      destruct (Z.to_nat (len - total)) as [|k] eqn:Ek; [lia|].
      cbn [advance]. fold c'.
      now rewrite (proj2 (Nat.leb_gt (length c') (S k))) by lia.
Qed.
End SockFacts.

Section SockFacts2.
Import MachInt Sock.

Lemma recvall_loop_done fuel sock buf total len :
  len <= total ->
  recvall_loop fuel sock buf total len = Some (int total, buf, sock).
Proof.
  intros H. destruct fuel; cbn [recvall_loop];
    now rewrite (proj2 (Z.ltb_ge total len)).
Qed.

Lemma recvall_loop_step fuel sock buf total len :
  total < len ->
  recvall_loop (S fuel) sock buf total len =
  let '(bytes_received, data, sock') := recv sock (int (len - total)) in
  if bytes_received <=? 0 then Some (-1, buf ++ data, sock')
  else recvall_loop fuel sock' (buf ++ data) (total + bytes_received) len.
Proof.
  intros H. cbn [recvall_loop]. now rewrite (proj2 (Z.ltb_lt total len)).
Qed.

(** The loop of [recvall], for lengths an [int] can hold. *)
Lemma recvall_loop_spec sock : forall fuel buf total len,
  0 <= total <= len -> len <= INT_MAX -> len - total <= Z.of_nat fuel ->
  ((Z.to_nat (len - total) <= length (pending sock))%nat ->
   recvall_loop fuel sock buf total len =
   Some (len, buf ++ take (Z.to_nat (len - total)) (pending sock),
         advance sock (Z.to_nat (len - total)))) /\
  ((length (pending sock) < Z.to_nat (len - total))%nat ->
   exists buf' sock',
     recvall_loop fuel sock buf total len = Some (-1, buf', sock')).
Proof.
  induction sock as [|ev rest IH]; intros fuel buf total len Ht Hl Hf.
  - destruct (Z.lt_ge_cases total len) as [Hlt|Hge].
    + destruct fuel as [|fuel]; [lia|]. rewrite recvall_loop_step by lia.
      cbn. split; [lia|]. intros _. eauto.
    + assert (total = len) as -> by lia.
      rewrite recvall_loop_done, Z.sub_diag by lia. cbn.
      rewrite app_nil_r, int_small by (unfold INT_MAX in *; lia).
      split; [reflexivity | lia].
  - destruct (Z.lt_ge_cases total len) as [Hlt|Hge].
    2:{ assert (total = len) as -> by lia.
        rewrite recvall_loop_done, Z.sub_diag by lia.
        change (Z.to_nat 0) with 0%nat. rewrite advance_0, take_0.
        rewrite app_nil_r, int_small by (unfold INT_MAX in *; lia).
        split; [reflexivity | lia]. }
    destruct fuel as [|fuel]; [lia|]. rewrite recvall_loop_step by lia.
    rewrite (int_small (len - total)) by (unfold INT_MAX in *; lia).
    destruct ev as [c|].
    2:{ cbn. split; [lia|]. intros _. eauto. }
    destruct c as [|b c].
    { cbn [recv length].
      replace (Z.of_nat 0 <=? len - total) with true
        by (symmetry; apply Z.leb_le; lia).
      cbn. split; [lia|]. intros _. eauto. }
    rewrite pending_chunk by congruence.
    set (c' := b :: c) in *.
    assert (Hc : (0 < length c')%nat) by (cbn; lia).
    cbn [recv]. fold c'.
    destruct (Z.leb_spec (Z.of_nat (length c')) (len - total)) as [Hfit|Hbig].
    + replace (Z.of_nat (length c') <=? 0) with false
        by (symmetry; apply Z.leb_gt; lia).
      destruct (IH fuel (buf ++ c') (total + Z.of_nat (length c')) len)
        as [IHok IHfail]; [lia..|].
      replace (Z.to_nat (len - (total + Z.of_nat (length c'))))
        with (Z.to_nat (len - total) - length c')%nat in * by lia.
      split; intros Hp; rewrite length_app in Hp.
      * rewrite IHok by lia. rewrite take_app_ge by lia.
        rewrite <- app_assoc.
        replace (advance (Chunk c' :: rest) (Z.to_nat (len - total)))
          with (advance rest (Z.to_nat (len - total) - length c')); [reflexivity|].
        destruct (Z.to_nat (len - total)) as [|k] eqn:Ek; [lia|].
        cbn [advance]. fold c'.
        now rewrite (proj2 (Nat.leb_le (length c') (S k))) by lia.
      * apply IHfail. lia.
    + replace (len - total <=? 0) with false by (symmetry; apply Z.leb_gt; lia).
      rewrite recvall_loop_done by lia.
      rewrite int_small by (unfold INT_MAX in *; lia).
      split; [intros _ | rewrite length_app; lia].
      rewrite take_app_le by lia.
      replace (total + (len - total)) with len by lia.
      replace (advance (Chunk c' :: rest) (Z.to_nat (len - total)))
        with (Chunk (drop (Z.to_nat (len - total)) c') :: rest); [reflexivity|].
      destruct (Z.to_nat (len - total)) as [|k] eqn:Ek; [lia|].
      cbn [advance]. fold c'.
      now rewrite (proj2 (Nat.leb_gt (length c') (S k))) by lia.
Qed.

(** When the socket has [bs] pending, followed by [rest], reading
    [length bs] bytes yields [bs] and leaves [rest] pending. *)
Lemma recv_all_exact sock bs rest n :
  pending sock = bs ++ rest -> Z.of_nat (length bs) = n -> n <= SSIZE_MAX ->
  recv_all sock n = Some (n, bs, advance sock (length bs)) /\
  pending (advance sock (length bs)) = rest.
Proof.
  intros Hp Hn Hmax. unfold recv_all.
  destruct (recv_all_loop_spec sock (Z.to_nat n) [] 0 n) as [Hok _]; [lia..|].
  rewrite Z.sub_0_r in Hok. replace (Z.to_nat n) with (length bs) in * by lia.
  assert (Hlen : (length bs <= length (pending sock))%nat)
    by (rewrite Hp, length_app; lia).
  split.
  - rewrite Hok by exact Hlen. cbn [app].
    now rewrite Hp, take_app_length.
  - rewrite pending_advance by exact Hlen. now rewrite Hp, drop_app_length.
Qed.

Lemma recvall_exact sock bs rest n :
  pending sock = bs ++ rest -> Z.of_nat (length bs) = n -> n <= INT_MAX ->
  recvall sock n = Some (n, bs, advance sock (length bs)) /\
  pending (advance sock (length bs)) = rest.
Proof.
  intros Hp Hn Hmax. unfold recvall.
  destruct (recvall_loop_spec sock (Z.to_nat n) [] 0 n) as [Hok _]; [lia..|].
  rewrite Z.sub_0_r in Hok. replace (Z.to_nat n) with (length bs) in * by lia.
  assert (Hlen : (length bs <= length (pending sock))%nat)
    by (rewrite Hp, length_app; lia).
  split.
  - rewrite Hok by exact Hlen. cbn [app].
    now rewrite Hp, take_app_length.
  - rewrite pending_advance by exact Hlen. now rewrite Hp, drop_app_length.
Qed.

(** Deliveries that are not empty add up to what is pending. *)
Lemma pending_delivering chunks tl :
  Forall (fun c => c <> []) chunks ->
  pending (delivering chunks ++ tl) = concat chunks ++ pending tl.
Proof.
  induction 1 as [|c chunks Hc _ IH]; [reflexivity|].
  cbn [delivering map app concat]. rewrite pending_chunk by exact Hc.
  unfold delivering in IH. now rewrite IH, app_assoc.
Qed.
End SockFacts2.

(** [C2] [recv_all(sock, buf, n)] returns [n] only once exactly [n] bytes
    have been stored, and these are the first [n] bytes the socket had
    pending, in order, however they were split into deliveries; the bytes
    behind them stay pending. When the stream ends or fails before [n]
    bytes arrived the return value is 0 or -1, never a short count. The
    call always returns. *)
Theorem recv_all_exactly_n_or_failure (sock : Sock.socket) (n : Z) :
  0 <= n <= MachInt.SSIZE_MAX ->
  exists ret buf sock',
    Sock.recv_all sock n = Some (ret, buf, sock') /\
    ((n <= Z.of_nat (length (Sock.pending sock)) /\
      ret = n /\
      buf = take (Z.to_nat n) (Sock.pending sock) /\
      Z.of_nat (length buf) = n /\
      Sock.pending sock' = drop (Z.to_nat n) (Sock.pending sock))
     \/
     (Z.of_nat (length (Sock.pending sock)) < n /\ (ret = 0 \/ ret = -1))).
Proof.
  intros Hn. unfold Sock.recv_all.
  destruct (recv_all_loop_spec sock (Z.to_nat n) [] 0 n) as [Hok Hfail]; [lia..|].
  rewrite Z.sub_0_r in Hok, Hfail.
  destruct (Nat.le_gt_cases (Z.to_nat n) (length (Sock.pending sock))) as [Hle|Hgt].
  - rewrite Hok by exact Hle. do 3 eexists. split; [reflexivity|]. left.
    cbn [app]. repeat split; try lia.
    + rewrite length_take. lia.
    + now apply pending_advance.
  - destruct (Hfail Hgt) as (ret & buf' & sock' & E & Hret).
    rewrite E. do 3 eexists. split; [reflexivity|]. right. split; [lia | exact Hret].
Qed.

(** Four bytes asked of a socket that delivers "ab", "c" and "def". *)
Lemma recv_all_exactly_n_or_failure_witness :
  exists ret buf sock',
    Sock.recv_all (Sock.delivering [CString.lit "ab"; CString.lit "c"; CString.lit "def"]) 4
    = Some (ret, buf, sock') /\ ret = 4 /\ buf = CString.lit "abcd".
Proof.
  destruct (recv_all_exactly_n_or_failure
              (Sock.delivering [CString.lit "ab"; CString.lit "c"; CString.lit "def"]) 4)
    as (ret & buf & sock' & E & H).
  - unfold MachInt.SSIZE_MAX. lia.
  - exists ret, buf, sock'. split; [exact E|].
    destruct H as [(_ & Hr & Hb & _) | (Hlt & _)].
    + split; [exact Hr | exact Hb].
    + exfalso. revert Hlt. vm_compute. discriminate.
Defined.

(** ** Frames: what server.c sends and what c2.c reads back *)

Section CStringFacts.
Import CString.

Lemma c_str_no_nul s : Forall (fun b => b <> NUL) (c_str s).
Proof.
  induction s as [|b s IH]; cbn; [constructor|].
  destruct (Byte.eqb b NUL) eqn:E; [constructor|].
  constructor; [|exact IH]. now apply Byte.eqb_false.
Qed.

Lemma c_str_id s : Forall (fun b => b <> NUL) s -> c_str s = s.
Proof.
  induction 1 as [|b s Hb _ IH]; cbn; [reflexivity|].
  destruct (Byte.eqb b NUL) eqn:E.
  - apply Byte.byte_dec_bl in E. contradiction.
  - now rewrite IH.
Qed.

Lemma c_str_terminated s : Forall (fun b => b <> NUL) s -> c_str (s ++ [NUL]) = s.
Proof.
  induction 1 as [|b s Hb _ IH]; cbn; [reflexivity|].
  destruct (Byte.eqb b NUL) eqn:E.
  - apply Byte.byte_dec_bl in E. contradiction.
  - now rewrite IH.
Qed.

Lemma strrchr_suffix s c found :
  Server.strrchr s c = Some found -> exists pre, s = pre ++ found.
Proof.
  revert found. induction s as [|b s IH]; intros found; cbn; [discriminate|].
  destruct (Server.strrchr s c) as [f|].
  - intros [= <-]. destruct (IH f eq_refl) as [pre ->]. now exists (b :: pre).
  - destruct (Byte.eqb b c); [|discriminate]. intros [= <-]. now exists [].
Qed.

Lemma filename_of_path_no_nul filepath :
  Forall (fun b => b <> NUL) (Server.filename_of_path filepath).
Proof.
  unfold Server.filename_of_path.
  pose proof (c_str_no_nul filepath) as Hp.
  assert (Hs : forall c found, Server.strrchr (c_str filepath) c = Some found ->
                               Forall (fun b => b <> NUL) (drop 1 found)).
  { intros c found Hf. apply strrchr_suffix in Hf as [pre E]. rewrite E in Hp.
    apply Forall_app in Hp as [_ Hp]. now apply Forall_drop. }
  destruct (Server.strrchr (c_str filepath) x2f) eqn:E1; [now apply (Hs x2f)|].
  destruct (Server.strrchr (c_str filepath) x5c) eqn:E2; [now apply (Hs x5c)|].
  exact Hp.
Qed.
End CStringFacts.

Section ServerFacts.
Import MachInt ByteOrder CString Server.

(** The [fread] loop sends the whole content, in pieces. *)
Lemma send_content_all fuel : forall unread w,
  (length unread <= fuel)%nat ->
  exists sends, send_content fuel unread w = Some (w ++ sends) /\ concat sends = unread.
Proof.
  induction fuel as [|fuel IH]; intros unread w Hfuel.
  - destruct unread; [|cbn in Hfuel; lia]. exists []. cbn. now rewrite app_nil_r.
  - cbn [send_content].
    destruct (Z.ltb_spec 0 (Z.min BUFFER_SIZE (Z.of_nat (length unread)))) as [Hpos|Hzero].
    + set (k := Z.to_nat (Z.min BUFFER_SIZE (Z.of_nat (length unread)))).
      assert (Hk : (0 < k <= length unread)%nat) by (unfold BUFFER_SIZE in *; lia).
      destruct (IH (drop k unread) (send w (take k unread)
                      (Z.min BUFFER_SIZE (Z.of_nat (length unread)))))
        as (sends & E & Hc).
      { rewrite length_drop. lia. }
      rewrite E. unfold send. fold k.
      exists (take k (take k unread) :: sends). split.
      * now rewrite <- app_assoc.
      * cbn [concat]. rewrite Hc, take_take, Nat.min_id. apply take_drop.
    + assert (unread = []) as -> by (destruct unread; [reflexivity | unfold BUFFER_SIZE in *; cbn in *; lia]).
      exists []. now rewrite app_nil_r.
Qed.

(** What [send_file_by_path] puts on the wire is the layout of the
    specification. *)
Lemma send_file_by_path_layout filepath content :
  Z.of_nat (length (filename_of_path filepath)) < 2 ^ 32 ->
  Z.of_nat (length content) <= LONG_MAX ->
  exists w, send_file_by_path [] filepath (Some content) = Some w /\
            concat w = frame_layout (filename_of_path filepath) content.
Proof.
  intros Hn Hc. unfold send_file_by_path, send_open_file, ftell_at_end.
  replace (Z.of_nat (length content) <=? LONG_MAX) with true
    by (symmetry; now apply Z.leb_le).
  unfold LONG_MAX in Hc.
  set (name := filename_of_path filepath) in *.
  assert (Hstr : strlen name = Z.of_nat (length name)).
  { unfold strlen. now rewrite c_str_id by apply filename_of_path_no_nul. }
  rewrite Hstr. unfold size_t. fold uint64_t.
  rewrite (uint64_t_small (Z.of_nat (length content))) by lia.
  rewrite uint32_t_small, uint64_t_small by lia.
  match goal with |- context [send_content _ _ ?w0] =>
    destruct (send_content_all (length content) content w0) as (sends & E & Hs);
      [lia|] end.
  rewrite E. eexists. split; [reflexivity|].
  unfold send, frame_layout. cbn [app concat]. rewrite Hs.
  rewrite object_bytes_htonl, object_bytes_htobe64.
  rewrite !firstn_all2; [reflexivity | ..];
    rewrite ?length_big_endian; unfold FILE_CONTENT_LENGTH_BYTES, FILENAME_LENGTH_BYTES; lia.
Qed.
(** The header [send_file_by_path] writes announces what [ftell]
    returned, converted to [size_t]; the content that follows is the whole
    file whatever was announced. *)
Lemma send_open_file_wire filepath content ftell_result :
  Z.of_nat (length (filename_of_path filepath)) < 2 ^ 32 ->
  exists w,
    send_open_file [] filepath content ftell_result = Some w /\
    concat w = big_endian 4 (Z.of_nat (length (filename_of_path filepath)))
               ++ filename_of_path filepath
               ++ big_endian 8 (size_t ftell_result) ++ content.
Proof.
  intros Hn. unfold send_open_file.
  set (name := filename_of_path filepath) in *.
  assert (Hstr : strlen name = Z.of_nat (length name)).
  { unfold strlen. now rewrite c_str_id by apply filename_of_path_no_nul. }
  rewrite Hstr.
  assert (Hsize : 0 <= size_t ftell_result < 2 ^ 64)
    by (unfold size_t, to_unsigned; apply Z.mod_pos_bound; lia).
  rewrite uint32_t_small, uint64_t_small by lia.
  match goal with |- context [send_content _ _ ?w0] =>
    destruct (send_content_all (length content) content w0) as (sends & E & Hs);
      [lia|] end.
  rewrite E. eexists. split; [reflexivity|].
  unfold send. cbn [app concat]. rewrite Hs.
  rewrite object_bytes_htonl, object_bytes_htobe64.
  rewrite !firstn_all2; [reflexivity | ..];
    rewrite ?length_big_endian; unfold FILE_CONTENT_LENGTH_BYTES, FILENAME_LENGTH_BYTES; lia.
Qed.

(** A size a [long] does not hold is never the length that is announced. *)
Lemma size_t_of_long_is_not_long_size size ftell_result :
  LONG_MAX < size < 2 ^ 64 - 2 ^ 31 ->
  ftell_reports size ftell_result ->
  size_t ftell_result <> size.
Proof.
  unfold ftell_reports, LONG_MAX, size_t, to_unsigned. intros Hs Hr.
  replace (size <=? 2 ^ 31 - 1) with false in Hr by (symmetry; apply Z.leb_gt; lia).
  destruct (Z.neg_nonneg_cases ftell_result) as [Hneg|Hpos].
  - rewrite <- (Z.mod_add ftell_result 1 (2 ^ 64)) by lia.
    rewrite Z.mod_small; lia.
  - rewrite Z.mod_small; lia.
Qed.
End ServerFacts.

Section Client2Facts.
Import MachInt ByteOrder CString Sock Client2.
Variable malloc_ok : Z -> bool.

(** Reading back a frame laid out as the specification says. *)
Lemma recv_frame_header_layout sock name content rest :
  pending sock = Server.frame_layout name content ++ rest ->
  0 < Z.of_nat (length name) < 2 ^ 32 ->
  Z.of_nat (length content) < 2 ^ 64 ->
  malloc_ok (Z.of_nat (length name) + 1) = true ->
  exists sock',
    recv_frame_header malloc_ok sock
    = Some (Go (name ++ [NUL], Z.of_nat (length content)) sock') /\
    pending sock' = content ++ rest.
Proof.
  intros Hp Hname Hcontent Hmalloc. unfold Server.frame_layout in Hp.
  rewrite <- !app_assoc in Hp.
  unfold recv_frame_header.
  destruct (recv_all_exact sock _ _ FILENAME_LENGTH_BYTES Hp) as [E1 P1].
  { now rewrite length_big_endian. }
  { unfold FILENAME_LENGTH_BYTES, SSIZE_MAX. lia. }
  rewrite E1. cbn [mbind option_bind].
  change (FILENAME_LENGTH_BYTES <=? 0) with false. cbv iota.
  rewrite ntohl_big_endian by lia.
  rewrite (uint64_t_small (Z.of_nat (length name))) by lia.
  rewrite uint64_t_small by lia. rewrite Hmalloc. cbn [negb].
  destruct (recv_all_exact _ _ _ (Z.of_nat (length name)) P1) as [E2 P2];
    [reflexivity | unfold SSIZE_MAX; lia |].
  rewrite E2. cbn [mbind option_bind].
  replace (Z.of_nat (length name) <=? 0) with false by (symmetry; apply Z.leb_gt; lia).
  destruct (recv_all_exact _ _ _ FILE_CONTENT_LENGTH_BYTES P2) as [E3 P3].
  { now rewrite length_big_endian. }
  { unfold FILE_CONTENT_LENGTH_BYTES, SSIZE_MAX. lia. }
  rewrite E3. cbn [mbind option_bind].
  change (FILE_CONTENT_LENGTH_BYTES <=? 0) with false. cbv iota.
  unfold be64toh. rewrite be64toh_big_endian by lia.
  rewrite uint64_t_small by lia.
  eexists. split; [reflexivity | exact P3].
Qed.

(** Reading back a header: the length c2.c takes for the content is the
    number in the third field, whatever follows it. *)
Lemma recv_frame_header_announced sock name announced rest :
  pending sock = big_endian 4 (Z.of_nat (length name)) ++ name
                 ++ big_endian 8 announced ++ rest ->
  0 < Z.of_nat (length name) < 2 ^ 32 ->
  0 <= announced < 2 ^ 64 ->
  malloc_ok (Z.of_nat (length name) + 1) = true ->
  exists sock',
    recv_frame_header malloc_ok sock = Some (Go (name ++ [NUL], announced) sock') /\
    pending sock' = rest.
Proof.
  intros Hp Hname Hannounced Hmalloc.
  unfold recv_frame_header.
  destruct (recv_all_exact sock _ _ FILENAME_LENGTH_BYTES Hp) as [E1 P1].
  { now rewrite length_big_endian. }
  { unfold FILENAME_LENGTH_BYTES, SSIZE_MAX. lia. }
  rewrite E1. cbn [mbind option_bind].
  change (FILENAME_LENGTH_BYTES <=? 0) with false. cbv iota.
  rewrite ntohl_big_endian by lia.
  rewrite (uint64_t_small (Z.of_nat (length name))) by lia.
  rewrite uint64_t_small by lia. rewrite Hmalloc. cbn [negb].
  destruct (recv_all_exact _ _ _ (Z.of_nat (length name)) P1) as [E2 P2];
    [reflexivity | unfold SSIZE_MAX; lia |].
  rewrite E2. cbn [mbind option_bind].
  replace (Z.of_nat (length name) <=? 0) with false by (symmetry; apply Z.leb_gt; lia).
  destruct (recv_all_exact _ _ _ FILE_CONTENT_LENGTH_BYTES P2) as [E3 P3].
  { now rewrite length_big_endian. }
  { unfold FILE_CONTENT_LENGTH_BYTES, SSIZE_MAX. lia. }
  rewrite E3. cbn [mbind option_bind].
  change (FILE_CONTENT_LENGTH_BYTES <=? 0) with false. cbv iota.
  unfold be64toh. rewrite be64toh_big_endian by lia.
  rewrite uint64_t_small by lia.
  eexists. split; [reflexivity | exact P3].
Qed.

(** A frame with an empty name is not read back: [recv_all] returns 0 for
    a length of 0 and [main] takes that for a closed connection. *)
Example empty_name_is_refused :
  recv_frame_header (fun _ => true)
                    (delivering [Server.frame_layout [] (lit "ADC:1000")])
  = Some (Break NoFilename
                (delivering [ByteOrder.big_endian 8 8 ++ lit "ADC:1000"])).
Proof. reflexivity. Qed.
End Client2Facts.

(** Where the round trip holds: for a file whose name (the part of the
    path after the last separator) is not empty and shorter than 2^32
    bytes and whose content is shorter than 2^31 bytes (a size the [long]
    of [ftell] holds), [send_file_by_path] of server.c puts on the wire
    the four fields of the layout (u32 big-endian name length, name, u64
    big-endian content length, content), and the header-reading part of
    [main] in c2.c, run on any socket that has these bytes pending,
    however they are split into deliveries, yields the name and the length
    of the content, with the content left pending. *)
Lemma frame_header_round_trip
        (malloc_ok : Z -> bool) (filepath content : list byte) :
  let name := Server.filename_of_path filepath in
  0 < Z.of_nat (length name) < 2 ^ 32 ->
  Z.of_nat (length content) <= Server.LONG_MAX ->
  malloc_ok (Z.of_nat (length name) + 1) = true ->
  exists w,
    Server.send_file_by_path [] filepath (Some content) = Some w /\
    concat w = Server.frame_layout name content /\
    forall sock rest,
      Sock.pending sock = concat w ++ rest ->
      exists sock',
        Client2.recv_frame_header malloc_ok sock
        = Some (Client2.Go (name ++ [CString.NUL], Z.of_nat (length content)) sock') /\
        CString.c_str (name ++ [CString.NUL]) = name /\
        Sock.pending sock' = content ++ rest.
Proof.
  intros name Hname Hcontent Hmalloc.
  destruct (send_file_by_path_layout filepath content) as (w & Ew & Hw); [unfold name in *; lia..|].
  exists w. split; [exact Ew|]. split; [exact Hw|].
  intros sock rest Hp. rewrite Hw in Hp.
  assert (Hsize : Z.of_nat (length content) < 2 ^ 64)
    by (unfold Server.LONG_MAX in Hcontent; lia).
  destruct (recv_frame_header_layout malloc_ok sock name content rest Hp Hname
              Hsize Hmalloc) as (sock' & E & P).
  exists sock'. split; [exact E|]. split; [|exact P].
  apply c_str_terminated, filename_of_path_no_nul.
Qed.

(** A content of 2^31 bytes or more is not announced with its length:
    [ftell] returns a [long] of 32 bits, so the length on the wire is below
    2^31 or, the [long] being negative, at least 2^64 - 2^31. *)
Lemma long_content_is_not_announced
      (malloc_ok : Z -> bool) (filepath content : list byte) (ftell_result : Z) :
  let name := Server.filename_of_path filepath in
  0 < Z.of_nat (length name) < 2 ^ 32 ->
  Server.LONG_MAX < Z.of_nat (length content) < 2 ^ 64 - 2 ^ 31 ->
  Server.ftell_reports (Z.of_nat (length content)) ftell_result ->
  malloc_ok (Z.of_nat (length name) + 1) = true ->
  exists w,
    Server.send_open_file [] filepath content ftell_result = Some w /\
    forall sock rest, Sock.pending sock = concat w ++ rest ->
      exists announced sock',
        Client2.recv_frame_header malloc_ok sock
        = Some (Client2.Go (name ++ [CString.NUL], announced) sock') /\
        announced <> Z.of_nat (length content) /\
        Sock.pending sock' = content ++ rest.
Proof.
  intros name Hname Hcontent Hftell Hmalloc.
  destruct (send_open_file_wire filepath content ftell_result) as (w & Ew & Hw);
    [unfold name in *; lia|].
  exists w. split; [exact Ew|].
  intros sock rest Hp. rewrite Hw in Hp. rewrite <- !app_assoc in Hp.
  destruct (recv_frame_header_announced malloc_ok sock name
              (Server.size_t ftell_result) (content ++ rest) Hp Hname)
    as (sock' & E & P).
  { unfold Server.size_t, MachInt.to_unsigned. apply Z.mod_pos_bound. lia. }
  { exact Hmalloc. }
  exists (Server.size_t ftell_result), sock'. split; [exact E|]. split; [|exact P].
  now apply size_t_of_long_is_not_long_size.
Qed.

(** [C1] The content length in the header of a frame is what [ftell]
    returned at the end of the file, a [long] of 32 bits converted to
    [size_t], and the content that follows is the whole file. For a file
    whose name is not empty and shorter than 2^32 bytes (and whose content
    is shorter than 2^64 - 2^31 bytes), the
    header-reading part of [main] in c2.c, run on any socket on which what
    [send_file_by_path] sent is pending, however it is split into
    deliveries, yields the name, and leaves the whole content pending; the
    length it yields is the number of bytes of that content exactly when
    the content is shorter than 2^31 bytes. *)
Theorem frame_header_announces_ftell_result
        (malloc_ok : Z -> bool) (filepath content : list byte) (ftell_result : Z) :
  let name := Server.filename_of_path filepath in
  0 < Z.of_nat (length name) < 2 ^ 32 ->
  Z.of_nat (length content) < 2 ^ 64 - 2 ^ 31 ->
  Server.ftell_reports (Z.of_nat (length content)) ftell_result ->
  malloc_ok (Z.of_nat (length name) + 1) = true ->
  exists w,
    Server.send_open_file [] filepath content ftell_result = Some w /\
    forall sock rest,
      Sock.pending sock = concat w ++ rest ->
      exists announced sock',
        Client2.recv_frame_header malloc_ok sock
        = Some (Client2.Go (name ++ [CString.NUL], announced) sock') /\
        CString.c_str (name ++ [CString.NUL]) = name /\
        Sock.pending sock' = content ++ rest /\
        (announced = Z.of_nat (length content)
         <-> Z.of_nat (length content) <= Server.LONG_MAX).
Proof.
  intros name Hname Hcontent Hftell Hmalloc.
  destruct (send_open_file_wire filepath content ftell_result) as (w & Ew & Hw);
    [unfold name in *; lia|].
  exists w. split; [exact Ew|].
  intros sock rest Hp. rewrite Hw in Hp. rewrite <- !app_assoc in Hp.
  destruct (recv_frame_header_announced malloc_ok sock name
              (Server.size_t ftell_result) (content ++ rest) Hp Hname)
    as (sock' & E & P).
  { unfold Server.size_t, MachInt.to_unsigned. apply Z.mod_pos_bound. lia. }
  { exact Hmalloc. }
  exists (Server.size_t ftell_result), sock'. split; [exact E|].
  split; [apply c_str_terminated, filename_of_path_no_nul|]. split; [exact P|].
  destruct (Z.leb_spec (Z.of_nat (length content)) Server.LONG_MAX) as [Hle|Hgt].
  - split; [intros _; exact Hle|]. intros _.
    unfold Server.ftell_reports in Hftell.
    replace (Z.of_nat (length content) <=? Server.LONG_MAX) with true in Hftell
      by (symmetry; now apply Z.leb_le).
    subst ftell_result. unfold Server.size_t, MachInt.to_unsigned.
    apply Z.mod_small. lia.
  - split; [|lia]. intros Heq. exfalso.
    apply (size_t_of_long_is_not_long_size (Z.of_nat (length content)) ftell_result);
      [lia | exact Hftell | exact Heq].
Qed.

(** The file [adc_data/f1.txt] holding [ADC:1000], sent and read back:
    [ftell] returns 8 and the header announces 8 bytes. *)
Lemma frame_header_announces_ftell_result_witness :
  exists w sock',
    Server.send_file_by_path [] (CString.lit "adc_data/f1.txt")
                             (Some (CString.lit "ADC:1000")) = Some w /\
    Client2.recv_frame_header (fun _ => true) (Sock.delivering w)
    = Some (Client2.Go (CString.lit "f1.txt" ++ [CString.NUL], 8) sock') /\
    Sock.pending sock' = CString.lit "ADC:1000".
Proof.
  destruct (frame_header_announces_ftell_result
              (fun _ => true) (CString.lit "adc_data/f1.txt")
              (CString.lit "ADC:1000") 8)
    as (w & Ew & Hread).
  - vm_compute. split; reflexivity.
  - vm_compute. reflexivity.
  - vm_compute. reflexivity.
  - reflexivity.
  - exists w.
    assert (w = [ByteOrder.big_endian 4 6; CString.lit "f1.txt";
                 ByteOrder.big_endian 8 8; CString.lit "ADC:1000"]) as Ew'.
    { vm_compute in Ew. now injection Ew as <-. }
    destruct (Hread (Sock.delivering w) []) as (announced & sock' & E & _ & P & Hiff).
    { rewrite app_nil_r, Ew'. reflexivity. }
    assert (Hannounced : announced = 8).
    { apply Hiff. vm_compute. discriminate. }
    subst announced.
    exists sock'. split; [rewrite Ew'; reflexivity|]. split; [exact E|].
    now rewrite app_nil_r in P.
Defined.

(** [C1, failing input] A content of 2^31 bytes, sent under the name
    [f1.txt]: [ftell] fails with -1L and the frame announces 2^64 - 1
    bytes; and whatever [long] an [ftell] that does not fail hands back,
    the length c2.c reads from the header is not 2^31. The 2^31 bytes are
    sent behind the header all the same. *)
Lemma frame_header_of_2_GiB_content :
  Z.of_nat (length Samples.content_of_2_GiB) = 2 ^ 31 /\
  (exists w,
     Server.send_file_by_path [] (CString.lit "adc_data/f1.txt")
                              (Some Samples.content_of_2_GiB) = Some w /\
     forall sock rest, Sock.pending sock = concat w ++ rest ->
       exists sock',
         Client2.recv_frame_header (fun _ => true) sock
         = Some (Client2.Go (CString.lit "f1.txt" ++ [CString.NUL], 2 ^ 64 - 1) sock') /\
         Sock.pending sock' = Samples.content_of_2_GiB ++ rest) /\
  forall ftell_result,
    Server.ftell_reports (2 ^ 31) ftell_result ->
    exists w,
      Server.send_open_file [] (CString.lit "adc_data/f1.txt")
                            Samples.content_of_2_GiB ftell_result = Some w /\
      forall sock rest, Sock.pending sock = concat w ++ rest ->
        exists announced sock',
          Client2.recv_frame_header (fun _ => true) sock
          = Some (Client2.Go (CString.lit "f1.txt" ++ [CString.NUL], announced) sock') /\
          announced <> 2 ^ 31 /\
          Sock.pending sock' = Samples.content_of_2_GiB ++ rest.
Proof.
  assert (Hlen : Z.of_nat (length Samples.content_of_2_GiB) = 2 ^ 31).
  { unfold Samples.content_of_2_GiB. rewrite length_replicate. apply Z2Nat.id. lia. }
  revert Hlen. generalize Samples.content_of_2_GiB. intros content Hlen.
  assert (Hname : Server.filename_of_path (CString.lit "adc_data/f1.txt")
                  = CString.lit "f1.txt") by reflexivity.
  split; [exact Hlen|]. split.
  - unfold Server.send_file_by_path, Server.ftell_at_end. rewrite Hlen.
    change (2 ^ 31 <=? Server.LONG_MAX) with false. cbv iota.
    destruct (send_open_file_wire (CString.lit "adc_data/f1.txt")
                                  content (-1)) as (w & Ew & Hw).
    { rewrite Hname. cbn. lia. }
    exists w. split; [exact Ew|].
    intros sock rest Hp. rewrite Hw, Hname in Hp. rewrite <- !app_assoc in Hp.
    change (Server.size_t (-1)) with (2 ^ 64 - 1) in Hp.
    apply (recv_frame_header_announced (fun _ => true) sock (CString.lit "f1.txt")
             (2 ^ 64 - 1) (content ++ rest) Hp);
      [cbn; lia | lia | reflexivity].
  - intros ftell_result Hftell. rewrite <- Hlen in Hftell.
    destruct (long_content_is_not_announced (fun _ => true)
                (CString.lit "adc_data/f1.txt") content ftell_result)
      as (w & Ew & Hread).
    + rewrite Hname. cbn. lia.
    + rewrite Hlen. unfold Server.LONG_MAX. lia.
    + exact Hftell.
    + reflexivity.
    + exists w. split; [exact Ew|]. intros sock rest Hp.
      destruct (Hread sock rest Hp) as (announced & sock' & E & Hne & P).
      exists announced, sock'. rewrite Hname in E. rewrite Hlen in Hne. now split.
Qed.

(** ** Control frames *)

Section ControlFrames.
Import MachInt ByteOrder CString Sock Protocol.

Lemma starts_with_app needle s : starts_with needle (needle ++ s) = true.
Proof.
  induction needle as [|b needle IH]; cbn; [now destruct s|].
  now rewrite (Byte.byte_dec_lb eq_refl), IH.
Qed.

(** c2.c takes every sentinel for a control message. *)
Lemma c2_is_control_message name :
  sentinel name -> c_name name -> Client2.is_control_message (name ++ [NUL]) = true.
Proof.
  intros Hs _. destruct Hs; reflexivity.
Qed.

(** c2.c: at a control frame the loop reads the name and the eight bytes
    of the content length, and stops; what follows stays unread. *)
Lemma c2_stops_at_sentinel malloc_ok sock name rest fuel :
  sentinel name -> c_name name ->
  Z.of_nat (length name) < 2 ^ 32 ->
  malloc_ok (Z.of_nat (length name) + 1) = true ->
  pending sock = control_frame name ++ rest ->
  exists sock',
    Client2.receive_files malloc_ok (S fuel) sock
    = Some ([], Client2.ControlMessage name, sock') /\
    pending sock' = rest.
Proof.
  intros Hs Hc Hlen Hmalloc Hp.
  assert (Hpos : 0 < Z.of_nat (length name)) by (destruct Hs; cbn; lia).
  destruct (recv_frame_header_layout malloc_ok sock name [] rest Hp) as (sock' & E & P);
    [lia | cbn; lia | exact Hmalloc |].
  exists sock'. split; [|exact P].
  cbn [Client2.receive_files]. unfold Client2.receive_one.
  rewrite E. cbn [mbind option_bind].
  rewrite (c2_is_control_message name Hs Hc), (c_str_terminated _ Hc).
  reflexivity.
Qed.
End ControlFrames.

Section ClientFacts.
Import MachInt ByteOrder CString Sock Protocol.
Variable malloc_ok : Z -> bool.

(** client.c reads at most 255 bytes of a name; what it leaves of a longer
    one stays in the stream. *)
Lemma client_recv_file_name_spec sock name rest :
  pending sock = big_endian 4 (Z.of_nat (length name)) ++ name ++ rest ->
  Z.of_nat (length name) < 2 ^ 32 ->
  let kept := if 256 <=? Z.of_nat (length name) then 255%nat else length name in
  exists sock',
    Client.recv_file_name sock = Some (Client.Go (take kept name ++ [NUL]) sock') /\
    pending sock' = drop kept name ++ rest.
Proof.
  intros Hp Hlen kept. unfold Client.recv_file_name.
  destruct (recvall_exact sock _ _ Client.FILENAME_LENGTH_BYTES Hp) as [E1 P1].
  { now rewrite length_big_endian. }
  { unfold Client.FILENAME_LENGTH_BYTES, INT_MAX. lia. }
  rewrite E1. cbn [mbind option_bind].
  change (Client.FILENAME_LENGTH_BYTES =? -1) with false. cbv iota.
  rewrite ntohl_big_endian, uint32_t_small by lia.
  assert (Hk : (kept <= length name)%nat).
  { unfold kept. destruct (Z.leb_spec 256 (Z.of_nat (length name))); lia. }
  assert (Hsplit : pending (advance sock (length (big_endian 4 (Z.of_nat (length name)))))
                   = take kept name ++ drop kept name ++ rest).
  { now rewrite app_assoc, take_drop. }
  assert (Hn : Z.of_nat (length (take kept name))
               = if Client.sizeof_file_name <=? Z.of_nat (length name)
                 then uint32_t (Client.sizeof_file_name - 1)
                 else Z.of_nat (length name)).
  { rewrite length_take, Nat.min_l by exact Hk. unfold kept, Client.sizeof_file_name.
    destruct (Z.leb_spec 256 (Z.of_nat (length name))); reflexivity. }
  destruct (recvall_exact _ _ _ _ Hsplit Hn) as [E2 P2].
  { unfold Client.sizeof_file_name, INT_MAX.
    destruct (Z.leb_spec 256 (Z.of_nat (length name))); [vm_compute; discriminate | lia]. }
  rewrite E2. cbn [mbind option_bind].
  match goal with |- context [?n =? -1] =>
    replace (n =? -1) with false
      by (symmetry; apply Z.eqb_neq; rewrite <- Hn; lia) end.
  eexists. split; [reflexivity | exact P2].
Qed.

Lemma client_recv_file_name_short sock name rest :
  pending sock = big_endian 4 (Z.of_nat (length name)) ++ name ++ rest ->
  Z.of_nat (length name) < 256 ->
  exists sock',
    Client.recv_file_name sock = Some (Client.Go (name ++ [NUL]) sock') /\
    pending sock' = rest.
Proof.
  intros Hp Hlen.
  destruct (client_recv_file_name_spec sock name rest Hp) as (sock' & E & P); [lia|].
  replace (256 <=? Z.of_nat (length name)) with false in *
    by (symmetry; apply Z.leb_gt; lia).
  rewrite firstn_all in E. rewrite drop_all in P. now exists sock'.
Qed.

(** client.c: at [NO_FILE_FOUND:...], [NO_FILE_SELECTED] and
    [NO_FILES_IN_FOLDER] the loop reads the eight bytes of the content
    length and stops. *)
Lemma client_stops_at_server_message sock name rest :
  sentinel name -> name <> lit "END_OF_TRANSMISSION" -> c_name name ->
  Z.of_nat (length name) < 256 ->
  pending sock = control_frame name ++ rest ->
  exists sock',
    Client.receive_one malloc_ok sock
    = Some (Client.Break (Client.ServerMessage name) sock') /\
    pending sock' = rest.
Proof.
  intros Hs Hne Hc Hlen Hp. unfold control_frame, Server.frame_layout in Hp.
  rewrite <- !app_assoc in Hp.
  destruct (client_recv_file_name_short sock name _ Hp Hlen) as (sock1 & E1 & P1).
  unfold Client.receive_one. rewrite E1. cbn [mbind option_bind].
  assert (Hmsg : strcmp_is_0 (name ++ [NUL]) (lit "END_OF_TRANSMISSION") = false
                 /\ Client.is_server_message (name ++ [NUL]) = true).
  { destruct Hs; [congruence | split; reflexivity ..]. }
  destruct Hmsg as [-> ->].
  destruct (recvall_exact sock1 _ _ Client.FILE_CONTENT_LENGTH_BYTES P1) as [E2 P2].
  { now rewrite length_big_endian. }
  { unfold Client.FILE_CONTENT_LENGTH_BYTES, INT_MAX. lia. }
  rewrite E2. cbn [mbind option_bind]. rewrite (c_str_terminated _ Hc).
  eexists. split; [reflexivity | exact P2].
Qed.
End ClientFacts.

(** [C3] On client.c the claim fails for [END_OF_TRANSMISSION]: the loop
    of [network_thread_func] stops as soon as it has read that name, and
    the eight bytes of the content length that the producer sent behind it
    are still pending on the socket. *)
Theorem client_end_of_transmission_leaves_length_unread
        (malloc_ok : Z -> bool) (sock : Sock.socket) (rest : list byte) :
  Sock.pending sock
  = Protocol.control_frame (CString.lit "END_OF_TRANSMISSION") ++ rest ->
  exists sock',
    Client.receive_one malloc_ok sock
    = Some (Client.Break Client.EndOfTransmission sock') /\
    Sock.pending sock' = ByteOrder.big_endian 8 0 ++ rest.
Proof.
  intros Hp. unfold Protocol.control_frame, Server.frame_layout in Hp.
  rewrite <- !app_assoc in Hp.
  destruct (client_recv_file_name_short sock _ _ Hp) as (sock1 & E1 & P1).
  { vm_compute. reflexivity. }
  unfold Client.receive_one. rewrite E1. cbn [mbind option_bind].
  change (CString.strcmp_is_0 (CString.lit "END_OF_TRANSMISSION" ++ [CString.NUL])
                              (CString.lit "END_OF_TRANSMISSION")) with true.
  cbv iota. exists sock1. split; [reflexivity | exact P1].
Qed.

(** The frame [END_OF_TRANSMISSION] as server.c sends it, in one delivery. *)
Lemma client_end_of_transmission_leaves_length_unread_witness :
  exists sock',
    Client.receive_one (fun _ => true)
      (Sock.delivering
         [concat (Server.send_control_message [] (CString.lit "END_OF_TRANSMISSION"))])
    = Some (Client.Break Client.EndOfTransmission sock') /\
    Sock.pending sock' = ByteOrder.big_endian 8 0.
Proof.
  destruct (client_end_of_transmission_leaves_length_unread (fun _ => true)
              (Sock.delivering
                 [concat (Server.send_control_message [] (CString.lit "END_OF_TRANSMISSION"))])
              []) as (sock' & E & P).
  - reflexivity.
  - exists sock'. split; [exact E|]. now rewrite app_nil_r in P.
Defined.

(** ** Names too long for client.c *)

Section OverlongNames.
Import MachInt ByteOrder CString Sock Protocol.

Lemma bytes_eqb_eq a : forall b, bytes_eqb a b = true <-> a = b.
Proof.
  induction a as [|x a IH]; intros [|y b]; cbn; try (split; congruence).
  rewrite andb_true_iff, IH. split.
  - intros [Hxy ->]. now rewrite (Byte.byte_dec_bl _ _ Hxy).
  - intros [= -> ->]. split; [now apply Byte.byte_dec_lb | reflexivity].
Qed.

(** client.c handles a frame with a name of fewer than 256 bytes that is
    no sentinel by the outcome of [malloc] alone, whatever the length of
    the content (up to what [recvall] can count). *)
Lemma client_receives_by_allocation malloc_ok sock name content rest :
  pending sock = Server.frame_layout name content ++ rest ->
  c_name name -> Z.of_nat (length name) < 256 ->
  name <> lit "END_OF_TRANSMISSION" ->
  Client.is_server_message (name ++ [NUL]) = false ->
  Z.of_nat (length content) <= INT_MAX ->
  exists sock',
    Client.receive_one malloc_ok sock
    = Some (if malloc_ok (Z.of_nat (length content) + 1)
            then Client.Go (name, c_str (content ++ [NUL])) sock'
            else Client.Break Client.ContentAllocFailed sock') /\
    pending sock' = if malloc_ok (Z.of_nat (length content) + 1)
                    then rest else content ++ rest.
Proof.
  intros Hp Hc Hlen Hne Hmsg Hcontent. unfold Server.frame_layout in Hp.
  rewrite <- !app_assoc in Hp. unfold INT_MAX in Hcontent.
  destruct (client_recv_file_name_short sock name _ Hp Hlen) as (sock1 & E1 & P1).
  unfold Client.receive_one. rewrite E1. cbn [mbind option_bind].
  replace (strcmp_is_0 (name ++ [NUL]) (lit "END_OF_TRANSMISSION")) with false.
  2:{ symmetry. apply not_true_is_false. unfold strcmp_is_0.
      rewrite bytes_eqb_eq, (c_str_terminated _ Hc). exact Hne. }
  rewrite Hmsg.
  destruct (recvall_exact sock1 _ _ Client.FILE_CONTENT_LENGTH_BYTES P1) as [E2 P2].
  { now rewrite length_big_endian. }
  { unfold Client.FILE_CONTENT_LENGTH_BYTES, INT_MAX. lia. }
  rewrite E2. cbn [mbind option_bind].
  change (Client.FILE_CONTENT_LENGTH_BYTES =? -1) with false. cbv iota.
  rewrite ntohll_big_endian by lia.
  rewrite (uint64_t_small (Z.of_nat (length content))) by lia.
  rewrite uint64_t_small by lia.
  destruct (malloc_ok (Z.of_nat (length content) + 1)); cbn [negb].
  - destruct (recvall_exact _ _ _ (Z.of_nat (length content)) P2) as [E3 P3];
      [reflexivity | unfold INT_MAX; lia |].
    rewrite E3. cbn [mbind option_bind].
    replace (Z.of_nat (length content) =? -1) with false
      by (symmetry; apply Z.eqb_neq; lia).
    rewrite (c_str_terminated _ Hc). eexists. split; [reflexivity | exact P3].
  - eexists. split; [reflexivity | exact P2].
Qed.
End OverlongNames.

(** [C8] client.c does not refuse a frame whose name is too long for its
    buffer. When the name length of a frame is 256 or more,
    [network_thread_func] cuts it to 255, reads that many bytes as the
    name and goes on with the frame; the other bytes of the name are still
    in the stream, in front of what follows the name, and are what the
    next field is read from. *)
Theorem client_truncates_overlong_name (sock : Sock.socket) (name rest : list byte) :
  Sock.pending sock
  = ByteOrder.big_endian 4 (Z.of_nat (length name)) ++ name ++ rest ->
  256 <= Z.of_nat (length name) < 2 ^ 32 ->
  exists sock',
    Client.recv_file_name sock
    = Some (Client.Go (take 255 name ++ [CString.NUL]) sock') /\
    Sock.pending sock' = drop 255 name ++ rest /\
    drop 255 name <> [].
Proof.
  intros Hp Hlen.
  destruct (client_recv_file_name_spec sock name rest Hp) as (sock' & E & P); [lia|].
  replace (256 <=? Z.of_nat (length name)) with true in *
    by (symmetry; apply Z.leb_le; lia).
  exists sock'. split; [exact E|]. split; [exact P|].
  intros Hd. apply (f_equal (@length byte)) in Hd.
  rewrite length_drop in Hd. cbn [length] in Hd. lia.
Qed.

(** A frame with a name field of 256 bytes, 255 times the letter A and a
    NUL, and the content [ADC:1]: the name is cut, the NUL and the content
    length stay in the stream, and the turn of the loop ends with a file of
    255 letters A and no content, in the middle of the frame. *)
Lemma client_truncates_overlong_name_witness :
  (exists sock',
      Client.recv_file_name (Sock.delivering [Samples.overlong_frame])
      = Some (Client.Go (replicate 255 x41 ++ [CString.NUL]) sock') /\
      Sock.pending sock'
      = [x00] ++ ByteOrder.big_endian 8 5 ++ CString.lit "ADC:1")
  /\
  Client.receive_one (fun _ => true) (Sock.delivering [Samples.overlong_frame])
  = Some (Client.Go (replicate 255 x41, [])
                    (Sock.delivering [x05 :: CString.lit "ADC:1"])).
Proof.
  split; [|vm_compute; reflexivity].
  destruct (client_truncates_overlong_name
              (Sock.delivering [Samples.overlong_frame]) Samples.overlong_name
              (ByteOrder.big_endian 8 5 ++ CString.lit "ADC:1"))
    as (sock' & E & P & _).
  - reflexivity.
  - split; [vm_compute; discriminate | vm_compute; reflexivity].
  - exists sock'. split; [exact E | exact P].
Defined.

(** ** The circular buffer *)

Section CircBufFacts.
Import MachInt CircBuf.
Context {T : Type}.
Implicit Types (cb : CircularBuffer T) (v : T).

Lemma init_well_formed block max_size cb :
  0 < max_size <= INT_MAX ->
  init_circular_buffer (Some block) max_size = Some cb -> well_formed cb.
Proof.
  intros Hm [= <-]. unfold well_formed. cbn.
  rewrite Z.mod_0_l by lia. lia.
Qed.

Lemma append_well_formed cb v :
  well_formed cb -> well_formed (append_circular_buffer cb v).
Proof.
  intros (Hm & Hc & Hh & Ht). unfold append_circular_buffer.
  destruct (data cb) as [d|]; [|now repeat split].
  assert (Htl : 0 <= tail cb < max_size cb)
    by (rewrite Ht; apply Z.mod_pos_bound; lia).
  pose proof (eq_refl : INT_MAX = 2 ^ 31 - 1) as HI.
  rewrite (int_small (tail cb + 1)) by lia.
  rewrite (Z.rem_mod_nonneg (tail cb + 1)) by lia.
  destruct (Z.ltb_spec (count cb) (max_size cb)) as [Hlt|Hfull];
    unfold well_formed; cbn [CircBuf.max_size CircBuf.count CircBuf.head CircBuf.tail].
  - rewrite int_small by lia.
    repeat split; try lia.
    rewrite Ht, Zplus_mod_idemp_l. f_equal. lia.
  - rewrite (int_small (head cb + 1)) by lia.
    rewrite (Z.rem_mod_nonneg (head cb + 1)) by lia.
    assert (count cb = max_size cb) as Hcm by lia.
    assert (tail cb = head cb) as ->.
    { rewrite Ht, Hcm. replace (head cb + max_size cb) with (head cb + 1 * max_size cb) by lia.
      rewrite Z_mod_plus_full. apply Z.mod_small. lia. }
    repeat split; try lia; try (apply Z.mod_pos_bound; lia).
    rewrite Hcm.
    replace ((head cb + 1) mod max_size cb + max_size cb)
      with ((head cb + 1) mod max_size cb + 1 * max_size cb) by lia.
    rewrite Z_mod_plus_full. now rewrite Z.mod_mod by lia.
Qed.

Lemma clear_well_formed cb : well_formed cb -> well_formed (clear cb).
Proof.
  intros (Hm & _). unfold well_formed, clear. cbn.
  rewrite Z.mod_0_l by lia. lia.
Qed.

(** Taking a snapshot writes nothing to the buffer. *)
Lemma snapshot_leaves_buffer ok cb : (get_circular_buffer_snapshot ok cb).2 = cb.
Proof.
  unfold get_circular_buffer_snapshot.
  destruct (count cb =? 0); [reflexivity|].
  destruct ok; cbn [negb]; [|reflexivity].
  now destruct (head cb <? tail cb).
Qed.

(** Before the first [Init] the buffer is the zeroed one, afterwards it is
    well formed. *)
Lemma run_invariant ops : forall cb,
  Forall valid_operation ops ->
  cb = zeroed \/ well_formed cb ->
  run cb ops = zeroed \/ well_formed (run cb ops).
Proof.
  induction ops as [|op ops IH]; intros cb Hops Hcb; [exact Hcb|].
  apply Forall_cons in Hops as [Hop Hops]. cbn [run fold_left].
  apply IH; [exact Hops|].
  destruct op as [block max_size|v]; cbn [apply valid_operation] in *.
  - right. eapply init_well_formed; [apply Hop | reflexivity].
  - destruct Hcb as [-> | Hwf]; [now left | right; now apply append_well_formed].
Qed.
End CircBufFacts.

(** [C10] After every operation of a sequence of [init_circular_buffer]s
    (with a positive size, on a block of that size) and
    [append_circular_buffer]s, started on the buffer in static storage,
    [0 <= count <= max_size] and [tail = (head + count) mod max_size]; and
    [get_circular_buffer_snapshot] returns the buffer as it got it, so
    [head], [tail] and [count] are what they were. *)
Theorem circular_buffer_invariant {T : Type} (ops : list (CircBuf.operation T)) (k : nat) :
  Forall CircBuf.valid_operation ops ->
  let cb := CircBuf.run CircBuf.zeroed (take k ops) in
  0 <= CircBuf.count cb <= CircBuf.max_size cb /\
  CircBuf.tail cb = (CircBuf.head cb + CircBuf.count cb) mod CircBuf.max_size cb /\
  forall ok,
    let after := (CircBuf.get_circular_buffer_snapshot ok cb).2 in
    CircBuf.head after = CircBuf.head cb /\
    CircBuf.tail after = CircBuf.tail cb /\
    CircBuf.count after = CircBuf.count cb.
Proof.
  intros Hops cb.
  assert (Hinv : cb = CircBuf.zeroed \/ CircBuf.well_formed cb).
  { apply run_invariant; [now apply Forall_take | now left]. }
  split; [|split].
  - destruct Hinv as [-> | (_ & Hc & _)]; [cbn; lia | exact Hc].
  - destruct Hinv as [-> | (_ & _ & _ & Ht)]; [reflexivity | exact Ht].
  - intros ok after. unfold after. now rewrite snapshot_leaves_buffer.
Qed.

(** A buffer of three places: one append before it is set up, then five. *)
Lemma circular_buffer_invariant_witness :
  let cb := CircBuf.run CircBuf.zeroed
              [CircBuf.Append 7; CircBuf.Init [0; 0; 0] 3; CircBuf.Append 1;
               CircBuf.Append 2; CircBuf.Append 3; CircBuf.Append 4;
               CircBuf.Append 5] in
  (CircBuf.head cb, CircBuf.tail cb, CircBuf.count cb) = (2, 2, 3) /\
  0 <= CircBuf.count cb <= CircBuf.max_size cb /\
  CircBuf.tail cb = (CircBuf.head cb + CircBuf.count cb) mod CircBuf.max_size cb.
Proof.
  intros cb. split; [reflexivity|].
  pose proof (circular_buffer_invariant
                [CircBuf.Append 7; CircBuf.Init [0; 0; 0] 3; CircBuf.Append 1;
                 CircBuf.Append 2; CircBuf.Append 3; CircBuf.Append 4;
                 CircBuf.Append 5] 7) as H.
  destruct H as (Hc & Ht & _).
  - repeat constructor; cbn; unfold MachInt.INT_MAX; lia.
  - split; [exact Hc | exact Ht].
Defined.

Section CircBufContents.
Import MachInt CircBuf.
Context {T : Type}.
Implicit Types (cb : CircularBuffer T) (v : T) (pushed : list T).

Lemma last_n_short n pushed : (length pushed <= n)%nat -> last_n n pushed = pushed.
Proof. intros H. unfold last_n. now replace (length pushed - n)%nat with 0%nat by lia. Qed.

Lemma last_n_snoc n pushed v :
  (0 < n <= length pushed)%nat ->
  last_n n (pushed ++ [v]) = drop 1 (last_n n pushed) ++ [v].
Proof.
  intros H. unfold last_n. rewrite length_app, drop_drop. cbn [length].
  rewrite drop_app_le by lia. do 2 f_equal. lia.
Qed.

Lemma length_last_n n pushed : (n <= length pushed)%nat -> length (last_n n pushed) = n.
Proof. intros H. unfold last_n. rewrite length_drop. lia. Qed.

Lemma init_holds block max_size cb :
  0 < max_size <= INT_MAX -> Z.of_nat (length block) = max_size ->
  init_circular_buffer (Some block) max_size = Some cb -> holds cb [].
Proof.
  intros Hm Hb [= <-]. split; [exact Hm|]. exists block. cbn.
  repeat split; try lia; try reflexivity.
Qed.

(** An append keeps the newest [max_size] values, in the order they came. *)
Lemma append_holds cb pushed v :
  holds cb pushed -> holds (append_circular_buffer cb v) (pushed ++ [v]).
Proof.
  intros (Hm & d & Hd & Hlen & Hfill & Hfull).
  pose proof (eq_refl : INT_MAX = 2 ^ 31 - 1) as HI.
  unfold append_circular_buffer. rewrite Hd.
  set (n := length pushed) in *.
  destruct (Z.lt_ge_cases (Z.of_nat n) (max_size cb)) as [Hlt|Hge].
  - destruct (Hfill Hlt) as (Hh & Ht & Hc & Hv). clear Hfill Hfull.
    rewrite Ht, Hc, Nat2Z.id.
    replace (Z.of_nat n <? max_size cb) with true by (symmetry; apply Z.ltb_lt; lia).
    rewrite !int_small by lia. rewrite Z.rem_mod_nonneg by lia.
    assert (Hlook : <[n := v]> d !! n = Some v) by (apply list_lookup_insert_eq; lia).
    assert (Htake : take (S n) (<[n := v]> d) = pushed ++ [v]).
    { rewrite (take_S_r _ _ _ Hlook), take_insert_ge by lia. now rewrite Hv. }
    split; [exact Hm|]. exists (<[n := v]> d).
    cbn [CircBuf.data CircBuf.max_size CircBuf.count CircBuf.head CircBuf.tail].
    rewrite length_insert, length_app. cbn [length]. fold n.
    split; [reflexivity|]. split; [exact Hlen|]. split.
    + intros Hlt'. rewrite Z.mod_small by lia.
      replace (n + 1)%nat with (S n) by lia. repeat split; try lia. exact Htake.
    + intros Hge'. assert (Z.of_nat n + 1 = max_size cb) as E by lia.
      rewrite E, Z_mod_same_full, Hh. change (Z.to_nat 0) with 0%nat.
      rewrite drop_0, take_0, app_nil_r. repeat split; try lia.
      rewrite last_n_short by (rewrite length_app; cbn [length]; fold n; lia).
      rewrite <- Htake. symmetry. apply take_ge. rewrite length_insert. lia.
  - destruct (Hfull Hge) as (Hc & Hh & Hr & Hv). clear Hfill Hfull.
    rewrite Hc, <- Hh.
    replace (max_size cb <? max_size cb) with false by (symmetry; apply Z.ltb_ge; lia).
    rewrite !int_small by lia. rewrite Z.rem_mod_nonneg by lia.
    set (h := Z.to_nat (head cb)) in *.
    assert (Hhd : (h < length d)%nat) by lia.
    assert (Hlook : <[h := v]> d !! h = Some v) by (apply list_lookup_insert_eq; lia).
    assert (Hnew : drop (S h) (<[h := v]> d) ++ take (S h) (<[h := v]> d)
                   = drop 1 (drop h d ++ take h d) ++ [v]).
    { rewrite (take_S_r _ _ _ Hlook), take_insert_ge, drop_insert_lt by lia.
      rewrite drop_app_le by (rewrite length_drop; lia).
      rewrite drop_drop, app_assoc. do 3 f_equal. lia. }
    split; [exact Hm|]. exists (<[h := v]> d).
    cbn [CircBuf.data CircBuf.max_size CircBuf.count CircBuf.head CircBuf.tail].
    rewrite length_insert, length_app. cbn [length]. fold n.
    split; [reflexivity|]. split; [exact Hlen|]. split; [lia|]. intros _.
    assert (Hmod : 0 <= (head cb + 1) mod max_size cb < max_size cb)
      by (apply Z.mod_pos_bound; lia).
    repeat split; try lia.
    rewrite last_n_snoc by lia. rewrite <- Hv, <- Hnew.
    destruct (Z.lt_ge_cases (head cb + 1) (max_size cb)) as [Hin|Hwrap].
    + rewrite Z.mod_small by lia. now replace (Z.to_nat (head cb + 1)) with (S h) by lia.
    + assert (head cb + 1 = max_size cb) as E by lia.
      rewrite E, Z_mod_same_full. change (Z.to_nat 0) with 0%nat.
      rewrite drop_0, take_0, app_nil_r.
      rewrite (drop_ge _ (S h)) by (rewrite length_insert; lia).
      cbn [app]. symmetry. apply take_ge. rewrite length_insert. lia.
Qed.

Lemma appends_hold pushed : forall cb more,
  holds cb pushed -> holds (fold_left append_circular_buffer more cb) (pushed ++ more).
Proof.
  intros cb more. revert cb pushed.
  induction more as [|v more IH]; intros cb pushed H; cbn [fold_left].
  - now rewrite app_nil_r.
  - replace (pushed ++ v :: more) with ((pushed ++ [v]) ++ more)
      by now rewrite <- app_assoc.
    apply IH. now apply append_holds.
Qed.

Lemma appends_keep_max_size values : forall cb,
  max_size (fold_left append_circular_buffer values cb) = max_size cb.
Proof.
  induction values as [|v values IH]; intros cb; [reflexivity | cbn [fold_left]].
  rewrite IH. unfold append_circular_buffer.
  destruct (data cb); [|reflexivity].
  now destruct (count cb <? max_size cb).
Qed.

(** The snapshot of a full buffer is its content, oldest first. *)
Lemma snapshot_of_full cb pushed :
  holds cb pushed -> max_size cb <= Z.of_nat (length pushed) ->
  get_circular_buffer_snapshot true cb
  = (Some (last_n (Z.to_nat (max_size cb)) pushed), max_size cb, cb).
Proof.
  intros (Hm & d & Hd & Hlen & _ & Hfull) Hge.
  destruct (Hfull Hge) as (Hc & Hh & Hr & Hv).
  pose proof (eq_refl : INT_MAX = 2 ^ 31 - 1) as HI.
  unfold get_circular_buffer_snapshot. rewrite Hd, Hc, <- Hh.
  replace (max_size cb =? 0) with false by (symmetry; apply Z.eqb_neq; lia).
  replace (head cb <? head cb) with false by (symmetry; apply Z.ltb_ge; lia).
  cbn [negb]. change (default [] (Some d)) with d. rewrite int_small by lia.
  rewrite take_ge by (rewrite length_drop; lia). now rewrite Hv.
Qed.
End CircBufContents.

(** [C4] A buffer set up with a capacity [C] (positive, an [int]) and
    given [C + k] values, [k > 0], one append each, has [count = C]; its
    snapshot is the last [C] of these values, oldest first, reports the
    length [C], and leaves the buffer as it was. *)
Theorem circular_buffer_keeps_last_C
        {T : Type} (block : list T) (C : Z) (values : list T) (cb0 : CircBuf.CircularBuffer T) :
  0 < C <= MachInt.INT_MAX ->
  Z.of_nat (length block) = C ->
  CircBuf.init_circular_buffer (Some block) C = Some cb0 ->
  C < Z.of_nat (length values) ->
  let cb := fold_left CircBuf.append_circular_buffer values cb0 in
  CircBuf.count cb = C /\
  CircBuf.get_circular_buffer_snapshot true cb
  = (Some (CircBuf.last_n (Z.to_nat C) values), C, cb) /\
  length (CircBuf.last_n (Z.to_nat C) values) = Z.to_nat C.
Proof.
  intros HC Hblock Hinit Hmore cb.
  assert (H : CircBuf.holds cb values).
  { apply (appends_hold [] cb0 values). now apply (init_holds block C). }
  assert (Hmax : CircBuf.max_size cb = C).
  { unfold cb. rewrite appends_keep_max_size. now injection Hinit as <-. }
  split; [|split].
  - destruct H as (_ & d & _ & _ & _ & Hfull). rewrite Hmax in Hfull.
    now destruct Hfull as (-> & _); [lia|].
  - rewrite <- Hmax at 1 2. apply snapshot_of_full; [exact H | lia].
  - apply length_last_n. lia.
Qed.

(** Capacity three, five values. *)
Lemma circular_buffer_keeps_last_C_witness :
  exists cb,
    CircBuf.get_circular_buffer_snapshot true
      (fold_left CircBuf.append_circular_buffer [10; 20; 30; 40; 50]
                 {| CircBuf.data := Some [0; 0; 0]; CircBuf.head := 0;
                    CircBuf.tail := 0; CircBuf.count := 0; CircBuf.max_size := 3 |})
    = (Some [30; 40; 50], 3, cb) /\ CircBuf.count cb = 3.
Proof.
  destruct (circular_buffer_keeps_last_C [0; 0; 0] 3 [10; 20; 30; 40; 50]
              {| CircBuf.data := Some [0; 0; 0]; CircBuf.head := 0;
                 CircBuf.tail := 0; CircBuf.count := 0; CircBuf.max_size := 3 |})
    as (Hcount & Hsnap & _).
  - unfold MachInt.INT_MAX. lia.
  - reflexivity.
  - reflexivity.
  - cbn. lia.
  - eexists. split; [exact Hsnap | exact Hcount].
Defined.

(** ** The queue of files *)

Section QueueFacts.
Import MachInt Queue.

Lemma length_waiting q : length (waiting q) = Z.to_nat (queue_count q).
Proof. unfold waiting. now rewrite length_map, length_seq. Qed.

Ltac queue_cases q :=
  destruct q as [slots h t c]; cbn [data_queue queue_head queue_tail queue_count] in *;
  do 11 (destruct slots as [|? slots]; try (cbn in *; lia));
  assert (h = 0 \/ h = 1 \/ h = 2 \/ h = 3 \/ h = 4 \/ h = 5 \/ h = 6 \/ h = 7
          \/ h = 8 \/ h = 9) as Hhead by lia;
  assert (c = 0 \/ c = 1 \/ c = 2 \/ c = 3 \/ c = 4 \/ c = 5 \/ c = 6 \/ c = 7
          \/ c = 8 \/ c = 9 \/ c = 10) as Hcount by lia;
  repeat (destruct Hhead as [-> | Hhead]); try subst h;
  repeat (destruct Hcount as [-> | Hcount]); try subst c; try lia; subst t.

(** While there is room, a file that is put goes behind the ones that
    wait. *)
Lemma put_file_appends q values n interval name :
  well_formed q -> queue_count q < 10 -> 0 < n ->
  exists q' item,
    put_file true q (Some values) n interval name = (q', Put) /\
    well_formed q' /\ waiting q' = waiting q ++ [Some item].
Proof.
  intros (Hlen & Hh & Hc & Ht) Hroom Hn. unfold put_file.
  replace (0 <? n) with true by (symmetry; apply Z.ltb_lt; lia).
  replace (queue_count q <? 10) with true by (symmetry; apply Z.ltb_lt; lia).
  do 2 eexists. split; [reflexivity|].
  queue_cases q; (split; [repeat split; vm_compute; congruence | reflexivity]).
Qed.

(** The file that is taken is the one that waited longest. *)
Lemma take_file_first q :
  well_formed q -> 0 < queue_count q ->
  exists item q',
    take_file q = Some (item, q') /\
    well_formed q' /\ waiting q = item :: waiting q'.
Proof.
  intros (Hlen & Hh & Hc & Ht) Hsome. unfold take_file.
  replace (0 <? queue_count q) with true by (symmetry; apply Z.ltb_lt; lia).
  do 2 eexists. split; [reflexivity|].
  queue_cases q; (split; [repeat split; vm_compute; congruence | reflexivity]).
Qed.
End QueueFacts.

(** [C5] When the queue holds its ten files, the attempt of the network
    thread to put another one drops it: the queue is what it was, with
    the same ten entries in the same order. The attempt is one pass
    through [if (queue_count < 10) ... else ...]: there is no wait in it. *)
Theorem full_queue_drops_file
        (item_alloc_ok : bool) (q : Queue.queue) (values : list float)
        (n interval_ms : Z) (name : list byte) :
  Queue.queue_count q = 10 -> 0 < n ->
  exists q',
    Queue.put_file item_alloc_ok q (Some values) n interval_ms name
    = (q', Queue.DroppedQueueFull) /\
    q' = q /\ Queue.waiting q' = Queue.waiting q /\
    length (Queue.waiting q') = 10%nat.
Proof.
  intros Hfull Hn. exists q. unfold Queue.put_file.
  replace (0 <? n) with true by (symmetry; apply Z.ltb_lt; lia).
  rewrite Hfull. cbn [Z.ltb Z.compare Pos.compare Pos.compare_cont].
  repeat split. rewrite length_waiting, Hfull. reflexivity.
Qed.

(** Ten files wait; an eleventh arrives. *)
Lemma full_queue_drops_file_witness :
  Queue.well_formed SampleStates.full_queue /\
  Queue.put_file true SampleStates.full_queue (Some [Double.of_Z 7]) 1 20
                 (CString.lit "f11.txt")
  = (SampleStates.full_queue, Queue.DroppedQueueFull).
Proof.
  split.
  - vm_compute. repeat split; congruence.
  - destruct (full_queue_drops_file true SampleStates.full_queue [Double.of_Z 7] 1 20
                (CString.lit "f11.txt")) as (q' & E & -> & _).
    + reflexivity.
    + lia.
    + exact E.
Defined.

(** ** Calibration *)

Section CalibrationFacts.
Import Double Calibration.
Local Open Scope float_scope.

(** [normalize_to_weights] applies [weight_of] to each of the values it is
    given. *)
Lemma normalize_to_weights_each ZERO_CAL SCALE_CAL values :
  values <> [] ->
  normalize_to_weights ZERO_CAL SCALE_CAL (Some values) (Z.of_nat (length values))
  = Some (map (weight_of ZERO_CAL SCALE_CAL) values).
Proof.
  intros Hne. unfold normalize_to_weights.
  replace (Z.of_nat (length values) <=? 0)%Z with false
    by (symmetry; apply Z.leb_gt; destruct values; [congruence | cbn; lia]).
  now rewrite Nat2Z.id, firstn_all.
Qed.

Lemma ADC_MAX_VAL_is_2_31 : ADC_MAX_VAL = Double.of_Z (2 ^ 31).
Proof. reflexivity. Qed.
End CalibrationFacts.

(** [C7, as amended] For every raw value and every pair of calibration
    constants with [SCALE_CAL] not equal to zero, both programs compute
    [(value / 2^31 - ZERO_CAL) / SCALE_CAL] in binary64 arithmetic. When
    [SCALE_CAL] equals zero neither divides by it: client.c yields NaN,
    c2.c yields 0.0. *)
Theorem weight_formula_and_zero_scale (ZERO_CAL SCALE_CAL : float) (value : Z) :
  let formula :=
    ((Double.of_Z value / Double.of_Z (2 ^ 31) - ZERO_CAL) / SCALE_CAL)%float in
  Calibration.weight_of ZERO_CAL SCALE_CAL value
  = (if (SCALE_CAL =? 0)%float then Double.NAN else formula) /\
  Calibration.normalize_to_weights ZERO_CAL SCALE_CAL (Some [value]) 1
  = Some [if (SCALE_CAL =? 0)%float then Double.NAN else formula] /\
  Calibration.normalize_to_weight ZERO_CAL SCALE_CAL value
  = (if (SCALE_CAL =? 0)%float then 0%float else formula).
Proof.
  intros formula.
  assert (Hw : Calibration.weight_of ZERO_CAL SCALE_CAL value
               = if (SCALE_CAL =? 0)%float then Double.NAN else formula).
  { unfold Calibration.weight_of. rewrite ADC_MAX_VAL_is_2_31.
    now destruct (SCALE_CAL =? 0)%float. }
  split; [exact Hw|]. split.
  - change 1 with (Z.of_nat (length [value])).
    rewrite (normalize_to_weights_each ZERO_CAL SCALE_CAL [value]) by discriminate.
    cbn [map]. now rewrite Hw.
  - unfold Calibration.normalize_to_weight. reflexivity.
Qed.

(** [C7, counterexample] With a scale of zero, [normalize_to_weight] of
    c2.c returns 0.0 for the raw value 1000, which is not a NaN. *)
Lemma c2_zero_scale_is_not_nan :
  Calibration.normalize_to_weight Calibration.c2_ZERO_CAL 0%float 1000 = 0%float /\
  Double.isnan (Calibration.normalize_to_weight Calibration.c2_ZERO_CAL 0%float 1000) = false.
Proof. split; reflexivity. Qed.

(** ** The warm-up of the filtered plot *)

Section PipelineFacts.
Import MachInt Double CircBuf Pipeline.
Variables ZERO_CAL SCALE_CAL : float.

Lemma process_sample_warm_up snapshot_alloc_ok st b :
  let dsp := append_circular_buffer (dsp_raw_adc_buffer b) (sample_of st) in
  let weight := Calibration.weight_of ZERO_CAL SCALE_CAL (Double.to_int (sample_of st)) in
  count dsp < 256 ->
  exists st' b',
    process_sample ZERO_CAL SCALE_CAL snapshot_alloc_ok st b = Processed st' b' /\
    dsp_raw_adc_buffer b' = dsp /\
    current_raw_buffer b' = append_circular_buffer (current_raw_buffer b) weight /\
    current_filtered_buffer b'
    = append_circular_buffer (current_filtered_buffer b)
                             (if FIR_NUM_TAPS <=? count dsp then weight else NAN).
Proof.
  intros dsp weight Hwarm. unfold process_sample. fold dsp.
  change (FFT_WINDOW_SIZE <? FIR_NUM_TAPS) with false. cbv iota.
  replace (FFT_WINDOW_SIZE <=? count dsp) with false
    by (symmetry; apply Z.leb_gt; unfold FFT_WINDOW_SIZE; lia).
  do 2 eexists. split; [reflexivity|].
  cbn [dsp_raw_adc_buffer current_raw_buffer current_filtered_buffer].
  repeat split. now destruct (FIR_NUM_TAPS <=? count dsp).
Qed.
End PipelineFacts.

(** [C6, as amended] In a step after which the DSP window (the sample of
    the step included) holds fewer than [FIR_NUM_TAPS] = 51 samples, the
    value appended to the filtered-plot buffer is NaN. In a step after
    which it holds at least 51 but fewer than
    max([FIR_NUM_TAPS], [FFT_WINDOW_SIZE]) = 256 samples, the value
    appended is the weight of the raw sample. *)
Theorem filtered_plot_warm_up
        (ZERO_CAL SCALE_CAL : float) (snapshot_alloc_ok : bool)
        (st : Pipeline.FileProcessingState) (b : Pipeline.Buffers) :
  let dsp := CircBuf.append_circular_buffer (Pipeline.dsp_raw_adc_buffer b)
                                            (Pipeline.sample_of st) in
  let weight := Calibration.weight_of ZERO_CAL SCALE_CAL
                                      (Double.to_int (Pipeline.sample_of st)) in
  CircBuf.count dsp < Z.max Pipeline.FIR_NUM_TAPS Pipeline.FFT_WINDOW_SIZE ->
  exists st' b',
    Pipeline.process_sample ZERO_CAL SCALE_CAL snapshot_alloc_ok st b
    = Pipeline.Processed st' b' /\
    Pipeline.dsp_raw_adc_buffer b' = dsp /\
    (CircBuf.count dsp < Pipeline.FIR_NUM_TAPS ->
     Pipeline.current_filtered_buffer b'
     = CircBuf.append_circular_buffer (Pipeline.current_filtered_buffer b) Double.NAN) /\
    (Pipeline.FIR_NUM_TAPS <= CircBuf.count dsp ->
     Pipeline.current_filtered_buffer b'
     = CircBuf.append_circular_buffer (Pipeline.current_filtered_buffer b) weight).
Proof.
  intros dsp weight Hwarm.
  destruct (process_sample_warm_up ZERO_CAL SCALE_CAL snapshot_alloc_ok st b)
    as (st' & b' & E & Hdsp & _ & Hf).
  { exact Hwarm. }
  exists st', b'. split; [exact E|]. split; [exact Hdsp|].
  fold dsp weight in Hf. split; intros Hc; rewrite Hf.
  - now replace (Pipeline.FIR_NUM_TAPS <=? CircBuf.count dsp) with false
      by (symmetry; apply Z.leb_gt; lia).
  - now replace (Pipeline.FIR_NUM_TAPS <=? CircBuf.count dsp) with true
      by (symmetry; apply Z.leb_le; lia).
Qed.

(** The eleventh sample of the ramp: the filtered plot gets a NaN. *)
Lemma filtered_plot_warm_up_witness :
  exists st' b',
    Pipeline.process_sample Calibration.client_ZERO_CAL Calibration.client_SCALE_CAL true
                            (SampleStates.state_after 10).1 (SampleStates.state_after 10).2
    = Pipeline.Processed st' b' /\
    CircBuf.count (Pipeline.dsp_raw_adc_buffer b') = 11 /\
    Pipeline.current_filtered_buffer b'
    = CircBuf.append_circular_buffer
        (Pipeline.current_filtered_buffer (SampleStates.state_after 10).2) Double.NAN.
Proof.
  destruct (filtered_plot_warm_up Calibration.client_ZERO_CAL Calibration.client_SCALE_CAL
              true (SampleStates.state_after 10).1 (SampleStates.state_after 10).2)
    as (st' & b' & E & Hdsp & Hnan & _).
  - vm_compute. reflexivity.
  - exists st', b'. split; [exact E|]. split.
    + rewrite Hdsp. vm_compute. reflexivity.
    + apply Hnan. vm_compute. reflexivity.
Defined.

(** [C6, counterexample] The 51st sample of the ramp: the DSP window
    holds 51 samples, fewer than 256, and the value appended to the
    filtered-plot buffer is the weight of the raw sample 1050, a number. *)
Lemma filtered_plot_gets_a_number_at_51 :
  exists st' b',
    Pipeline.process_sample Calibration.client_ZERO_CAL Calibration.client_SCALE_CAL true
                            (SampleStates.state_after 50).1 (SampleStates.state_after 50).2
    = Pipeline.Processed st' b' /\
    CircBuf.count (Pipeline.dsp_raw_adc_buffer b') = 51 /\
    Pipeline.current_filtered_buffer b'
    = CircBuf.append_circular_buffer
        (Pipeline.current_filtered_buffer (SampleStates.state_after 50).2)
        (Calibration.weight_of Calibration.client_ZERO_CAL Calibration.client_SCALE_CAL 1050) /\
    forall y,
      Pipeline.current_filtered_buffer b'
      = CircBuf.append_circular_buffer
          (Pipeline.current_filtered_buffer (SampleStates.state_after 50).2) y ->
      Double.isnan y = false.
Proof.
  do 2 eexists. split; [vm_compute; reflexivity|].
  split; [vm_compute; reflexivity|]. split; [vm_compute; reflexivity|].
  intros y H.
  apply (f_equal (fun cb => match CircBuf.data cb with
                            | Some d => nth 50 d Double.NAN
                            | None => Double.NAN
                            end)) in H.
  vm_compute in H. now subst y.
Qed.

(** ** The configuration text *)

Section ConfigFacts.
Import MachInt CString Config.

Lemma find_from_suffix needle : forall s found,
  find_from needle s = Some found -> exists pre, s = pre ++ found.
Proof.
  induction s as [|b s IH]; intros found; cbn [find_from].
  - destruct (starts_with needle []); [|discriminate].
    intros [= <-]. now exists [].
  - destruct (starts_with needle (b :: s)).
    + intros [= <-]. now exists [].
    + intros H. destruct (IH _ H) as [pre ->]. now exists (b :: pre).
Qed.

(** What [strstr] finds is a C string of its own. *)
Lemma strstr_c_str haystack needle found :
  strstr haystack needle = Some found -> c_str found = found.
Proof.
  unfold strstr. intros H. apply find_from_suffix in H as [pre E].
  apply c_str_id. pose proof (c_str_no_nul haystack) as Hn. rewrite E in Hn.
  now apply Forall_app in Hn as [_ Hn].
Qed.

Lemma drop_literal (literal rest : list byte) :
  drop (length literal) (literal ++ rest) = rest.
Proof. apply drop_app_length. Qed.

Lemma digit_char_value d : is_digit d -> digit_value (digit_char d) = Some d.
Proof.
  unfold is_digit. intros H.
  assert (d = 0 \/ d = 1 \/ d = 2 \/ d = 3 \/ d = 4 \/ d = 5 \/ d = 6 \/ d = 7
          \/ d = 8 \/ d = 9) as Hd by lia.
  repeat (destruct Hd as [-> | Hd]); try subst d; reflexivity.
Qed.

Lemma digit_char_plain d :
  is_digit d ->
  isspace (digit_char d) = false /\ digit_char d <> x2d /\ digit_char d <> x2b.
Proof.
  unfold is_digit. intros H.
  assert (d = 0 \/ d = 1 \/ d = 2 \/ d = 3 \/ d = 4 \/ d = 5 \/ d = 6 \/ d = 7
          \/ d = 8 \/ d = 9) as Hd by lia.
  repeat (destruct Hd as [-> | Hd]); try subst d; repeat split; discriminate.
Qed.

(** A run of digits is read as its decimal value. *)
Lemma scan_digits_value digits : forall post acc,
  Forall is_digit digits -> ends_numeral post ->
  scan_digits (map digit_char digits ++ post) acc
  = fold_left (fun a d => 10 * a + d) digits acc.
Proof.
  induction digits as [|d digits IH]; intros post acc Hd Hpost.
  - cbn [map app fold_left]. destruct post as [|b post]; [reflexivity|].
    cbn in *. now rewrite Hpost.
  - apply Forall_cons in Hd as [Hd Hds]. cbn [map app fold_left scan_digits].
    rewrite (digit_char_value d Hd). now apply IH.
Qed.

(** [%d] reads a numeral as its value. *)
Lemma scan_d_numeral negative digits post :
  digits <> [] -> Forall is_digit digits -> ends_numeral post ->
  - 2 ^ 31 <= numeral_value negative digits <= INT_MAX ->
  scan_d (numeral_text negative digits ++ post) = Some (numeral_value negative digits).
Proof.
  intros Hne Hd Hpost Hrange.
  destruct digits as [|d digits]; [congruence|].
  pose proof Hd as Hd'. apply Forall_cons in Hd' as [Hd0 _].
  destruct (digit_char_plain d Hd0) as (Hsp & Hminus & Hplus).
  unfold scan_d, numeral_text, numeral_value in *.
  destruct negative.
  - cbn [app skip_spaces isspace].
    cbn [map app]. rewrite (digit_char_value d Hd0).
    change (digit_char d :: map digit_char digits ++ post)
      with (map digit_char (d :: digits) ++ post).
    rewrite scan_digits_value by assumption. now rewrite int_small by exact Hrange.
  - cbn [app]. replace (skip_spaces (map digit_char (d :: digits) ++ post))
      with (map digit_char (d :: digits) ++ post)
      by (cbn [map app skip_spaces]; now rewrite Hsp).
    cbn [map app]. destruct (digit_char d) eqn:Ed; try congruence;
      rewrite <- Ed, (digit_char_value d Hd0);
      change (digit_char d :: map digit_char digits ++ post)
        with (map digit_char (d :: digits) ++ post);
      rewrite scan_digits_value by assumption; now rewrite int_small by exact Hrange.
Qed.

Lemma scan_word_word word : forall post,
  Forall (fun b => isspace b = false) word -> ends_word post ->
  scan_word (word ++ post) = word.
Proof.
  induction word as [|b word IH]; intros post Hw Hpost.
  - cbn [app]. destruct post as [|c post]; [reflexivity|]. cbn in *. now rewrite Hpost.
  - apply Forall_cons in Hw as [Hb Hw]. cbn [app scan_word]. rewrite Hb.
    now rewrite IH.
Qed.

(** [%s] reads a word that stands at the start. *)
Lemma scan_s_word word post :
  word <> [] -> Forall (fun b => isspace b = false) word -> ends_word post ->
  scan_s (word ++ post) = Some word.
Proof.
  intros Hne Hw Hpost. destruct word as [|b word]; [congruence|].
  pose proof Hw as Hw'. apply Forall_cons in Hw' as [Hb _].
  unfold scan_s. cbn [app skip_spaces]. rewrite Hb.
  change (b :: word ++ post) with ((b :: word) ++ post).
  now rewrite scan_word_word.
Qed.
Lemma find_from_here needle s : find_from needle (needle ++ s) = Some (needle ++ s).
Proof.
  destruct (needle ++ s) eqn:E; cbn [find_from]; rewrite <- ?E, starts_with_app; reflexivity.
Qed.

Lemma strtok_lines_one_line s : forall line,
  Forall (fun b => b <> x0a) s -> line ++ s <> [] ->
  strtok_lines s line = [line ++ s].
Proof.
  induction s as [|b s IH]; intros line Hs Hne.
  - rewrite app_nil_r in *. cbn. destruct line; congruence.
  - apply Forall_cons in Hs as [Hb Hs]. cbn [strtok_lines].
    destruct (Byte.eqb b x0a) eqn:E; [apply Byte.byte_dec_bl in E; congruence|].
    rewrite IH; [now rewrite <- app_assoc | exact Hs |].
    rewrite <- app_assoc. cbn. destruct line; discriminate.
Qed.

(** [strtok] at a line that ends with a line feed. *)
Lemma strtok_lines_line l : forall rest line,
  Forall (fun b => b <> x0a) l ->
  strtok_lines (l ++ x0a :: rest) line
  = match line ++ l with
    | [] => strtok_lines rest []
    | token => token :: strtok_lines rest []
    end.
Proof.
  induction l as [|b l IH]; intros rest line Hl.
  - rewrite app_nil_r. cbn [app strtok_lines].
    rewrite (Byte.byte_dec_lb (eq_refl x0a)). now destruct line.
  - apply Forall_cons in Hl as [Hb Hl]. cbn [app strtok_lines].
    destruct (Byte.eqb b x0a) eqn:E; [apply Byte.byte_dec_bl in E; congruence|].
    rewrite (IH rest (line ++ [b]) Hl). now rewrite <- app_assoc.
Qed.

Lemma starts_with_prefix needle : forall s,
  starts_with needle s = true -> exists rest, s = needle ++ rest.
Proof.
  induction needle as [|x needle IH]; intros s H; [now exists s|].
  destruct s as [|y s]; [discriminate|]. cbn [starts_with] in H.
  apply andb_true_iff in H as [Hxy H]. apply Byte.byte_dec_bl in Hxy as ->.
  destruct (IH _ H) as [rest ->]. now exists rest.
Qed.

(** What [strstr] finds starts with the needle. *)
Lemma find_from_found needle : forall s found,
  find_from needle s = Some found ->
  exists pre post, s = pre ++ needle ++ post /\ found = needle ++ post.
Proof.
  induction s as [|b s IH]; intros found; cbn [find_from].
  - destruct (starts_with needle []) eqn:E; [|discriminate].
    intros [= <-]. apply starts_with_prefix in E as [rest E].
    now exists [], rest.
  - destruct (starts_with needle (b :: s)) eqn:E.
    + intros [= <-]. apply starts_with_prefix in E as [rest E].
      now exists [], rest.
    + intros H. destruct (IH _ H) as (pre & post & -> & ->).
      now exists (b :: pre), post.
Qed.

(** [strstr] finds nothing exactly when the key does not occur. *)
Lemma find_from_absent needle s :
  ~ KeyText.occurs needle s -> find_from needle s = None.
Proof.
  intros Hno. destruct (find_from needle s) as [found|] eqn:E; [|reflexivity].
  destruct (find_from_found _ _ _ E) as (pre & post & Hs & _).
  exfalso. apply Hno. now exists pre, post.
Qed.

(** [strstr] stops at the first occurrence. *)
Lemma find_from_first needle : forall pre post,
  (forall pre' post', pre ++ needle ++ post = pre' ++ needle ++ post' ->
                      (length pre <= length pre')%nat) ->
  find_from needle (pre ++ needle ++ post) = Some (needle ++ post).
Proof.
  induction pre as [|b pre IH]; intros post Hfirst.
  - exact (find_from_here needle post).
  - cbn [app find_from].
    destruct (starts_with needle (b :: pre ++ needle ++ post)) eqn:E.
    + apply starts_with_prefix in E as [rest E].
      specialize (Hfirst [] rest E). cbn in Hfirst. lia.
    + apply IH. intros pre' post' H.
      specialize (Hfirst (b :: pre') post'). cbn [app length] in Hfirst.
      rewrite H in Hfirst. specialize (Hfirst eq_refl). lia.
Qed.

Lemma strstr_absent key payload :
  KeyText.text payload -> KeyText.text key ->
  ~ KeyText.occurs key payload -> strstr payload key = None.
Proof.
  intros Hp Hk Hno. unfold strstr. rewrite (c_str_id _ Hp), (c_str_id _ Hk).
  now apply find_from_absent.
Qed.

Lemma strstr_first key payload pre post :
  KeyText.text payload -> KeyText.text key ->
  KeyText.first_occurrence key payload pre post ->
  strstr payload key = Some (key ++ post).
Proof.
  intros Hp Hk [-> Hfirst]. unfold strstr. rewrite (c_str_id _ Hp), (c_str_id _ Hk).
  now apply find_from_first.
Qed.

(** A C string is the start of its buffer. *)
Lemma c_str_prefix s : exists tail, s = c_str s ++ tail.
Proof.
  induction s as [|b s [tail IH]]; [now exists []|]. cbn [c_str].
  destruct (Byte.eqb b NUL); [now exists (b :: s)|].
  exists tail. cbn [app]. now rewrite <- IH.
Qed.

(** A key that does not occur in a buffer is not found in its string. *)
Lemma strstr_of_buffer_absent key buf :
  KeyText.text key -> ~ KeyText.occurs key buf -> strstr buf key = None.
Proof.
  intros Hk Hno. unfold strstr. rewrite (c_str_id _ Hk).
  apply find_from_absent. intros (pre & post & E). apply Hno.
  destruct (c_str_prefix buf) as [tail Hb]. exists pre, (post ++ tail).
  rewrite Hb at 1. rewrite E. now rewrite <- !app_assoc.
Qed.

(** The tokens of [strtok] are pieces of the text. *)
Lemma strtok_lines_pieces s : forall line l,
  In l (strtok_lines s line) -> exists a b, line ++ s = a ++ l ++ b.
Proof.
  induction s as [|c s IH]; intros line l Hin; cbn [strtok_lines] in Hin.
  - destruct line as [|x line]; [destruct Hin|].
    destruct Hin as [<-|[]]. exists [], []. now rewrite !app_nil_r.
  - destruct (Byte.eqb c x0a) eqn:E.
    + apply Byte.byte_dec_bl in E as ->.
      destruct line as [|x line].
      * destruct (IH _ _ Hin) as (a & b & H). cbn [app] in H. exists (x0a :: a), b.
        cbn [app]. now rewrite H.
      * destruct Hin as [<-|Hin]; [now exists [], (x0a :: s)|].
        destruct (IH _ _ Hin) as (a & b & H). cbn [app] in H.
        exists ((x :: line) ++ x0a :: a), b. rewrite H. now rewrite <- !app_assoc.
    + destruct (IH _ _ Hin) as (a & b & H). exists a, b.
      rewrite <- H. now rewrite <- app_assoc.
Qed.

(** [strtok] over a text whose first part ends with a line feed. *)
Lemma strtok_lines_after_line_feed before s : forall line,
  strtok_lines (before ++ [x0a] ++ s) line
  = strtok_lines (before ++ [x0a]) line ++ strtok_lines s [].
Proof.
  induction before as [|c before IH]; intros line.
  - cbn [app strtok_lines]. rewrite (Byte.byte_dec_lb (eq_refl x0a)).
    now destruct line.
  - cbn [app strtok_lines]. destruct (Byte.eqb c x0a).
    + destruct line; [apply IH|]. cbn [app]. f_equal. apply IH.
    + apply IH.
Qed.

Lemma strtok_lines_at_line_start pre s :
  KeyText.line_start pre ->
  strtok_lines (pre ++ s) [] = strtok_lines pre [] ++ strtok_lines s [].
Proof.
  intros [->|[before ->]]; [reflexivity|].
  rewrite <- app_assoc. apply strtok_lines_after_line_feed.
Qed.

(** A text up to its first line feed. *)
Lemma first_line s :
  exists l rest, s = l ++ rest /\ Forall (fun b => b <> x0a) l /\
                 (rest = [] \/ exists r, rest = x0a :: r).
Proof.
  induction s as [|b s (l & rest & -> & Hl & Hrest)]; [exists [], []; auto|].
  destruct (Byte.eqb b x0a) eqn:E.
  - apply Byte.byte_dec_bl in E as ->. exists [], (x0a :: l ++ rest). eauto.
  - exists (b :: l), rest. repeat split; [|exact Hrest].
    constructor; [|exact Hl]. intros ->. now rewrite (Byte.byte_dec_lb eq_refl) in E.
Qed.

Lemma numeral_text_chars negative digits :
  Forall is_digit digits ->
  Forall (fun b => b <> x0a /\ b <> NUL) (numeral_text negative digits).
Proof.
  intros Hd. unfold numeral_text. apply Forall_app. split.
  - destruct negative; repeat constructor; discriminate.
  - apply Forall_map. eapply Forall_impl; [exact Hd|]. intros d H.
    unfold is_digit in H.
    assert (d = 0 \/ d = 1 \/ d = 2 \/ d = 3 \/ d = 4 \/ d = 5 \/ d = 6 \/ d = 7
            \/ d = 8 \/ d = 9) as Hc by lia.
    repeat (destruct Hc as [-> | Hc]); try subst d; split; discriminate.
Qed.

(** client.c:381-385: lines without the key leave the interval as it is. *)
Lemma client_lines_without_key lines : forall interval_ms,
  Forall (fun line => strstr line (lit "INTERVAL:") = None) lines ->
  fold_left
    (fun interval_ms line =>
       match strstr line (lit "INTERVAL:") with
       | Some _ => default interval_ms (sscanf_d line (lit "INTERVAL:"))
       | None => interval_ms
       end) lines interval_ms
  = interval_ms.
Proof.
  induction lines as [|l lines IH]; intros v Hall; [reflexivity|].
  apply Forall_cons in Hall as [Hl Hall]. cbn [fold_left]. rewrite Hl. now apply IH.
Qed.

(** The tokens of a text in which the key does not occur. *)
Lemma strtok_lines_without_key s :
  ~ KeyText.occurs (lit "INTERVAL:") s ->
  Forall (fun line => strstr line (lit "INTERVAL:") = None) (strtok_lines s []).
Proof.
  intros Hno. apply List.Forall_forall. intros l Hin.
  apply strtok_lines_pieces in Hin as (a & b & E). cbn [app] in E.
  apply strstr_of_buffer_absent; [repeat constructor; discriminate|].
  intros (pre & post & El). apply Hno. exists (a ++ pre), (post ++ b).
  rewrite E, El. now rewrite <- !app_assoc.
Qed.

Lemma client_parse_interval_absent payload :
  KeyText.text payload -> ~ KeyText.occurs (lit "INTERVAL:") payload ->
  client_parse_interval payload = 20.
Proof.
  intros Hp Hno. unfold client_parse_interval. rewrite (c_str_id _ Hp).
  apply client_lines_without_key. now apply strtok_lines_without_key.
Qed.

(** client.c takes the numeral of an [INTERVAL:] at the start of a line
    behind which the key does not occur again. *)
Lemma client_parse_interval_last payload pre negative digits post :
  KeyText.text payload ->
  payload = pre ++ lit "INTERVAL:" ++ numeral_text negative digits ++ post ->
  KeyText.line_start pre ->
  ~ KeyText.occurs (lit "INTERVAL:") post ->
  digits <> [] -> Forall is_digit digits -> ends_numeral post ->
  - 2 ^ 31 <= numeral_value negative digits <= INT_MAX ->
  client_parse_interval payload = numeral_value negative digits.
Proof.
  intros Hp -> Hstart Hno Hne Hd Hpost Hrange.
  unfold client_parse_interval. rewrite (c_str_id _ Hp).
  rewrite (strtok_lines_at_line_start _ _ Hstart), fold_left_app.
  match goal with |- context [fold_left ?f (strtok_lines pre []) 20] =>
    generalize (fold_left f (strtok_lines pre []) 20) end.
  intros before.
  destruct (first_line post) as (l & rest & -> & Hl & Hrest).
  set (line := lit "INTERVAL:" ++ numeral_text negative digits ++ l).
  assert (Hline : Forall (fun b => b <> x0a) line).
  { unfold line. apply Forall_app. split; [repeat constructor; discriminate|].
    apply Forall_app. split; [|exact Hl].
    eapply Forall_impl; [apply (numeral_text_chars negative digits Hd)|].
    cbn beta. tauto. }
  assert (Htext : Forall (fun b => b <> NUL) line).
  { unfold KeyText.text in Hp. unfold line.
    apply Forall_app in Hp as [_ Hp]. apply Forall_app in Hp as [Hkey Hp].
    apply Forall_app in Hp as [Hnum Hp]. apply Forall_app in Hp as [Hp _].
    apply Forall_app. split; [exact Hkey|]. apply Forall_app. now split. }
  assert (Hend : ends_numeral l).
  { destruct l as [|b l]; [exact I|]. exact Hpost. }
  assert (Hstep : match strstr line (lit "INTERVAL:") with
                  | Some _ => default before (sscanf_d line (lit "INTERVAL:"))
                  | None => before
                  end = numeral_value negative digits).
  { unfold strstr, sscanf_d. rewrite (c_str_id _ Htext).
    change (c_str (lit "INTERVAL:")) with (lit "INTERVAL:").
    unfold line. rewrite find_from_here, starts_with_app, drop_literal.
    now rewrite scan_d_numeral. }
  assert (Hrest' : exists lines,
             strtok_lines
               (lit "INTERVAL:" ++ numeral_text negative digits ++ l ++ rest) []
             = line :: lines /\
             Forall (fun line => strstr line (lit "INTERVAL:") = None) lines).
  { replace (lit "INTERVAL:" ++ numeral_text negative digits ++ l ++ rest)
      with (line ++ rest) by (unfold line; now rewrite <- !app_assoc).
    destruct Hrest as [->|[r ->]].
    - exists []. split; [|constructor]. rewrite app_nil_r.
      apply (strtok_lines_one_line line [] Hline). discriminate.
    - exists (strtok_lines r []). split.
      + rewrite (strtok_lines_line line r [] Hline). reflexivity.
      + apply strtok_lines_without_key. intros (a & b & E). apply Hno.
        exists (l ++ x0a :: a), b. rewrite E. now rewrite <- !app_assoc. }
  destruct Hrest' as (lines & -> & Hlines).
  cbn [fold_left]. rewrite Hstep. now apply client_lines_without_key.
Qed.
(** The parsers see the payload through its terminated buffer. *)
Lemma strstr_terminated payload key :
  KeyText.text payload -> strstr (payload ++ [NUL]) key = strstr payload key.
Proof.
  intros Hp. unfold strstr. now rewrite (c_str_terminated _ Hp), (c_str_id _ Hp).
Qed.

Lemma client_parse_interval_terminated payload :
  KeyText.text payload ->
  client_parse_interval (payload ++ [NUL]) = client_parse_interval payload.
Proof.
  intros Hp. unfold client_parse_interval.
  now rewrite (c_str_terminated _ Hp), (c_str_id _ Hp).
Qed.
End ConfigFacts.

(** [C9, as amended] For every configuration payload that is text, in the
    terminated buffer the two consumers parse. A key that does not occur
    leaves the default: without [INTERVAL:] the interval is 20 in c2.c and
    in client.c, without [MODE:] the mode of c2.c is [interval]. c2.c takes
    what follows the first occurrence of a key, wherever it stands: the
    value of the decimal numeral (a value an [int] holds) behind the first
    [INTERVAL:], and the word (of fewer than 50 characters) behind the
    first [MODE:]. client.c reads an interval only: the value of the
    numeral behind an [INTERVAL:] that stands at the start of a line and
    behind which the key does not occur again. *)
Theorem parse_config_keys_and_defaults (config_data : list byte) :
  KeyText.text config_data ->
  (~ KeyText.occurs (CString.lit "INTERVAL:") config_data ->
   Config.parse_interval (config_data ++ [CString.NUL]) = 20 /\
   Config.client_parse_interval (config_data ++ [CString.NUL]) = 20)
  /\
  (~ KeyText.occurs (CString.lit "MODE:") config_data ->
   Config.parse_mode (config_data ++ [CString.NUL]) = Some (CString.lit "interval"))
  /\
  (forall pre negative digits post,
      KeyText.first_occurrence (CString.lit "INTERVAL:") config_data pre
                               (Config.numeral_text negative digits ++ post) ->
      digits <> [] -> Forall Config.is_digit digits -> Config.ends_numeral post ->
      - 2 ^ 31 <= Config.numeral_value negative digits <= MachInt.INT_MAX ->
      Config.parse_interval (config_data ++ [CString.NUL])
      = Config.numeral_value negative digits)
  /\
  (forall pre word post,
      KeyText.first_occurrence (CString.lit "MODE:") config_data pre (word ++ post) ->
      word <> [] -> Forall (fun b => Config.isspace b = false) word ->
      Config.ends_word post ->
      Z.of_nat (length word) < Config.sizeof_mode ->
      Config.parse_mode (config_data ++ [CString.NUL]) = Some word)
  /\
  (forall pre negative digits post,
      config_data = pre ++ CString.lit "INTERVAL:"
                        ++ Config.numeral_text negative digits ++ post ->
      KeyText.line_start pre ->
      ~ KeyText.occurs (CString.lit "INTERVAL:") post ->
      digits <> [] -> Forall Config.is_digit digits -> Config.ends_numeral post ->
      - 2 ^ 31 <= Config.numeral_value negative digits <= MachInt.INT_MAX ->
      Config.client_parse_interval (config_data ++ [CString.NUL])
      = Config.numeral_value negative digits).
Proof.
  intros Htext.
  assert (Hinterval : KeyText.text (CString.lit "INTERVAL:"))
    by (repeat constructor; discriminate).
  assert (Hmode : KeyText.text (CString.lit "MODE:"))
    by (repeat constructor; discriminate).
  split; [|split; [|split; [|split]]].
  - intros Hno. split.
    + unfold Config.parse_interval.
      now rewrite (strstr_terminated _ _ Htext), (strstr_absent _ _ Htext Hinterval Hno).
    + rewrite (client_parse_interval_terminated _ Htext).
      now apply client_parse_interval_absent.
  - intros Hno. unfold Config.parse_mode.
    now rewrite (strstr_terminated _ _ Htext), (strstr_absent _ _ Htext Hmode Hno).
  - intros pre negative digits post Hfirst Hne Hd Hpost Hrange.
    pose proof (strstr_first _ _ _ _ Htext Hinterval Hfirst) as H.
    rewrite <- (strstr_terminated _ _ Htext) in H.
    unfold Config.parse_interval, Config.sscanf_d. rewrite H.
    rewrite (strstr_c_str _ _ _ H), starts_with_app, drop_literal.
    now rewrite scan_d_numeral.
  - intros pre word post Hfirst Hne Hw Hpost Hlen.
    pose proof (strstr_first _ _ _ _ Htext Hmode Hfirst) as H.
    rewrite <- (strstr_terminated _ _ Htext) in H.
    unfold Config.parse_mode, Config.sscanf_s. rewrite H.
    rewrite (strstr_c_str _ _ _ H), starts_with_app, drop_literal.
    rewrite scan_s_word by assumption.
    now replace (Z.of_nat (length word) + 1 <=? Config.sizeof_mode) with true
      by (symmetry; apply Z.leb_le; lia).
  - intros pre negative digits post E Hstart Hno Hne Hd Hpost Hrange.
    rewrite (client_parse_interval_terminated _ Htext).
    now apply (client_parse_interval_last config_data pre negative digits post).
Qed.

(** The text [MODE:freq], [INTERVAL:35] on two lines, whose values are not
    the defaults, and the text [hi], which holds no key. *)
Lemma parse_config_keys_and_defaults_witness :
  Config.parse_interval (Samples.config_with_values ++ [CString.NUL]) = 35 /\
  Config.parse_mode (Samples.config_with_values ++ [CString.NUL])
  = Some (CString.lit "freq") /\
  Config.client_parse_interval (Samples.config_with_values ++ [CString.NUL]) = 35 /\
  Config.parse_interval (CString.lit "hi" ++ [CString.NUL]) = 20 /\
  Config.client_parse_interval (CString.lit "hi" ++ [CString.NUL]) = 20 /\
  Config.parse_mode (CString.lit "hi" ++ [CString.NUL]) = Some (CString.lit "interval").
Proof.
  assert (Hvalues : KeyText.text Samples.config_with_values)
    by (repeat constructor; discriminate).
  assert (Hhi : KeyText.text (CString.lit "hi"))
    by (repeat constructor; discriminate).
  destruct (parse_config_keys_and_defaults Samples.config_with_values Hvalues)
    as (_ & _ & Hinterval & Hmode & Hclient).
  destruct (parse_config_keys_and_defaults (CString.lit "hi") Hhi)
    as (Hno_interval & Hno_mode & _).
  assert (Hshort : forall key, (2 < length key)%nat ->
                               ~ KeyText.occurs key (CString.lit "hi")).
  { intros key Hkey (pre & post & E). apply (f_equal (@length byte)) in E.
    rewrite !length_app in E. change (length (CString.lit "hi")) with 2%nat in E.
    lia. }
  split; [|split; [|split; [|split; [|split]]]].
  - apply (Hinterval (CString.lit "MODE:freq" ++ [x0a]) false [3; 5] [x0a]).
    + split; [reflexivity|]. intros pre' post' E.
      do 10 (destruct pre' as [|? pre']; [vm_compute in E; discriminate E|]).
      cbn. lia.
    + discriminate.
    + repeat constructor; unfold Config.is_digit; lia.
    + reflexivity.
    + vm_compute. split; discriminate.
  - apply (Hmode [] (CString.lit "freq") (x0a :: CString.lit "INTERVAL:35" ++ [x0a])).
    + split; [reflexivity|]. intros pre' post' _. cbn. lia.
    + discriminate.
    + repeat constructor.
    + reflexivity.
    + reflexivity.
  - apply (Hclient (CString.lit "MODE:freq" ++ [x0a]) false [3; 5] [x0a]).
    + reflexivity.
    + right. now exists (CString.lit "MODE:freq").
    + intros (pre & post & E). apply (f_equal (@length byte)) in E.
      rewrite !length_app in E. cbn in E. lia.
    + discriminate.
    + repeat constructor; unfold Config.is_digit; lia.
    + reflexivity.
    + vm_compute. split; discriminate.
  - apply Hno_interval, Hshort. cbn. lia.
  - apply Hno_interval, Hshort. cbn. lia.
  - apply Hno_mode, Hshort. cbn. lia.
Defined.

(** [C9, counterexample] The two consumers do not decode the same
    function. In the text [xINTERVAL:35] the key occurs: c2.c returns 35,
    client.c, which wants the key at the start of a line, returns the
    default. In the text of two lines [INTERVAL:5], [INTERVAL:7] c2.c
    returns the first value and client.c the last. *)
Lemma config_decoders_disagree :
  (KeyText.occurs (CString.lit "INTERVAL:") (CString.lit "xINTERVAL:35") /\
   Config.parse_interval (CString.lit "xINTERVAL:35" ++ [CString.NUL]) = 35 /\
   Config.client_parse_interval (CString.lit "xINTERVAL:35" ++ [CString.NUL]) = 20)
  /\
  (Config.parse_interval (Samples.two_intervals ++ [CString.NUL]) = 5 /\
   Config.client_parse_interval (Samples.two_intervals ++ [CString.NUL]) = 7).
Proof.
  split; [split; [|split]|split]; try reflexivity.
  now exists (CString.lit "x"), (CString.lit "35").
Qed.

(** client.c reads the interval line by line and has no mode. *)
Example client_parse_interval_scenario :
  Config.client_parse_interval Samples.scenario_config = 20 /\
  Config.client_parse_interval (CString.lit "INTERVAL:35") = 35 /\
  Config.client_parse_interval (CString.lit "MODE:interval") = 20.
Proof. repeat split. Qed.

(** ** Short streams *)

(** The peer closes after two of four bytes: [recv_all] returns 0. *)
Example recv_all_closed_early :
  Sock.recv_all (Sock.delivering [CString.lit "ab"]) 4
  = Some (0, CString.lit "ab", []).
Proof. reflexivity. Qed.

(** The connection fails after three of four bytes: [recv_all] returns -1,
    [recvall] of client.c too. *)
Example recv_all_failed :
  Sock.recv_all [Sock.Chunk (CString.lit "abc"); Sock.RecvError] 4
  = Some (-1, CString.lit "abc", []) /\
  Sock.recvall [Sock.Chunk (CString.lit "abc"); Sock.RecvError] 4
  = Some (-1, CString.lit "abc", []).
Proof. split; reflexivity. Qed.

(** c2.c at the frame [NO_FILE_FOUND:50hz] of scenario B, with a frame
    behind it that is never read. *)
Example c2_scenario_B :
  Client2.receive_files (fun _ => true) 3
    (Sock.delivering [Protocol.control_frame (CString.lit "NO_FILE_FOUND:50hz");
                      Server.frame_layout (CString.lit "f1.txt") (CString.lit "ADC:1")])
  = Some ([], Client2.ControlMessage (CString.lit "NO_FILE_FOUND:50hz"),
          Sock.delivering [Server.frame_layout (CString.lit "f1.txt") (CString.lit "ADC:1")]).
Proof. reflexivity. Qed.

(** ** The calibration constants of the two programs *)

Section CalibrationExamples.
#[local] Set Warnings "-inexact-float".

(** client.c: the raw value 0 weighs about -4035.097. *)
Example client_weight_of_0 :
  let w := Calibration.weight_of Calibration.client_ZERO_CAL
                                 Calibration.client_SCALE_CAL 0 in
  ((-4035.098 <? w) && (w <? -4035.097))%float = true.
Proof. reflexivity. Qed.

(** c2.c: the raw value 0 weighs about 154.289. *)
Example c2_weight_of_0 :
  let w := Calibration.normalize_to_weight Calibration.c2_ZERO_CAL
                                           Calibration.c2_SCALE_CAL 0 in
  ((154.288 <? w) && (w <? 154.29))%float = true.
Proof. reflexivity. Qed.
End CalibrationExamples.

(** * Further properties of the three programs *)

(** ** Numbers as text *)

Section PrintfFacts.
Import MachInt CString Config Printf.

Lemma digits_rev_spec fuel : forall n,
  0 <= n < 2 ^ Z.of_nat (S fuel) ->
  digits_rev (S fuel) n <> [] /\
  Forall is_digit (digits_rev (S fuel) n) /\
  fold_right (fun d acc => 10 * acc + d) 0 (digits_rev (S fuel) n) = n.
Proof.
  induction fuel as [|fuel IH]; intros n Hn.
  - change (2 ^ Z.of_nat 1) with 2 in Hn. cbn [digits_rev].
    replace (n <? 10) with true by (symmetry; apply Z.ltb_lt; lia). cbv iota.
    split; [discriminate | split; [repeat constructor; unfold is_digit; lia | cbn; lia]].
  - remember (S fuel) as k eqn:Ek. cbn [digits_rev].
    destruct (Z.ltb_spec n 10) as [Hsmall|Hbig].
    + split; [discriminate | split; [repeat constructor; unfold is_digit; lia | cbn; lia]].
    + rewrite Nat2Z.inj_succ, Z.pow_succ_r in Hn by lia.
      destruct (IH (n / 10)) as (_ & Hd & Hv).
      { split; [apply Z.div_pos; lia|].
        apply Z.div_lt_upper_bound; lia. }
      split; [discriminate | split].
      * constructor; [|exact Hd]. unfold is_digit.
        pose proof (Z.mod_pos_bound n 10). lia.
      * cbn [fold_right]. rewrite Hv. pose proof (Z.div_mod n 10). lia.
Qed.

Lemma digits_spec n :
  0 <= n ->
  digits n <> [] /\ Forall is_digit (digits n) /\
  fold_left (fun acc d => 10 * acc + d) (digits n) 0 = n.
Proof.
  intros Hn. unfold digits.
  destruct (digits_rev_spec (Z.to_nat (Z.log2 n)) n) as (Hne & Hd & Hv).
  { split; [exact Hn|]. rewrite Nat2Z.inj_succ, Z2Nat.id by apply Z.log2_nonneg.
    destruct (Z.eq_dec n 0) as [-> | Hpos]; [cbn; lia|].
    apply Z.log2_spec. lia. }
  repeat split.
  - intros E. apply Hne. apply (f_equal (@rev Z)) in E.
    now rewrite rev_involutive in E.
  - now apply Forall_rev.
  - now rewrite <- fold_left_rev_right, rev_involutive.
Qed.

(** [%d] writes a numeral whose value is the number. *)
Lemma format_d_numeral n :
  exists ds,
    format_d n = numeral_text (n <? 0) ds /\
    ds <> [] /\ Forall is_digit ds /\ numeral_value (n <? 0) ds = n.
Proof.
  exists (digits (Z.abs n)). destruct (digits_spec (Z.abs n)) as (Hne & Hd & Hv); [lia|].
  repeat split; try assumption.
  unfold numeral_value. rewrite Hv. destruct (Z.ltb_spec n 0); lia.
Qed.

Lemma digit_char_no_nul d : is_digit d -> digit_char d <> NUL /\ digit_char d <> x0a.
Proof.
  unfold is_digit. intros H.
  assert (d = 0 \/ d = 1 \/ d = 2 \/ d = 3 \/ d = 4 \/ d = 5 \/ d = 6 \/ d = 7
          \/ d = 8 \/ d = 9) as Hd by lia.
  repeat (destruct Hd as [-> | Hd]); try subst d; split; discriminate.
Qed.

(** The characters [%d] writes: digits and the minus sign. *)
Lemma format_d_chars n :
  Forall (fun b => b <> NUL /\ b <> x0a /\ isspace b = false /\
                   b <> x4d /\ b <> x49 /\ b <> x41)
         (format_d n).
Proof.
  destruct (format_d_numeral n) as (ds & -> & _ & Hd & _).
  unfold numeral_text. apply Forall_app. split.
  - destruct (n <? 0); repeat constructor; discriminate.
  - apply Forall_map. eapply Forall_impl; [exact Hd|].
    intros d Hdig. cbn beta. unfold is_digit in Hdig.
    assert (d = 0 \/ d = 1 \/ d = 2 \/ d = 3 \/ d = 4 \/ d = 5 \/ d = 6 \/ d = 7
            \/ d = 8 \/ d = 9) as Hc by lia.
    repeat (destruct Hc as [-> | Hc]); try subst d; repeat split; discriminate.
Qed.

(** Reading back what [%d] wrote. *)
Lemma scan_d_format_d n post :
  - 2 ^ 31 <= n <= INT_MAX -> ends_numeral post ->
  scan_d (format_d n ++ post) = Some n.
Proof.
  intros Hn Hpost. destruct (format_d_numeral n) as (ds & -> & Hne & Hd & Hv).
  rewrite scan_d_numeral; rewrite ?Hv; try assumption. reflexivity.
Qed.
End PrintfFacts.

(** ** Whole frames at c2.c *)

Section Client2Frames.
Import MachInt ByteOrder CString Sock Protocol Client2.
Variable malloc_ok : Z -> bool.

(** One turn of the loop of c2.c on a frame that is no control message. *)
Lemma c2_receive_one_frame sock name content rest :
  pending sock = Server.frame_layout name content ++ rest ->
  c_name name -> 0 < Z.of_nat (length name) < 2 ^ 32 ->
  is_control_message (name ++ [NUL]) = false ->
  Z.of_nat (length content) <= SSIZE_MAX ->
  malloc_ok (Z.of_nat (length name) + 1) = true ->
  malloc_ok (Z.of_nat (length content) + 1) = true ->
  exists sock',
    receive_one malloc_ok sock
    = Some (if Z.of_nat (length content) =? 0
            then Break (NoContent name) sock'
            else Go (name, c_str (content ++ [NUL])) sock') /\
    pending sock' = rest.
Proof.
  intros Hp Hc Hname Hctl Hcontent Hm1 Hm2. unfold SSIZE_MAX in Hcontent.
  destruct (recv_frame_header_layout malloc_ok sock name content rest Hp Hname)
    as (sock1 & E1 & P1); [lia | exact Hm1 |].
  unfold receive_one. rewrite E1. cbn [mbind option_bind]. rewrite Hctl.
  rewrite uint64_t_small, Hm2 by lia. cbn [negb].
  destruct (recv_all_exact sock1 content rest (Z.of_nat (length content)) P1) as [E2 P2];
    [reflexivity | unfold SSIZE_MAX; lia |].
  rewrite E2. cbn [mbind option_bind]. rewrite (c_str_terminated _ Hc).
  exists (advance sock1 (length content)). split; [|exact P2].
  destruct (Z.eqb_spec (Z.of_nat (length content)) 0) as [E0|Hne].
  - now rewrite E0.
  - now replace (Z.of_nat (length content) <=? 0) with false
      by (symmetry; apply Z.leb_gt; lia).
Qed.

End Client2Frames.

(** [X1] c2.c hands a data frame on whole: for a frame whose name is no
    control message and whose content is not empty, one turn of the loop
    of [main] yields the name and the content (as the C strings
    [process_data] gets) and leaves what follows the frame unread. *)
Theorem c2_receives_data_frame
        (malloc_ok : Z -> bool) (sock : Sock.socket) (name content rest : list byte) :
  Sock.pending sock = Server.frame_layout name content ++ rest ->
  Protocol.c_name name -> 0 < Z.of_nat (length name) < 2 ^ 32 ->
  Client2.is_control_message (name ++ [CString.NUL]) = false ->
  0 < Z.of_nat (length content) <= MachInt.SSIZE_MAX ->
  malloc_ok (Z.of_nat (length name) + 1) = true ->
  malloc_ok (Z.of_nat (length content) + 1) = true ->
  exists sock',
    Client2.receive_one malloc_ok sock
    = Some (Client2.Go (name, CString.c_str (content ++ [CString.NUL])) sock') /\
    Sock.pending sock' = rest.
Proof.
  intros Hp Hc Hn Hctl Hlen Hm1 Hm2.
  destruct (c2_receive_one_frame malloc_ok sock name content rest Hp Hc Hn Hctl)
    as (sock' & E & P); [lia | exact Hm1 | exact Hm2 |].
  replace (Z.of_nat (length content) =? 0) with false in E
    by (symmetry; apply Z.eqb_neq; lia).
  now exists sock'.
Qed.

(** The file [f1.txt] in two deliveries, with a byte behind it. *)
Lemma c2_receives_data_frame_witness :
  exists sock',
    Client2.receive_one (fun _ => true)
      (Sock.delivering [ByteOrder.big_endian 4 6 ++ CString.lit "f1";
                        CString.lit ".txt" ++ ByteOrder.big_endian 8 5
                        ++ CString.lit "ADC:1" ++ [x07]])
    = Some (Client2.Go (CString.lit "f1.txt", CString.lit "ADC:1") sock') /\
    Sock.pending sock' = [x07].
Proof.
  destruct (c2_receives_data_frame (fun _ => true)
              (Sock.delivering [ByteOrder.big_endian 4 6 ++ CString.lit "f1";
                                CString.lit ".txt" ++ ByteOrder.big_endian 8 5
                                ++ CString.lit "ADC:1" ++ [x07]])
              (CString.lit "f1.txt") (CString.lit "ADC:1") [x07])
    as (sock' & E & P).
  - reflexivity.
  - repeat constructor; discriminate.
  - vm_compute. split; reflexivity.
  - reflexivity.
  - vm_compute. split; [reflexivity | discriminate].
  - reflexivity.
  - reflexivity.
  - exists sock'. split; [exact E | exact P].
Defined.

(** [X2] c2.c cannot receive an empty file: for a frame whose name is no
    control message and whose content length is 0, [recv_all] returns 0
    for the content and the loop of [main] ends as if the server had
    disconnected; the file is not handed to [process_data]. *)
Theorem c2_gives_up_at_empty_file
        (malloc_ok : Z -> bool) (sock : Sock.socket) (name rest : list byte) (fuel : nat) :
  Sock.pending sock = Server.frame_layout name [] ++ rest ->
  Protocol.c_name name -> 0 < Z.of_nat (length name) < 2 ^ 32 ->
  Client2.is_control_message (name ++ [CString.NUL]) = false ->
  malloc_ok (Z.of_nat (length name) + 1) = true ->
  malloc_ok 1 = true ->
  exists sock',
    Client2.receive_files malloc_ok (S fuel) sock
    = Some ([], Client2.NoContent name, sock') /\
    Sock.pending sock' = rest.
Proof.
  intros Hp Hc Hn Hctl Hm1 Hm2.
  destruct (c2_receive_one_frame malloc_ok sock name [] rest Hp Hc Hn Hctl)
    as (sock' & E & P); [cbn; unfold MachInt.SSIZE_MAX; lia | exact Hm1 | exact Hm2 |].
  exists sock'. split; [|exact P].
  cbn [Client2.receive_files]. rewrite E. reflexivity.
Qed.

(** An empty [f1.txt] with the frame of [f2.txt] behind it. *)
Lemma c2_gives_up_at_empty_file_witness :
  exists sock',
    Client2.receive_files (fun _ => true) 5
      (Sock.delivering [Server.frame_layout (CString.lit "f1.txt") [];
                        Server.frame_layout (CString.lit "f2.txt") (CString.lit "ADC:1")])
    = Some ([], Client2.NoContent (CString.lit "f1.txt"), sock') /\
    Sock.pending sock' = Server.frame_layout (CString.lit "f2.txt") (CString.lit "ADC:1").
Proof.
  destruct (c2_gives_up_at_empty_file (fun _ => true)
              (Sock.delivering
                 [Server.frame_layout (CString.lit "f1.txt") [];
                  Server.frame_layout (CString.lit "f2.txt") (CString.lit "ADC:1")])
              (CString.lit "f1.txt")
              (Server.frame_layout (CString.lit "f2.txt") (CString.lit "ADC:1")) 4)
    as (sock' & E & P).
  - reflexivity.
  - repeat constructor; discriminate.
  - vm_compute. split; reflexivity.
  - reflexivity.
  - reflexivity.
  - reflexivity.
  - exists sock'. split; [exact E | exact P].
Defined.

(** [X3] c2.c at a control frame: for each of the four sentinels
    ([END_OF_TRANSMISSION], [NO_FILE_SELECTED], [NO_FILES_IN_FOLDER], a
    name that starts with [NO_FILE_FOUND:]) the loop of [main] reads the
    name and the eight bytes of the content length, hands no file on, and
    ends; the bytes behind the frame stay unread. *)
Theorem c2_control_frame_ends_loop
        (malloc_ok : Z -> bool) (sock : Sock.socket) (name rest : list byte) (fuel : nat) :
  Protocol.sentinel name -> Protocol.c_name name ->
  Z.of_nat (length name) < 2 ^ 32 ->
  malloc_ok (Z.of_nat (length name) + 1) = true ->
  Sock.pending sock = Protocol.control_frame name ++ rest ->
  exists sock',
    Client2.receive_files malloc_ok (S fuel) sock
    = Some ([], Client2.ControlMessage name, sock') /\
    Sock.pending sock' = rest.
Proof. apply c2_stops_at_sentinel. Qed.

(** [NO_FILE_FOUND:50hz], byte by byte behind its length, and a frame
    after it. *)
Lemma c2_control_frame_ends_loop_witness :
  exists sock',
    Client2.receive_files (fun _ => true) 3
      (Sock.delivering
         [ByteOrder.big_endian 4 18; CString.lit "NO_FILE_"; CString.lit "FOUND:50hz";
          ByteOrder.big_endian 8 0;
          Server.frame_layout (CString.lit "f1.txt") (CString.lit "ADC:1")])
    = Some ([], Client2.ControlMessage (CString.lit "NO_FILE_FOUND:50hz"), sock') /\
    Sock.pending sock' = Server.frame_layout (CString.lit "f1.txt") (CString.lit "ADC:1").
Proof.
  apply (c2_control_frame_ends_loop (fun _ => true) _ (CString.lit "NO_FILE_FOUND:50hz")
           (Server.frame_layout (CString.lit "f1.txt") (CString.lit "ADC:1")) 2).
  - apply (Protocol.sentinel_no_file_found (CString.lit "50hz")).
  - repeat constructor; discriminate.
  - reflexivity.
  - reflexivity.
  - reflexivity.
Defined.

(** [X4] client.c at [NO_FILE_SELECTED], [NO_FILES_IN_FOLDER] or a name
    that starts with [NO_FILE_FOUND:] (of fewer than 256 bytes): the loop
    of [network_thread_func] reads the eight bytes of the content length
    and ends; the bytes behind the frame stay unread and nothing is put
    in the queue. *)
Theorem client_server_message_ends_loop
        (malloc_ok : Z -> bool) (item_alloc_ok : bool) (interval_ms : Z)
        (q : Queue.queue) (sock : Sock.socket) (name rest : list byte) :
  Protocol.sentinel name -> name <> CString.lit "END_OF_TRANSMISSION" ->
  Protocol.c_name name -> Z.of_nat (length name) < 256 ->
  Sock.pending sock = Protocol.control_frame name ++ rest ->
  exists sock',
    ClientSession.network_turn malloc_ok item_alloc_ok interval_ms q sock
    = Some (ClientSession.Stopped (Client.ServerMessage name), q, sock') /\
    Sock.pending sock' = rest.
Proof.
  intros Hs Hne Hc Hlen Hp.
  destruct (client_stops_at_server_message malloc_ok sock name rest Hs Hne Hc Hlen Hp)
    as (sock' & E & P).
  exists sock'. split; [|exact P].
  unfold ClientSession.network_turn. now rewrite E.
Qed.

(** [NO_FILES_IN_FOLDER] as server.c sends it. *)
Lemma client_server_message_ends_loop_witness :
  exists sock',
    ClientSession.network_turn (fun _ => true) true 20 Queue.initial
      (Sock.delivering
         (Server.send_control_message [] (CString.lit "NO_FILES_IN_FOLDER")))
    = Some (ClientSession.Stopped
              (Client.ServerMessage (CString.lit "NO_FILES_IN_FOLDER")),
            Queue.initial, sock') /\
    Sock.pending sock' = [].
Proof.
  apply (client_server_message_ends_loop (fun _ => true) true 20 Queue.initial _
           (CString.lit "NO_FILES_IN_FOLDER") []).
  - apply Protocol.sentinel_no_files_in_folder.
  - discriminate.
  - repeat constructor; discriminate.
  - reflexivity.
  - reflexivity.
Defined.

(** [X5] [recvall] of client.c, for a length an [int] holds: it returns
    the length once exactly that many bytes are stored, and these are the
    first bytes the socket had pending, in order, however they were
    delivered; when the stream ends or fails before, it returns -1,
    whether [recv] reported 0 or -1. *)
Theorem recvall_exactly_n_or_minus_1 (sock : Sock.socket) (n : Z) :
  0 <= n <= MachInt.INT_MAX ->
  exists ret buf sock',
    Sock.recvall sock n = Some (ret, buf, sock') /\
    ((n <= Z.of_nat (length (Sock.pending sock)) /\
      ret = n /\
      buf = take (Z.to_nat n) (Sock.pending sock) /\
      Sock.pending sock' = drop (Z.to_nat n) (Sock.pending sock))
     \/
     (Z.of_nat (length (Sock.pending sock)) < n /\ ret = -1)).
Proof.
  intros Hn. unfold Sock.recvall.
  destruct (recvall_loop_spec sock (Z.to_nat n) [] 0 n) as [Hok Hfail]; [lia..|].
  rewrite Z.sub_0_r in Hok, Hfail.
  destruct (Nat.le_gt_cases (Z.to_nat n) (length (Sock.pending sock))) as [Hle|Hgt].
  - rewrite Hok by exact Hle. do 3 eexists. split; [reflexivity|]. left.
    cbn [app]. repeat split; try lia. now apply pending_advance.
  - destruct (Hfail Hgt) as (buf' & sock' & E).
    rewrite E. do 3 eexists. split; [reflexivity|]. right. split; [lia | reflexivity].
Qed.

(** Five bytes asked of a socket that delivers three and closes. *)
Lemma recvall_exactly_n_or_minus_1_witness :
  exists buf sock',
    Sock.recvall (Sock.delivering [CString.lit "ab"; CString.lit "c"]) 5
    = Some (-1, buf, sock').
Proof.
  destruct (recvall_exactly_n_or_minus_1
              (Sock.delivering [CString.lit "ab"; CString.lit "c"]) 5)
    as (ret & buf & sock' & E & H).
  - unfold MachInt.INT_MAX. lia.
  - exists buf, sock'. destruct H as [(Hle & _) | (_ & ->)]; [|exact E].
    exfalso. revert Hle. vm_compute. intros H. now apply H.
Defined.

(** [X6] The three hand-written 64-bit byte swaps agree: what
    [htobe64_custom] of server.c makes of a length is, in memory, its
    eight bytes with the most significant first, and [be64toh_custom] of
    c2.c and [ntohll_custom] of client.c give the length back. *)
Theorem content_length_swap_round_trip (v : Z) :
  0 <= v < 2 ^ 64 ->
  ByteOrder.object_bytes 8 (ByteOrder.htobe64_custom v) = ByteOrder.big_endian 8 v /\
  ByteOrder.be64toh_custom (ByteOrder.htobe64_custom v) = v /\
  ByteOrder.ntohll_custom (ByteOrder.htobe64_custom v) = v.
Proof.
  intros Hv.
  assert (Hback : le_combine (rev (le_split 8 (ByteOrder.htobe64_custom v))) = v).
  { rewrite htobe64_custom_swaps.
    rewrite split_le_combine' by now rewrite length_rev, length_le_split.
    rewrite rev_involutive, le_combine_split. apply Z.mod_small. simpl. lia. }
  split; [|split].
  - rewrite htobe64_custom_swaps. unfold ByteOrder.object_bytes, ByteOrder.big_endian.
    apply split_le_combine'. now rewrite length_rev, length_le_split.
  - now rewrite be64toh_custom_swaps.
  - now rewrite ntohll_custom_swaps.
Qed.

(** The length 0x0102030405060708. *)
Lemma content_length_swap_round_trip_witness :
  ByteOrder.object_bytes 8 (ByteOrder.htobe64_custom 0x0102030405060708)
  = [x01; x02; x03; x04; x05; x06; x07; x08] /\
  ByteOrder.be64toh_custom (ByteOrder.htobe64_custom 0x0102030405060708)
  = 0x0102030405060708.
Proof.
  destruct (content_length_swap_round_trip 0x0102030405060708) as (Hb & Hr & _).
  - lia.
  - split; [rewrite Hb; reflexivity | exact Hr].
Defined.

(** ** The configuration, from server.c to the consumers *)

Section ConfigSession.
Import MachInt ByteOrder CString Sock Config Printf ServerSession ConfigText.

Lemma length_digits_rev fuel : forall n, (length (digits_rev fuel n) <= fuel)%nat.
Proof.
  induction fuel as [|fuel IH]; intros n; cbn [digits_rev]; [cbn; lia|].
  destruct (n <? 10); cbn [length]; [lia|]. specialize (IH (n / 10)). lia.
Qed.

Lemma length_format_d n :
  - 2 ^ 31 <= n <= INT_MAX -> (length (format_d n) <= 33)%nat.
Proof.
  intros Hn. unfold format_d, numeral_text, digits, INT_MAX in *.
  rewrite length_app, length_map, length_rev.
  pose proof (length_digits_rev (S (Z.to_nat (Z.log2 (Z.abs n)))) (Z.abs n)) as Hd.
  assert (Z.log2 (Z.abs n) <= 31).
  { destruct (Z.eq_dec (Z.abs n) 0) as [-> | Hnz]; [cbn; lia|].
    apply Z.lt_succ_r. apply Z.log2_lt_pow2; lia. }
  pose proof (Z.log2_nonneg (Z.abs n)).
  destruct (n <? 0); cbn [length]; lia.
Qed.

Lemma config_text_chars interval_ms mode :
  plain_word mode ->
  Forall (fun b => b <> NUL /\ b <> x0a) (config_text interval_ms mode).
Proof.
  intros Hm. unfold config_text, backslash_n.
  apply Forall_app; split; [repeat constructor; discriminate|].
  apply Forall_app; split.
  { eapply Forall_impl; [apply format_d_chars|]. cbn beta. tauto. }
  apply Forall_app; split; [repeat constructor; discriminate|].
  apply Forall_app; split; [repeat constructor; discriminate|].
  apply Forall_app; split; [|repeat constructor; discriminate].
  eapply Forall_impl; [exact Hm|]. cbn beta. intros b [Hn Hs].
  split; [exact Hn|]. intros ->. discriminate.
Qed.

Lemma config_text_c_str interval_ms mode :
  plain_word mode ->
  c_str (config_text interval_ms mode ++ [NUL]) = config_text interval_ms mode.
Proof.
  intros Hm. apply c_str_terminated.
  eapply Forall_impl; [apply (config_text_chars interval_ms mode Hm)|].
  cbn beta. tauto.
Qed.

Lemma length_config_text interval_ms mode :
  - 2 ^ 31 <= interval_ms <= INT_MAX ->
  (18 <= length (config_text interval_ms mode) <= 51 + length mode)%nat.
Proof.
  intros Hi. pose proof (length_format_d interval_ms Hi).
  unfold config_text, backslash_n. rewrite !length_app. cbn [length lit list_byte_of_string].
  change (length (lit "INTERVAL:")) with 9%nat. change (length (lit "MODE:")) with 5%nat.
  lia.
Qed.

(** [send_config] sends the length of the text, most significant byte
    first, and the text. *)
Lemma send_config_bytes w interval_ms mode :
  - 2 ^ 31 <= interval_ms <= INT_MAX -> plain_word mode ->
  (length mode <= 4000)%nat ->
  send_config w interval_ms mode
  = w ++ [big_endian 4 (Z.of_nat (length (config_text interval_ms mode)));
          config_text interval_ms mode].
Proof.
  intros Hi Hm Hlen. unfold send_config.
  assert (Hc : c_str mode = mode).
  { apply c_str_id. eapply Forall_impl; [exact Hm|]. cbn beta. tauto. }
  rewrite Hc. fold (config_text interval_ms mode).
  pose proof (length_config_text interval_ms mode Hi) as Hl.
  assert (Hs : snprintf Server.BUFFER_SIZE (config_text interval_ms mode)
               = config_text interval_ms mode).
  { unfold snprintf, Server.BUFFER_SIZE. apply take_ge. lia. }
  rewrite Hs. unfold strlen.
  rewrite (c_str_id (config_text interval_ms mode))
    by (eapply Forall_impl; [apply (config_text_chars interval_ms mode Hm)|];
        cbn beta; tauto).
  rewrite uint32_t_small by lia. rewrite object_bytes_htonl.
  unfold Server.send. rewrite <- app_assoc. cbn [app].
  rewrite !firstn_all2; [reflexivity | lia | rewrite length_big_endian; unfold CONFIG_LENGTH_BYTES; lia].
Qed.

Lemma find_from_skip c needle pre s :
  Forall (fun b => b <> c) pre ->
  find_from (c :: needle) (pre ++ s) = find_from (c :: needle) s.
Proof.
  induction 1 as [|b pre Hb _ IH]; [reflexivity|].
  cbn [app find_from starts_with].
  destruct (Byte.eqb c b) eqn:E.
  - apply Byte.byte_dec_bl in E. congruence.
  - cbn [andb]. exact IH.
Qed.

(** c2.c reads the interval of the text, and as the mode the word that
    ends with the backslash and the n. *)
Lemma c2_parse_config_text interval_ms mode :
  - 2 ^ 31 <= interval_ms <= INT_MAX -> plain_word mode ->
  parse_interval (config_text interval_ms mode ++ [NUL]) = interval_ms /\
  parse_mode (config_text interval_ms mode ++ [NUL])
  = if Z.of_nat (length mode) + 3 <=? sizeof_mode
    then Some (mode ++ backslash_n) else None.
Proof.
  intros Hi Hm. split.
  - unfold parse_interval, sscanf_d, strstr.
    rewrite (config_text_c_str _ _ Hm).
    change (c_str (lit "INTERVAL:")) with (lit "INTERVAL:").
    unfold config_text. rewrite find_from_here.
    rewrite c_str_id
      by (eapply Forall_impl; [apply (config_text_chars interval_ms mode Hm)|];
          cbn beta; tauto).
    rewrite starts_with_app, drop_literal.
    now rewrite scan_d_format_d.
  - unfold parse_mode, sscanf_s, strstr.
    rewrite (config_text_c_str _ _ Hm).
    change (c_str (lit "MODE:")) with (x4d :: lit "ODE:").
    assert (Hfind : find_from (x4d :: lit "ODE:") (config_text interval_ms mode)
                    = Some (lit "MODE:" ++ mode ++ backslash_n)).
    { replace (config_text interval_ms mode)
        with ((lit "INTERVAL:" ++ format_d interval_ms ++ backslash_n)
              ++ (lit "MODE:" ++ mode ++ backslash_n))
        by (unfold config_text; now rewrite <- !app_assoc).
      rewrite find_from_skip; [apply (find_from_here (lit "MODE:"))|].
      apply Forall_app; split; [repeat constructor; discriminate|].
      apply Forall_app; split; [|repeat constructor; discriminate].
      eapply Forall_impl; [apply format_d_chars|]. cbn beta. tauto. }
    rewrite Hfind.
    assert (Hplain : Forall (fun b => b <> NUL) (lit "MODE:" ++ mode ++ backslash_n)).
    { apply Forall_app; split; [repeat constructor; discriminate|].
      apply Forall_app; split; [|repeat constructor; discriminate].
      eapply Forall_impl; [exact Hm|]. cbn beta. tauto. }
    rewrite (c_str_id _ Hplain).
    change (x4d :: lit "ODE:") with (lit "MODE:").
    rewrite starts_with_app, drop_literal.
    rewrite <- (app_nil_r (mode ++ backslash_n)) at 1.
    rewrite scan_s_word.
    + rewrite length_app. unfold backslash_n. cbn [length].
      now replace (Z.of_nat (length mode + 2) + 1) with (Z.of_nat (length mode) + 3) by lia.
    + unfold backslash_n. destruct mode; discriminate.
    + apply Forall_app. split; [|repeat constructor].
      eapply Forall_impl; [exact Hm|]. cbn beta. tauto.
    + exact I.
Qed.

(** client.c reads the interval of the text. *)
Lemma client_parse_config_text interval_ms mode :
  - 2 ^ 31 <= interval_ms <= INT_MAX -> plain_word mode ->
  client_parse_interval (config_text interval_ms mode ++ [NUL]) = interval_ms.
Proof.
  intros Hi Hm. unfold client_parse_interval.
  rewrite (config_text_c_str _ _ Hm).
  rewrite strtok_lines_one_line.
  2:{ eapply Forall_impl; [apply (config_text_chars interval_ms mode Hm)|].
      cbn beta. tauto. }
  2:{ cbn. discriminate. }
  cbn [app fold_left]. unfold strstr, sscanf_d.
  rewrite (c_str_id (config_text interval_ms mode))
    by (eapply Forall_impl; [apply (config_text_chars interval_ms mode Hm)|];
        cbn beta; tauto).
  change (c_str (lit "INTERVAL:")) with (lit "INTERVAL:").
  unfold config_text. rewrite find_from_here, starts_with_app, drop_literal.
  now rewrite scan_d_format_d.
Qed.
End ConfigSession.

Section ConfigReceived.
Import MachInt ByteOrder CString Sock Config Printf ServerSession ConfigText.

(** Reading a configuration of [text] at c2.c. *)
Lemma c2_recv_config_text malloc_ok sock text rest :
  pending sock = big_endian 4 (Z.of_nat (length text)) ++ text ++ rest ->
  0 < Z.of_nat (length text) < 2 ^ 32 ->
  malloc_ok (Z.of_nat (length text) + 1) = true ->
  exists sock',
    Client2Session.recv_config malloc_ok sock
    = Some (match parse_mode (text ++ [NUL]) with
            | Some mode => Client2Session.Configured (parse_interval (text ++ [NUL])) mode sock'
            | None => Client2Session.ModeOverrun
            end) /\
    pending sock' = rest.
Proof.
  intros Hp Hlen Hmalloc. unfold Client2Session.recv_config.
  destruct (recv_all_exact sock _ _ Client2Session.CONFIG_LENGTH_BYTES Hp) as [E1 P1].
  { now rewrite length_big_endian. }
  { unfold Client2Session.CONFIG_LENGTH_BYTES, SSIZE_MAX. lia. }
  rewrite E1. cbn [mbind option_bind].
  change (Client2Session.CONFIG_LENGTH_BYTES <=? 0) with false. cbv iota.
  rewrite ntohl_big_endian by lia.
  rewrite (uint64_t_small (Z.of_nat (length text))) by lia.
  rewrite uint64_t_small by lia. rewrite Hmalloc. cbn [negb].
  destruct (recv_all_exact _ _ _ (Z.of_nat (length text)) P1) as [E2 P2];
    [reflexivity | unfold SSIZE_MAX; lia |].
  rewrite E2. cbn [mbind option_bind].
  replace (Z.of_nat (length text) <=? 0) with false by (symmetry; apply Z.leb_gt; lia).
  eexists. split; [|exact P2]. now destruct (parse_mode (text ++ [NUL])).
Qed.

(** Reading a configuration of [text] at client.c. *)
Lemma client_recv_config_text malloc_ok sock text rest :
  pending sock = big_endian 4 (Z.of_nat (length text)) ++ text ++ rest ->
  Z.of_nat (length text) <= INT_MAX ->
  malloc_ok (Z.of_nat (length text) + 1) = true ->
  exists sock',
    ClientSession.recv_config malloc_ok sock
    = Some (ClientSession.Configured (client_parse_interval (text ++ [NUL])) sock') /\
    pending sock' = rest.
Proof.
  intros Hp Hlen Hmalloc. unfold INT_MAX in Hlen. unfold ClientSession.recv_config.
  destruct (recvall_exact sock _ _ ClientSession.CONFIG_LENGTH_BYTES Hp) as [E1 P1].
  { now rewrite length_big_endian. }
  { unfold ClientSession.CONFIG_LENGTH_BYTES, INT_MAX. lia. }
  rewrite E1. cbn [mbind option_bind].
  change (ClientSession.CONFIG_LENGTH_BYTES =? -1) with false. cbv iota.
  rewrite ntohl_big_endian by lia.
  rewrite (uint32_t_small (Z.of_nat (length text))) by lia.
  rewrite uint32_t_small by lia. rewrite Hmalloc. cbn [negb].
  destruct (recvall_exact _ _ _ (Z.of_nat (length text)) P1) as [E2 P2];
    [reflexivity | unfold INT_MAX; lia |].
  rewrite E2. cbn [mbind option_bind].
  replace (Z.of_nat (length text) =? -1) with false by (symmetry; apply Z.eqb_neq; lia).
  eexists. split; [reflexivity | exact P2].
Qed.
End ConfigReceived.

(** [X7] The configuration from server.c to c2.c: for an interval an
    [int] holds and a mode of at most 47 characters without white space,
    [main] of c2.c reads from what [send_config] sent the interval that was
    sent, and as the mode the mode that was sent followed by a backslash
    and the letter n: the format string of [send_config] writes [\\n], two
    characters, where a line feed is meant, and [%s] reads them with the
    word. *)
Theorem server_config_read_by_c2
        (malloc_ok : Z -> bool) (sock : Sock.socket) (interval_ms : Z)
        (mode rest : list byte) :
  - 2 ^ 31 <= interval_ms <= MachInt.INT_MAX ->
  ConfigText.plain_word mode -> (length mode <= 47)%nat ->
  (forall size, 0 < size <= 4096 -> malloc_ok size = true) ->
  Sock.pending sock = concat (ServerSession.send_config [] interval_ms mode) ++ rest ->
  exists sock',
    Client2Session.recv_config malloc_ok sock
    = Some (Client2Session.Configured interval_ms
              (mode ++ ServerSession.backslash_n) sock') /\
    Sock.pending sock' = rest.
Proof.
  intros Hi Hm Hlen Hmalloc Hp.
  rewrite send_config_bytes in Hp by (try assumption; lia).
  cbn [app concat] in Hp. rewrite app_nil_r, <- app_assoc in Hp.
  pose proof (length_config_text interval_ms mode Hi) as Hl.
  destruct (c2_recv_config_text malloc_ok sock _ rest Hp) as (sock' & E & P);
    [lia | apply Hmalloc; lia |].
  destruct (c2_parse_config_text interval_ms mode Hi Hm) as [Ei Em].
  replace (Z.of_nat (length mode) + 3 <=? Config.sizeof_mode) with true in Em
    by (symmetry; apply Z.leb_le; unfold Config.sizeof_mode; lia).
  rewrite Ei, Em in E. now exists sock'.
Qed.

(** The configuration [handle_client] sends: 20 and [interval]. *)
Lemma server_config_read_by_c2_witness :
  exists sock',
    Client2Session.recv_config (fun _ => true)
      (Sock.delivering (ServerSession.send_config [] 20 (CString.lit "interval")))
    = Some (Client2Session.Configured 20
              (CString.lit "interval" ++ [x5c; x6e]) sock') /\
    Sock.pending sock' = [].
Proof.
  apply (server_config_read_by_c2 (fun _ => true) _ 20 (CString.lit "interval") []).
  - vm_compute. split; discriminate.
  - repeat constructor; discriminate.
  - cbn. lia.
  - reflexivity.
  - reflexivity.
Defined.

(** [X8] The configuration from server.c to client.c: for an interval an
    [int] holds and a mode without white space, [network_thread_func]
    reads from what [send_config] sent the interval that was sent. *)
Theorem server_config_read_by_client
        (malloc_ok : Z -> bool) (sock : Sock.socket) (interval_ms : Z)
        (mode rest : list byte) :
  - 2 ^ 31 <= interval_ms <= MachInt.INT_MAX ->
  ConfigText.plain_word mode -> (length mode <= 4000)%nat ->
  (forall size, 0 < size <= 4096 -> malloc_ok size = true) ->
  Sock.pending sock = concat (ServerSession.send_config [] interval_ms mode) ++ rest ->
  exists sock',
    ClientSession.recv_config malloc_ok sock
    = Some (ClientSession.Configured interval_ms sock') /\
    Sock.pending sock' = rest.
Proof.
  intros Hi Hm Hlen Hmalloc Hp.
  rewrite send_config_bytes in Hp by assumption.
  cbn [app concat] in Hp. rewrite app_nil_r, <- app_assoc in Hp.
  pose proof (length_config_text interval_ms mode Hi) as Hl.
  destruct (client_recv_config_text malloc_ok sock _ rest Hp) as (sock' & E & P);
    [unfold MachInt.INT_MAX; lia | apply Hmalloc; lia |].
  rewrite (client_parse_config_text interval_ms mode Hi Hm) in E. now exists sock'.
Qed.

(** An interval of -35 milliseconds and the mode [frequency]. *)
Lemma server_config_read_by_client_witness :
  exists sock',
    ClientSession.recv_config (fun _ => true)
      (Sock.delivering (ServerSession.send_config [] (-35) (CString.lit "frequency")))
    = Some (ClientSession.Configured (-35) sock') /\
    Sock.pending sock' = [].
Proof.
  apply (server_config_read_by_client (fun _ => true) _ (-35) (CString.lit "frequency") []).
  - vm_compute. split; discriminate.
  - repeat constructor; discriminate.
  - cbn. lia.
  - reflexivity.
  - reflexivity.
Defined.

(** [X9] A configuration of length 0: c2.c exits, since [recv_all]
    returns 0 for a length of 0 and [main] takes that for a closed
    connection; client.c goes on with the interval 20. Neither reads any
    byte behind the length. *)
Theorem empty_config_at_the_consumers
        (malloc_ok : Z -> bool) (sock : Sock.socket) (rest : list byte) :
  malloc_ok 1 = true ->
  Sock.pending sock = ByteOrder.big_endian 4 0 ++ rest ->
  Client2Session.recv_config malloc_ok sock
  = Some (Client2Session.ConfigExit Client2Session.NoConfigData) /\
  exists sock',
    ClientSession.recv_config malloc_ok sock
    = Some (ClientSession.Configured 20 sock') /\
    Sock.pending sock' = rest.
Proof.
  intros Hmalloc Hp. split.
  - unfold Client2Session.recv_config.
    destruct (recv_all_exact sock _ _ Client2Session.CONFIG_LENGTH_BYTES Hp) as [E1 _].
    { now rewrite length_big_endian. }
    { unfold Client2Session.CONFIG_LENGTH_BYTES, MachInt.SSIZE_MAX. lia. }
    rewrite E1. cbn [mbind option_bind].
    change (Client2Session.CONFIG_LENGTH_BYTES <=? 0) with false. cbv iota.
    rewrite ntohl_big_endian by lia.
    change (MachInt.uint64_t (MachInt.uint64_t 0 + 1)) with 1.
    change (MachInt.uint64_t 0) with 0.
    rewrite Hmalloc. reflexivity.
  - apply (client_recv_config_text malloc_ok sock [] rest Hp).
    + cbn. unfold MachInt.INT_MAX. lia.
    + exact Hmalloc.
Qed.

(** A length of 0 with the frame [END_OF_TRANSMISSION] behind it. *)
Lemma empty_config_at_the_consumers_witness :
  Client2Session.recv_config (fun _ => true)
    (Sock.delivering [ByteOrder.big_endian 4 0;
                      Protocol.control_frame (CString.lit "END_OF_TRANSMISSION")])
  = Some (Client2Session.ConfigExit Client2Session.NoConfigData).
Proof.
  apply (empty_config_at_the_consumers (fun _ => true) _
           (Protocol.control_frame (CString.lit "END_OF_TRANSMISSION"))).
  - reflexivity.
  - reflexivity.
Defined.

(** ** Data files at client.c *)

Section ClientFiles.
Import MachInt ByteOrder CString Sock Config Printf Protocol AdcText.

Lemma file_text_no_nul lines :
  Forall valid_line lines -> Forall (fun b => b <> NUL) (file_text lines).
Proof.
  induction 1 as [|l lines Hl _ IH]; [constructor|].
  unfold file_text. cbn [map concat]. apply Forall_app. split; [|exact IH].
  destruct l as [adc|text]; cbn [line_text valid_line] in *.
  - apply Forall_app. split; [repeat constructor; discriminate|].
    apply Forall_app. split; [|repeat constructor; discriminate].
    eapply Forall_impl; [apply format_d_chars|]. cbn beta. tauto.
  - apply Forall_app. split; [|repeat constructor; discriminate].
    eapply Forall_impl; [apply Hl|]. cbn beta. tauto.
Qed.

(** The loop over the lines (client.c:443-454), from any number of
    samples read before. *)
Lemma adc_lines_fold lines : forall raw_adc_values,
  Forall valid_line lines ->
  fold_left
    (fun raw_adc_values current_adc_line =>
       match strstr current_adc_line (lit "ADC:") with
       | Some _ =>
           match sscanf_d current_adc_line (lit "ADC:") with
           | Some adc_val => raw_adc_values ++ [Double.of_Z adc_val]
           | None => raw_adc_values
           end
       | None => raw_adc_values
       end)
    (strtok_lines (file_text lines) []) raw_adc_values
  = raw_adc_values ++ map Double.of_Z (samples lines).
Proof.
  induction lines as [|l lines IH]; intros raw Hv.
  - cbn. now rewrite app_nil_r.
  - apply Forall_cons in Hv as [Hl Hv].
    unfold file_text. cbn [map concat].
    fold (file_text lines).
    destruct l as [adc|text]; cbn [line_text valid_line samples omap] in *.
    + change (samples (SampleLine adc :: lines)) with (adc :: samples lines).
      cbn [map].
      pose proof (format_d_chars adc) as Hchars.
      replace ((lit "ADC:" ++ format_d adc ++ [x0a]) ++ file_text lines)
        with ((lit "ADC:" ++ format_d adc) ++ x0a :: file_text lines)
        by now rewrite <- !app_assoc.
      rewrite strtok_lines_line.
      2:{ apply Forall_app. split; [repeat constructor; discriminate|].
          eapply Forall_impl; [exact Hchars|]. cbn beta. tauto. }
      rewrite app_nil_l.
      assert (Hne : lit "ADC:" ++ format_d adc <> [])
        by (change (lit "ADC:") with [x41; x44; x43; x3a]; discriminate).
      destruct (lit "ADC:" ++ format_d adc) as [|b0 token] eqn:Etok; [congruence|].
      rewrite <- Etok. clear Etok Hne b0 token.
      cbn [fold_left].
      assert (Hc : c_str (lit "ADC:" ++ format_d adc) = lit "ADC:" ++ format_d adc).
      { apply c_str_id. apply Forall_app. split; [repeat constructor; discriminate|].
        eapply Forall_impl; [exact Hchars|]. cbn beta. tauto. }
      unfold strstr, sscanf_d. rewrite Hc.
      change (c_str (lit "ADC:")) with (lit "ADC:").
      rewrite find_from_here, starts_with_app, drop_literal.
      rewrite <- (app_nil_r (format_d adc)), scan_d_format_d by (try exact Hl; exact I).
      rewrite IH by exact Hv. now rewrite <- app_assoc.
    + change (samples (OtherLine text :: lines)) with (samples lines).
      destruct Hl as [Hstart Hchars].
      replace ((text ++ [x0a]) ++ file_text lines)
        with (text ++ x0a :: file_text lines) by now rewrite <- !app_assoc.
      rewrite strtok_lines_line
        by (eapply Forall_impl; [exact Hchars|]; cbn beta; tauto).
      rewrite app_nil_l. destruct text as [|b text]; [now apply IH|].
      cbn [fold_left].
      assert (Hc : c_str (b :: text) = b :: text).
      { apply c_str_id. eapply Forall_impl; [exact Hchars|]. cbn beta. tauto. }
      unfold sscanf_d. rewrite Hc, Hstart.
      destruct (strstr (b :: text) (lit "ADC:")); now apply IH.
Qed.

(** The samples [network_thread_func] reads from the text of a file. *)
Lemma parse_adc_lines_file_text lines junk :
  Forall valid_line lines ->
  ClientSession.parse_adc_lines (file_text lines ++ NUL :: junk)
  = map Double.of_Z (samples lines).
Proof.
  intros Hv. unfold ClientSession.parse_adc_lines.
  replace (c_str (file_text lines ++ NUL :: junk)) with (file_text lines).
  - now rewrite adc_lines_fold.
  - pose proof (file_text_no_nul lines Hv) as Hn. revert Hn.
    generalize (file_text lines). induction 1 as [|b s Hb _ IH]; cbn; [reflexivity|].
    destruct (Byte.eqb b NUL) eqn:E; [apply Byte.byte_dec_bl in E; contradiction|].
    now rewrite <- IH.
Qed.
End ClientFiles.

Section ClientFrames.
Import MachInt ByteOrder CString Sock Config Printf Protocol AdcText.
Variable malloc_ok : Z -> bool.

(** One turn of the loop of client.c on a frame that is no message of
    the server. *)
Lemma client_receive_one_frame sock name content rest :
  pending sock = Server.frame_layout name content ++ rest ->
  c_name name -> Z.of_nat (length name) < 256 ->
  strcmp_is_0 (name ++ [NUL]) (lit "END_OF_TRANSMISSION") = false ->
  Client.is_server_message (name ++ [NUL]) = false ->
  Z.of_nat (length content) <= INT_MAX ->
  malloc_ok (Z.of_nat (length content) + 1) = true ->
  exists sock',
    Client.receive_one malloc_ok sock
    = Some (Client.Go (name, c_str (content ++ [NUL])) sock') /\
    pending sock' = rest.
Proof.
  intros Hp Hc Hname Heot Hmsg Hcontent Hm. unfold INT_MAX in Hcontent.
  unfold Server.frame_layout in Hp. rewrite <- !app_assoc in Hp.
  destruct (client_recv_file_name_short sock name _ Hp Hname) as (sock1 & E1 & P1).
  unfold Client.receive_one. rewrite E1. cbn [mbind option_bind]. rewrite Heot, Hmsg.
  destruct (recvall_exact sock1 _ _ Client.FILE_CONTENT_LENGTH_BYTES P1) as [E2 P2].
  { now rewrite length_big_endian. }
  { unfold Client.FILE_CONTENT_LENGTH_BYTES, INT_MAX. lia. }
  rewrite E2. cbn [mbind option_bind].
  change (Client.FILE_CONTENT_LENGTH_BYTES =? -1) with false. cbv iota.
  rewrite ntohll_big_endian by lia.
  rewrite (uint64_t_small (Z.of_nat (length content))) by lia.
  rewrite uint64_t_small by lia. rewrite Hm. cbn [negb].
  destruct (recvall_exact _ _ _ (Z.of_nat (length content)) P2) as [E3 P3];
    [reflexivity | unfold INT_MAX; lia |].
  rewrite E3. cbn [mbind option_bind].
  replace (Z.of_nat (length content) =? -1) with false by (symmetry; apply Z.eqb_neq; lia).
  rewrite (c_str_terminated _ Hc).
  eexists. split; [reflexivity | exact P3].
Qed.

(** Every sample takes at least a line of the text. *)
Lemma length_samples lines : (length (samples lines) <= length (file_text lines))%nat.
Proof.
  induction lines as [|l lines IH]; [cbn; lia|].
  unfold file_text. cbn [map concat]. fold (file_text lines). rewrite length_app.
  destruct l as [adc|text].
  - change (samples (SampleLine adc :: lines)) with (adc :: samples lines).
    cbn [length line_text]. rewrite !length_app. cbn [length]. lia.
  - change (samples (OtherLine text :: lines)) with (samples lines). lia.
Qed.

(** The samples of a received file, as the loop reads them. *)
Lemma client_samples_of_content lines :
  Forall valid_line lines ->
  ClientSession.parse_adc_lines (c_str (file_text lines ++ [NUL]))
  = map Double.of_Z (samples lines).
Proof.
  intros Hv. rewrite (c_str_terminated _ (file_text_no_nul lines Hv)).
  rewrite <- (parse_adc_lines_file_text lines [] Hv).
  unfold ClientSession.parse_adc_lines.
  now rewrite (c_str_terminated _ (file_text_no_nul lines Hv)),
              (c_str_id _ (file_text_no_nul lines Hv)).
Qed.
End ClientFrames.

Section QueueEntries.
Import MachInt Queue.

Ltac queue_by_cases q :=
  destruct q as [slots h t c]; cbn [data_queue queue_head queue_tail queue_count] in *;
  do 11 (destruct slots as [|? slots]; try (cbn in *; lia));
  assert (h = 0 \/ h = 1 \/ h = 2 \/ h = 3 \/ h = 4 \/ h = 5 \/ h = 6 \/ h = 7
          \/ h = 8 \/ h = 9) as Hhead by lia;
  assert (c = 0 \/ c = 1 \/ c = 2 \/ c = 3 \/ c = 4 \/ c = 5 \/ c = 6 \/ c = 7
          \/ c = 8 \/ c = 9 \/ c = 10) as Hcount by lia;
  repeat (destruct Hhead as [-> | Hhead]); try subst h;
  repeat (destruct Hcount as [-> | Hcount]); try subst c; try lia; subst t.

(** The entry a file gets, behind the ones that wait. *)
Lemma put_file_entry q values n interval name :
  well_formed q -> queue_count q < 10 -> 0 < n ->
  exists q',
    put_file true q (Some values) n interval name = (q', Put) /\
    well_formed q' /\
    waiting q' = waiting q ++ [Some (QueueUse.entry values n interval name)].
Proof.
  intros (Hlen & Hh & Hc & Ht) Hroom Hn. unfold put_file.
  replace (0 <? n) with true by (symmetry; apply Z.ltb_lt; lia).
  replace (queue_count q <? 10) with true by (symmetry; apply Z.ltb_lt; lia).
  eexists. split; [reflexivity|].
  queue_by_cases q; (split; [repeat split; vm_compute; congruence | reflexivity]).
Qed.
End QueueEntries.

(** [X10] The samples client.c reads from the text of a file: for lines
    that each end with a line feed, a line [ADC:<n>] with [n] an [int]
    gives the sample [n], in the order of the lines, and a line that does
    not start with [ADC:] gives none, also when [ADC:] stands further
    right in it; what follows the first NUL is not read. *)
Theorem client_reads_samples_of_file (lines : list AdcText.line) (junk : list byte) :
  Forall AdcText.valid_line lines ->
  ClientSession.parse_adc_lines (AdcText.file_text lines ++ CString.NUL :: junk)
  = map Double.of_Z (AdcText.samples lines).
Proof. apply parse_adc_lines_file_text. Qed.

(** A header, two samples, a line with [ADC:] further right, an empty
    line, and a sample behind the NUL. *)
Lemma client_reads_samples_of_file_witness :
  ClientSession.parse_adc_lines
    (CString.lit "time,adc" ++ [x0a] ++ CString.lit "ADC:100" ++ [x0a] ++
     CString.lit "ADC:-5" ++ [x0a] ++ CString.lit "x ADC:7" ++ [x0a] ++ [x0a] ++
     [CString.NUL] ++ CString.lit "ADC:9" ++ [x0a])
  = [Double.of_Z 100; Double.of_Z (-5)].
Proof.
  apply (client_reads_samples_of_file
           [AdcText.OtherLine (CString.lit "time,adc"); AdcText.SampleLine 100;
            AdcText.SampleLine (-5); AdcText.OtherLine (CString.lit "x ADC:7");
            AdcText.OtherLine []]
           (CString.lit "ADC:9" ++ [x0a])).
  repeat constructor; try discriminate.
Defined.

(** [X11] client.c puts a received file in the queue: for a frame whose
    name (of fewer than 256 bytes) is no message of the server and whose
    content holds at least one sample, with room in the queue, one turn
    of the loop of [network_thread_func] reads the frame and nothing
    behind it and puts one entry behind the ones that wait: the samples
    in the order of the lines, their number, the interval of the
    configuration and the name. *)
Theorem client_queues_received_file
        (malloc_ok : Z -> bool) (interval_ms : Z) (q : Queue.queue)
        (sock : Sock.socket) (name : list byte) (lines : list AdcText.line)
        (rest : list byte) :
  Sock.pending sock = Server.frame_layout name (AdcText.file_text lines) ++ rest ->
  Protocol.c_name name -> Z.of_nat (length name) < 256 ->
  CString.strcmp_is_0 (name ++ [CString.NUL]) (CString.lit "END_OF_TRANSMISSION") = false ->
  Client.is_server_message (name ++ [CString.NUL]) = false ->
  Forall AdcText.valid_line lines -> AdcText.samples lines <> [] ->
  Z.of_nat (length (AdcText.file_text lines)) <= MachInt.INT_MAX ->
  malloc_ok (Z.of_nat (length (AdcText.file_text lines)) + 1) = true ->
  Queue.well_formed q -> Queue.queue_count q < 10 ->
  exists q' sock',
    ClientSession.network_turn malloc_ok true interval_ms q sock
    = Some (ClientSession.Handled Queue.Put, q', sock') /\
    Queue.waiting q'
    = Queue.waiting q
      ++ [Some (QueueUse.entry (map Double.of_Z (AdcText.samples lines))
                               (Z.of_nat (length (AdcText.samples lines)))
                               interval_ms name)] /\
    Queue.well_formed q' /\
    Sock.pending sock' = rest.
Proof.
  intros Hp Hc Hname Heot Hmsg Hv Hsome Hlen Hm Hq Hroom.
  destruct (client_receive_one_frame malloc_ok sock name _ rest Hp Hc Hname Heot Hmsg Hlen Hm)
    as (sock' & E & P).
  unfold ClientSession.network_turn. rewrite E. cbn [mbind option_bind].
  rewrite (client_samples_of_content lines Hv), length_map.
  pose proof (length_samples lines) as Hs. unfold MachInt.INT_MAX in Hlen.
  rewrite int_small by (unfold MachInt.INT_MAX; lia).
  destruct (put_file_entry q (map Double.of_Z (AdcText.samples lines))
              (Z.of_nat (length (AdcText.samples lines))) interval_ms name Hq Hroom)
    as (q' & Eq & Hq' & Hw).
  { destruct (AdcText.samples lines); [congruence | cbn; lia]. }
  destruct (map Double.of_Z (AdcText.samples lines)) eqn:Em.
  { destruct (AdcText.samples lines); [congruence | discriminate]. }
  rewrite Eq. now exists q', sock'.
Qed.

(** The file [f1.txt] with a header and two samples, into the empty
    queue; the frame [END_OF_TRANSMISSION] stays unread. *)
Lemma client_queues_received_file_witness :
  exists q' sock',
    ClientSession.network_turn (fun _ => true) true 20 Queue.initial
      (Sock.delivering
         [Server.frame_layout (CString.lit "f1.txt")
            (CString.lit "time,adc" ++ [x0a] ++ CString.lit "ADC:100" ++ [x0a] ++
             CString.lit "ADC:-5" ++ [x0a]);
          Protocol.control_frame (CString.lit "END_OF_TRANSMISSION")])
    = Some (ClientSession.Handled Queue.Put, q', sock') /\
    Queue.waiting q'
    = [Some {| Queue.raw_adc_values := [Double.of_Z 100; Double.of_Z (-5)];
               Queue.num_samples := 2; Queue.interval_ms := 20;
               Queue.file_name := CString.lit "f1.txt" |}] /\
    Sock.pending sock' = Protocol.control_frame (CString.lit "END_OF_TRANSMISSION").
Proof.
  destruct (client_queues_received_file (fun _ => true) 20 Queue.initial
              (Sock.delivering
                 [Server.frame_layout (CString.lit "f1.txt")
                    (CString.lit "time,adc" ++ [x0a] ++ CString.lit "ADC:100" ++ [x0a] ++
                     CString.lit "ADC:-5" ++ [x0a]);
                  Protocol.control_frame (CString.lit "END_OF_TRANSMISSION")])
              (CString.lit "f1.txt")
              [AdcText.OtherLine (CString.lit "time,adc"); AdcText.SampleLine 100;
               AdcText.SampleLine (-5)]
              (Protocol.control_frame (CString.lit "END_OF_TRANSMISSION")))
    as (q' & sock' & E & Hw & _ & P).
  - reflexivity.
  - repeat constructor; discriminate.
  - vm_compute. reflexivity.
  - reflexivity.
  - reflexivity.
  - repeat constructor; discriminate.
  - discriminate.
  - vm_compute. discriminate.
  - reflexivity.
  - repeat split; vm_compute; congruence.
  - vm_compute. reflexivity.
  - exists q', sock'. split; [exact E|]. split; [exact Hw | exact P].
Defined.

(** [X12] client.c drops a file without samples: for a frame whose name
    is no message of the server and whose content holds no line
    [ADC:<n>] (an empty content too), one turn of the loop reads the
    frame, puts nothing in the queue and goes on with the next frame. *)
Theorem client_skips_file_without_samples
        (malloc_ok : Z -> bool) (item_alloc_ok : bool) (interval_ms : Z) (q : Queue.queue)
        (sock : Sock.socket) (name : list byte) (lines : list AdcText.line)
        (rest : list byte) :
  Sock.pending sock = Server.frame_layout name (AdcText.file_text lines) ++ rest ->
  Protocol.c_name name -> Z.of_nat (length name) < 256 ->
  CString.strcmp_is_0 (name ++ [CString.NUL]) (CString.lit "END_OF_TRANSMISSION") = false ->
  Client.is_server_message (name ++ [CString.NUL]) = false ->
  Forall AdcText.valid_line lines -> AdcText.samples lines = [] ->
  Z.of_nat (length (AdcText.file_text lines)) <= MachInt.INT_MAX ->
  malloc_ok (Z.of_nat (length (AdcText.file_text lines)) + 1) = true ->
  exists sock',
    ClientSession.network_turn malloc_ok item_alloc_ok interval_ms q sock
    = Some (ClientSession.Handled Queue.NotAdded, q, sock') /\
    Sock.pending sock' = rest.
Proof.
  intros Hp Hc Hname Heot Hmsg Hv Hnone Hlen Hm.
  destruct (client_receive_one_frame malloc_ok sock name _ rest Hp Hc Hname Heot Hmsg Hlen Hm)
    as (sock' & E & P).
  unfold ClientSession.network_turn. rewrite E. cbn [mbind option_bind].
  rewrite (client_samples_of_content lines Hv), Hnone.
  exists sock'. split; [reflexivity | exact P].
Qed.

(** An empty file [f1.txt] with the frame of [f2.txt] behind it. *)
Lemma client_skips_file_without_samples_witness :
  exists sock',
    ClientSession.network_turn (fun _ => true) true 20 Queue.initial
      (Sock.delivering
         [Server.frame_layout (CString.lit "f1.txt") [];
          Server.frame_layout (CString.lit "f2.txt") (CString.lit "ADC:1")])
    = Some (ClientSession.Handled Queue.NotAdded, Queue.initial, sock') /\
    Sock.pending sock' = Server.frame_layout (CString.lit "f2.txt") (CString.lit "ADC:1").
Proof.
  apply (client_skips_file_without_samples (fun _ => true) true 20 Queue.initial _
           (CString.lit "f1.txt") []
           (Server.frame_layout (CString.lit "f2.txt") (CString.lit "ADC:1"))).
  - reflexivity.
  - repeat constructor; discriminate.
  - vm_compute. reflexivity.
  - reflexivity.
  - reflexivity.
  - constructor.
  - reflexivity.
  - vm_compute. discriminate.
  - reflexivity.
Defined.

(** ** The queue as a first-in first-out list *)

Section QueueRefinement.
Import MachInt Queue QueueUse.

Lemma represents_count q l : represents q l -> queue_count q = Z.of_nat (length l).
Proof.
  intros [(_ & _ & Hc & _) Hw].
  pose proof (length_waiting q) as H. rewrite Hw, length_map in H. lia.
Qed.

Lemma initial_represents : represents initial [].
Proof. split; [repeat split; vm_compute; congruence | reflexivity]. Qed.

Lemma apply_refines q l op :
  represents q l ->
  (apply q op).2 = (fifo_apply l op).2 /\
  represents (apply q op).1 (fifo_apply l op).1.
Proof.
  intros Hr. pose proof (represents_count q l Hr) as Hcount.
  destruct Hr as [Hq Hw].
  destruct op as [ok [values|] n interval name|]; cbn [apply fifo_apply].
  - unfold put_file. destruct (0 <? n) eqn:En; [|now split].
    apply Z.ltb_lt in En.
    destruct (Nat.ltb_spec (length l) 10) as [Hroom|Hfull].
    + replace (queue_count q <? 10) with true by (symmetry; apply Z.ltb_lt; lia).
      destruct ok; [|now split].
      destruct (put_file_entry q values n interval name Hq) as (q' & E & Hq' & Hw');
        [lia | exact En |].
      unfold put_file in E.
      replace (0 <? n) with true in E by (symmetry; apply Z.ltb_lt; lia).
      replace (queue_count q <? 10) with true in E by (symmetry; apply Z.ltb_lt; lia).
      injection E as E. rewrite E. cbn [fst snd]. split; [reflexivity|].
      split; [exact Hq'|]. now rewrite Hw', Hw, map_app.
    + replace (queue_count q <? 10) with false by (symmetry; apply Z.ltb_ge; lia).
      now split.
  - now split.
  - destruct (Z.ltb_spec 0 (queue_count q)) as [Hsome|Hnone].
    + destruct (take_file_first q Hq Hsome) as (item & q' & E & Hq' & Hfirst).
      rewrite E. destruct l as [|first l]; [cbn in Hcount; lia|].
      rewrite Hw in Hfirst. cbn [map] in Hfirst. injection Hfirst as <- Hrest.
      cbn [fst snd]. now split.
    + unfold take_file.
      replace (0 <? queue_count q) with false by (symmetry; apply Z.ltb_ge; lia).
      destruct l as [|first l]; [|cbn in Hcount; lia]. now split.
Qed.

Lemma run_refines ops : forall q l,
  represents q l -> (run q ops).1 = (fifo_run l ops).1.
Proof.
  induction ops as [|op ops IH]; intros q l Hr; [reflexivity|].
  cbn [run fifo_run].
  destruct (apply_refines q l op Hr) as [He Hr'].
  destruct (apply q op) as [q' e]. destruct (fifo_apply l op) as [l' e'].
  cbn [fst snd] in *. subst e'.
  specialize (IH q' l' Hr').
  destruct (run q' ops) as [events q'']. destruct (fifo_run l' ops) as [events' l''].
  cbn [fst] in *. now subst.
Qed.
End QueueRefinement.

(** [X13] The queue between the two threads of client.c is a first-in
    first-out list of at most ten files: from the empty queue, under any
    sequence of offers of the network thread and requests of the GUI
    thread, each offer ends as it would on such a list (put; dropped,
    when ten files wait; not added, when the file has no samples) and each
    request gets the entry that has waited longest, or none when none
    waits. *)
Theorem queue_is_a_fifo_of_ten (ops : list QueueUse.operation) :
  (QueueUse.run Queue.initial ops).1 = (QueueUse.fifo_run [] ops).1.
Proof. apply run_refines, initial_represents. Qed.

(** ** Snapshots of the circular buffer *)

Section CircBufSnapshots.
Import MachInt CircBuf.
Context {T : Type}.
Implicit Types (cb : CircularBuffer T) (v : T) (pushed : list T).

(** The snapshot of a buffer that is not empty: the newest values it has
    room for, oldest first. *)
Lemma snapshot_of_holds cb pushed :
  holds cb pushed -> pushed <> [] ->
  get_circular_buffer_snapshot true cb
  = (Some (last_n (Z.to_nat (max_size cb)) pushed),
     Z.min (Z.of_nat (length pushed)) (max_size cb), cb).
Proof.
  intros H Hne.
  destruct (Z.lt_ge_cases (Z.of_nat (length pushed)) (max_size cb)) as [Hlt|Hge].
  - destruct H as (Hm & d & Hd & Hlen & Hfill & _).
    destruct (Hfill Hlt) as (Hh & Ht & Hc & Hv).
    assert (0 < Z.of_nat (length pushed)) by (destruct pushed; [congruence | cbn; lia]).
    unfold get_circular_buffer_snapshot. rewrite Hd, Hc, Hh, Ht.
    replace (Z.of_nat (length pushed) =? 0) with false by (symmetry; apply Z.eqb_neq; lia).
    replace (0 <? Z.of_nat (length pushed)) with true by (symmetry; apply Z.ltb_lt; lia).
    cbn [negb]. change (default [] (Some d)) with d.
    change (Z.to_nat 0) with 0%nat. rewrite drop_0, Nat2Z.id, Hv.
    rewrite last_n_short by lia. now rewrite Z.min_l by lia.
  - rewrite (snapshot_of_full cb pushed H Hge). now rewrite Z.min_r by lia.
Qed.

Lemma snapshot_of_empty ok cb :
  holds cb [] -> get_circular_buffer_snapshot ok cb = (None, 0, cb).
Proof.
  intros (Hm & d & Hd & Hlen & Hfill & _).
  destruct Hfill as (_ & _ & Hc & _); [cbn; lia|].
  unfold get_circular_buffer_snapshot. now rewrite Hc.
Qed.

(** Emptying a buffer for the next file. *)
Lemma clear_holds cb pushed : holds cb pushed -> holds (clear cb) [].
Proof.
  intros (Hm & d & Hd & Hlen & _). split; [exact Hm|]. exists d. cbn.
  repeat split; try lia; try assumption.
Qed.
End CircBufSnapshots.

(** [X14] A circular buffer that was not given more values than it has
    room for: its snapshot is all the values, in the order they were
    appended, with their number as the length, and the buffer is left as
    it was; for a buffer without values the snapshot is the null pointer
    and the length 0. *)
Theorem circular_buffer_snapshot_before_overwrite
        {T : Type} (block : list T) (C : Z) (values : list T)
        (cb0 : CircBuf.CircularBuffer T) :
  0 < C <= MachInt.INT_MAX ->
  Z.of_nat (length block) = C ->
  CircBuf.init_circular_buffer (Some block) C = Some cb0 ->
  Z.of_nat (length values) <= C ->
  let cb := fold_left CircBuf.append_circular_buffer values cb0 in
  CircBuf.get_circular_buffer_snapshot true cb
  = (match values with [] => None | _ => Some values end,
     Z.of_nat (length values), cb).
Proof.
  intros HC Hblock Hinit Hfew cb.
  assert (H : CircBuf.holds cb values).
  { apply (appends_hold [] cb0 values). now apply (init_holds block C). }
  assert (Hmax : CircBuf.max_size cb = C).
  { unfold cb. rewrite appends_keep_max_size. now injection Hinit as <-. }
  clearbody cb. destruct values as [|v more]; [now apply snapshot_of_empty|].
  rewrite (snapshot_of_holds cb (v :: more) H) by discriminate.
  rewrite Hmax, last_n_short by lia. now rewrite Z.min_l by lia.
Qed.

(** Capacity three, three values. *)
Lemma circular_buffer_snapshot_before_overwrite_witness :
  exists cb,
    CircBuf.get_circular_buffer_snapshot true
      (fold_left CircBuf.append_circular_buffer [10; 20; 30]
                 {| CircBuf.data := Some [0; 0; 0]; CircBuf.head := 0;
                    CircBuf.tail := 0; CircBuf.count := 0; CircBuf.max_size := 3 |})
    = (Some [10; 20; 30], 3, cb).
Proof.
  eexists.
  apply (circular_buffer_snapshot_before_overwrite [0; 0; 0] 3 [10; 20; 30]
           {| CircBuf.data := Some [0; 0; 0]; CircBuf.head := 0;
              CircBuf.tail := 0; CircBuf.count := 0; CircBuf.max_size := 3 |}).
  - unfold MachInt.INT_MAX. lia.
  - reflexivity.
  - reflexivity.
  - cbn. lia.
Defined.

(** [X15] Emptying a buffer for the next file (head, tail and count set
    to 0) hides all that was appended before: after any values, the
    reset, and then further values, the snapshot is what it would be had
    only the further values been appended, the newest [C] of them, oldest
    first; the null pointer when there are none. *)
Theorem circular_buffer_reset_hides_old_values
        {T : Type} (block : list T) (C : Z) (before values : list T)
        (cb0 : CircBuf.CircularBuffer T) :
  0 < C <= MachInt.INT_MAX ->
  Z.of_nat (length block) = C ->
  CircBuf.init_circular_buffer (Some block) C = Some cb0 ->
  let cb := fold_left CircBuf.append_circular_buffer values
              (CircBuf.clear (fold_left CircBuf.append_circular_buffer before cb0)) in
  CircBuf.get_circular_buffer_snapshot true cb
  = (match values with
     | [] => None
     | _ => Some (CircBuf.last_n (Z.to_nat C) values)
     end,
     Z.min (Z.of_nat (length values)) C, cb).
Proof.
  intros HC Hblock Hinit cb.
  assert (Hb : CircBuf.holds (fold_left CircBuf.append_circular_buffer before cb0) before).
  { apply (appends_hold [] cb0 before). now apply (init_holds block C). }
  assert (H : CircBuf.holds cb values).
  { apply (appends_hold [] _ values). now apply (clear_holds _ before). }
  assert (Hmax : CircBuf.max_size cb = C).
  { unfold cb. rewrite appends_keep_max_size. cbn [CircBuf.clear CircBuf.max_size].
    rewrite appends_keep_max_size. now injection Hinit as <-. }
  clearbody cb. destruct values as [|v more].
  - rewrite (snapshot_of_empty true cb H). cbn [length]. now rewrite Z.min_l by lia.
  - rewrite (snapshot_of_holds cb (v :: more) H) by discriminate. now rewrite Hmax.
Qed.

(** Capacity three: five values, the reset, two values. *)
Lemma circular_buffer_reset_hides_old_values_witness :
  exists cb,
    CircBuf.get_circular_buffer_snapshot true
      (fold_left CircBuf.append_circular_buffer [60; 70]
         (CircBuf.clear
            (fold_left CircBuf.append_circular_buffer [10; 20; 30; 40; 50]
               {| CircBuf.data := Some [0; 0; 0]; CircBuf.head := 0;
                  CircBuf.tail := 0; CircBuf.count := 0; CircBuf.max_size := 3 |})))
    = (Some [60; 70], 2, cb).
Proof.
  eexists.
  apply (circular_buffer_reset_hides_old_values [0; 0; 0] 3 [10; 20; 30; 40; 50] [60; 70]
           {| CircBuf.data := Some [0; 0; 0]; CircBuf.head := 0;
              CircBuf.tail := 0; CircBuf.count := 0; CircBuf.max_size := 3 |}).
  - unfold MachInt.INT_MAX. lia.
  - reflexivity.
  - reflexivity.
Defined.

(** ** What server.c sends *)

Section ServerWire.
Import MachInt ByteOrder CString Server Protocol.

Lemma strrchr_none s c : Forall (fun b => b <> c) s -> strrchr s c = None.
Proof.
  induction 1 as [|b s Hb _ IH]; [reflexivity|]. cbn [strrchr]. rewrite IH.
  destruct (Byte.eqb b c) eqn:E; [apply Byte.byte_dec_bl in E; congruence | reflexivity].
Qed.

Lemma strrchr_last pre c post :
  Forall (fun b => b <> c) post -> strrchr (pre ++ c :: post) c = Some (c :: post).
Proof.
  intros Hpost. induction pre as [|b pre IH]; cbn [app strrchr].
  - now rewrite (strrchr_none post c Hpost), (Byte.byte_dec_lb (eq_refl c)).
  - now rewrite IH.
Qed.

Lemma filename_of_path_slash dir base :
  c_name dir -> c_name base -> Forall (fun b => b <> x2f) base ->
  filename_of_path (dir ++ x2f :: base) = base.
Proof.
  intros Hd Hb Hs. unfold filename_of_path.
  rewrite c_str_id by (apply Forall_app; split; [exact Hd | constructor; [discriminate | exact Hb]]).
  now rewrite (strrchr_last dir x2f base Hs).
Qed.

(** [send_file_by_path] adds one frame to what was sent before. *)
Lemma send_file_by_path_appends w filepath content :
  Z.of_nat (length (filename_of_path filepath)) < 2 ^ 32 ->
  Z.of_nat (length content) <= LONG_MAX ->
  exists sends,
    send_file_by_path w filepath (Some content) = Some (w ++ sends) /\
    concat sends = frame_layout (filename_of_path filepath) content.
Proof.
  intros Hn Hc. unfold send_file_by_path, send_open_file, ftell_at_end.
  replace (Z.of_nat (length content) <=? LONG_MAX) with true
    by (symmetry; now apply Z.leb_le).
  unfold LONG_MAX in Hc.
  set (name := filename_of_path filepath) in *.
  assert (Hstr : strlen name = Z.of_nat (length name)).
  { unfold strlen. now rewrite c_str_id by apply filename_of_path_no_nul. }
  rewrite Hstr. unfold size_t. fold uint64_t.
  rewrite (uint64_t_small (Z.of_nat (length content))) by lia.
  rewrite uint32_t_small, uint64_t_small by lia.
  match goal with |- context [send_content _ _ ?w0] =>
    destruct (send_content_all (length content) content w0) as (sends & E & Hs);
      [lia|] end.
  rewrite E. unfold send. rewrite <- !app_assoc. eexists. split; [reflexivity|].
  unfold frame_layout. cbn [app concat]. rewrite Hs.
  rewrite object_bytes_htonl, object_bytes_htobe64.
  rewrite !firstn_all2; [reflexivity | ..];
    rewrite ?length_big_endian; unfold FILE_CONTENT_LENGTH_BYTES, FILENAME_LENGTH_BYTES; lia.
Qed.

(** [send_control_message] adds one control frame. *)
Lemma send_control_message_appends w message :
  c_name message -> Z.of_nat (length message) < 2 ^ 32 ->
  exists sends,
    send_control_message w message = w ++ sends /\
    concat sends = control_frame message.
Proof.
  intros Hc Hlen. unfold send_control_message, strlen.
  rewrite (c_str_id _ Hc), uint32_t_small by lia.
  unfold send. rewrite <- !app_assoc. eexists. split; [reflexivity|].
  unfold control_frame, frame_layout. cbn [app concat length].
  rewrite object_bytes_htonl.
  replace (htobe64_custom 0) with (htobe64_custom (Z.of_nat 0)) by reflexivity.
  rewrite object_bytes_htobe64.
  rewrite !firstn_all2; [now rewrite !app_nil_r | ..];
    rewrite ?length_big_endian; unfold FILE_CONTENT_LENGTH_BYTES, FILENAME_LENGTH_BYTES; lia.
Qed.
End ServerWire.

(** [X16] The name server.c puts in a frame is the last component of
    the path: what follows the last [/]; if the path has no [/], what
    follows the last backslash; if it has neither, the path itself. A
    backslash behind the last [/] stays in the name. *)
Theorem filename_of_path_is_last_component (dir base : list byte) :
  Protocol.c_name dir -> Protocol.c_name base ->
  (Forall (fun b => b <> x2f) base ->
   Server.filename_of_path (dir ++ x2f :: base) = base) /\
  (Forall (fun b => b <> x2f) (dir ++ base) -> Forall (fun b => b <> x5c) base ->
   Server.filename_of_path (dir ++ x5c :: base) = base) /\
  (Forall (fun b => b <> x2f) base -> Forall (fun b => b <> x5c) base ->
   Server.filename_of_path base = base).
Proof.
  intros Hd Hb. split; [|split].
  - now apply filename_of_path_slash.
  - intros Hs Hbs. unfold Server.filename_of_path.
    rewrite c_str_id
      by (apply Forall_app; split; [exact Hd | constructor; [discriminate | exact Hb]]).
    rewrite strrchr_none.
    + now rewrite (strrchr_last dir x5c base Hbs).
    + apply Forall_app in Hs as [Hs1 Hs2].
      apply Forall_app. split; [exact Hs1 | constructor; [discriminate | exact Hs2]].
  - intros Hs Hbs. unfold Server.filename_of_path.
    now rewrite (c_str_id _ Hb), (strrchr_none base x2f Hs), (strrchr_none base x5c Hbs).
Qed.

(** The path [adc_data/run\\1.txt], with a backslash behind the slash. *)
Lemma filename_of_path_is_last_component_witness :
  Server.filename_of_path (CString.lit "adc_data" ++ x2f :: CString.lit "run" ++ x5c :: CString.lit "1.txt")
  = CString.lit "run" ++ x5c :: CString.lit "1.txt".
Proof.
  destruct (filename_of_path_is_last_component (CString.lit "adc_data")
              (CString.lit "run" ++ x5c :: CString.lit "1.txt")) as (H & _).
  - repeat constructor; discriminate.
  - repeat constructor; discriminate.
  - apply H. repeat constructor; discriminate.
Defined.

(** ** A whole session: [handle_client] of server.c and [main] of c2.c *)

Section SessionFacts.
Import MachInt ByteOrder CString Sock Server Protocol Printf ServerSession ConfigText Session.
Variable fopen_rb : list byte -> option (list byte).

Lemma filepath_of_entry dir :
  c_name (d_name dir) -> (length (d_name dir) <= 246)%nat ->
  filepath_of dir = DATA_FOLDER ++ x2f :: d_name dir.
Proof.
  intros Hc Hlen. unfold filepath_of, snprintf. rewrite (c_str_id _ Hc).
  apply take_ge. rewrite length_app. cbn [length app]. simpl. lia.
Qed.

Lemma sent_files_cons dir entries :
  sent_files fopen_rb (dir :: entries)
  = if is_sent dir
    then match fopen_rb (filepath_of dir) with
         | Some content => (d_name dir, content) :: sent_files fopen_rb entries
         | None => sent_files fopen_rb entries
         end
    else sent_files fopen_rb entries.
Proof.
  unfold sent_files. cbn. destruct (is_sent dir); [|reflexivity].
  now destruct (fopen_rb (filepath_of dir)).
Qed.

(** The loop over the directory adds one frame for each file it sends. *)
Lemma send_entries_frames entries : forall w file_count,
  Forall (sendable fopen_rb) entries ->
  0 <= file_count -> file_count + Z.of_nat (length entries) <= INT_MAX ->
  exists sends,
    send_entries fopen_rb entries w file_count
    = Some (w ++ sends, file_count + Z.of_nat (length (sent_files fopen_rb entries))) /\
    concat sends = concat (map frame_of (sent_files fopen_rb entries)).
Proof.
  induction entries as [|dir entries IH]; intros w file_count Hc Hcount Hmax.
  - exists []. cbn. now rewrite app_nil_r, Z.add_0_r.
  - apply Forall_cons in Hc as [Hdir Hc]. cbn [length] in Hmax.
    cbn [send_entries]. rewrite sent_files_cons.
    destruct (is_sent dir) eqn:Es.
    + destruct (Hdir Es) as (Hname & Hslash & Hlen & content & Hopen & Hsize).
      rewrite Hopen.
      assert (Hbase : filename_of_path (filepath_of dir) = d_name dir).
      { rewrite (filepath_of_entry dir Hname Hlen).
        apply filename_of_path_slash; [repeat constructor; discriminate | assumption..]. }
      destruct (send_file_by_path_appends w (filepath_of dir) content) as (s1 & E1 & C1).
      { rewrite Hbase. lia. }
      { exact Hsize. }
      rewrite E1. cbn [mbind option_bind]. unfold INT_MAX in Hmax.
      rewrite int_small by (unfold INT_MAX; lia).
      destruct (IH (w ++ s1) (file_count + 1) Hc) as (s2 & E2 & C2); [lia | unfold INT_MAX; lia |].
      rewrite E2. exists (s1 ++ s2). split.
      * rewrite <- app_assoc. f_equal. f_equal. cbn [length]. lia.
      * rewrite concat_app, C1, C2, Hbase. reflexivity.
    + destruct (IH w file_count Hc) as (s2 & E2 & C2); [lia | lia |].
      rewrite E2. now exists s2.
Qed.

(** What [handle_client] sends: the configuration, a frame for each
    file, and the control message. *)
Lemma handle_client_wire opendir_result :
  let entries := default [] opendir_result in
  let files := sent_files fopen_rb entries in
  Forall (sendable fopen_rb) entries ->
  Z.of_nat (length entries) <= INT_MAX ->
  exists w,
    handle_client opendir_result fopen_rb = Some w /\
    concat w
    = big_endian 4 (Z.of_nat (length (config_text 20 (lit "interval"))))
      ++ config_text 20 (lit "interval")
      ++ concat (map frame_of files)
      ++ control_frame (last_message files).
Proof.
  intros entries files Hc Hmax. unfold handle_client.
  rewrite send_config_bytes;
    [| vm_compute; split; discriminate | repeat constructor; discriminate | cbn; lia].
  cbn [app].
  destruct opendir_result as [listed|].
  - change (default [] (Some listed)) with listed in *.
    destruct (send_entries_frames entries
                [big_endian 4 (Z.of_nat (length (config_text 20 (lit "interval"))));
                 config_text 20 (lit "interval")] 0 Hc) as (sends & E & C); [lia | lia |].
    fold entries. rewrite E. cbn [mbind option_bind]. rewrite Z.add_0_l.
    fold files in C |- *. clearbody files.
    destruct files as [|file files'].
    + cbn [length]. change (Z.of_nat 0 =? 0) with true. cbv iota.
      destruct (send_control_message_appends
                  ([big_endian 4 (Z.of_nat (length (config_text 20 (lit "interval"))));
                    config_text 20 (lit "interval")] ++ sends)
                  (lit "NO_FILES_IN_FOLDER")) as (s3 & E3 & C3);
        [repeat constructor; discriminate | cbn; lia |].
      rewrite E3. eexists. split; [reflexivity|].
      rewrite !concat_app, C, C3. cbn [concat app map last_message].
      now rewrite !app_nil_r, <- !app_assoc.
    + replace (Z.of_nat (length (file :: files')) =? 0) with false
        by (symmetry; apply Z.eqb_neq; cbn [length]; lia).
      destruct (send_control_message_appends
                  ([big_endian 4 (Z.of_nat (length (config_text 20 (lit "interval"))));
                    config_text 20 (lit "interval")] ++ sends)
                  (lit "END_OF_TRANSMISSION")) as (s3 & E3 & C3);
        [repeat constructor; discriminate | cbn; lia |].
      rewrite E3. eexists. split; [reflexivity|].
      rewrite !concat_app, C, C3. cbn [concat app last_message].
      now rewrite !app_nil_r, <- !app_assoc.
  - destruct (send_control_message_appends
                [big_endian 4 (Z.of_nat (length (config_text 20 (lit "interval"))));
                 config_text 20 (lit "interval")]
                (lit "NO_FILES_IN_FOLDER")) as (s3 & E3 & C3);
      [repeat constructor; discriminate | cbn; lia |].
    rewrite E3. eexists. split; [reflexivity|].
    rewrite !concat_app, C3. unfold files, entries. cbn [concat app map last_message].
    now rewrite !app_nil_r, <- !app_assoc.
Qed.


Lemma carried_to_client_sendable entries :
  Forall (carried_to_client fopen_rb) entries -> Forall (sendable fopen_rb) entries.
Proof.
  intros Hall. eapply Forall_impl; [exact Hall|]. intros dir H Hs.
  destruct (H Hs) as (Hname & Hslash & Hlen & _ & _ & content & Hopen & Hsize).
  repeat split; try assumption. exists content. split; [exact Hopen|].
  unfold INT_MAX in Hsize. unfold Server.LONG_MAX. lia.
Qed.

End SessionFacts.

Section SessionReceived.
Import MachInt ByteOrder CString Sock Server Protocol Printf ServerSession ConfigText Session.

Lemma length_sent_files fopen_rb entries :
  (length (sent_files fopen_rb entries) <= length entries)%nat.
Proof.
  induction entries as [|dir entries IH]; [cbn; lia|].
  rewrite sent_files_cons. cbn [length].
  destruct (is_sent dir); [destruct (fopen_rb (filepath_of dir)); cbn [length]|]; lia.
Qed.

End SessionReceived.



(** [X18] A file server.c cannot open: [send_file_by_path] sends a frame
    with the name [FILE_NOT_FOUND] and a content length of 0, a name
    neither consumer takes for a message of the server. c2.c takes the
    frame for an empty file and ends its loop as at a disconnect, so the
    frames that follow are not read; client.c finds no samples, puts
    nothing in the queue and goes on with the next frame. *)
Theorem unopened_file_at_the_consumers
        (malloc_ok : Z -> bool) (item_alloc_ok : bool) (interval_ms : Z)
        (q : Queue.queue) (filepath : list byte) (w : Server.wire)
        (sock : Sock.socket) (rest : list byte) (fuel : nat) :
  (forall size, 0 < size <= 15 -> malloc_ok size = true) ->
  Server.send_file_by_path [] filepath None = Some w ->
  Sock.pending sock = concat w ++ rest ->
  (exists sock',
     Client2.receive_files malloc_ok (S fuel) sock
     = Some ([], Client2.NoContent (CString.lit "FILE_NOT_FOUND"), sock') /\
     Sock.pending sock' = rest) /\
  (exists sock',
     ClientSession.network_turn malloc_ok item_alloc_ok interval_ms q sock
     = Some (ClientSession.Handled Queue.NotAdded, q, sock') /\
     Sock.pending sock' = rest).
Proof.
  intros Hm Hw Hp. cbn [Server.send_file_by_path] in Hw. injection Hw as <-.
  assert (Hframe : Sock.pending sock
                   = Server.frame_layout (CString.lit "FILE_NOT_FOUND") [] ++ rest).
  { rewrite Hp. reflexivity. }
  assert (Hc : Protocol.c_name (CString.lit "FILE_NOT_FOUND"))
    by (repeat constructor; discriminate).
  split.
  - destruct (c2_receive_one_frame malloc_ok sock (CString.lit "FILE_NOT_FOUND") [] rest
                Hframe Hc) as (sock' & E & P);
      [cbn; lia | reflexivity | vm_compute; discriminate | apply Hm; cbn; lia
       | apply Hm; cbn; lia |].
    exists sock'. split; [|exact P]. cbn [Client2.receive_files]. now rewrite E.
  - destruct (client_receive_one_frame malloc_ok sock (CString.lit "FILE_NOT_FOUND") [] rest
                Hframe Hc) as (sock' & E & P);
      [cbn; lia | reflexivity | reflexivity | vm_compute; discriminate
       | apply Hm; cbn; lia |].
    exists sock'. split; [|exact P].
    unfold ClientSession.network_turn. now rewrite E.
Qed.

(** The frame for a missing [adc_data/f1.txt], with the frame of
    [f2.txt] behind it. *)
Lemma unopened_file_at_the_consumers_witness :
  (exists sock',
     Client2.receive_files (fun _ => true) 3
       (Sock.delivering
          [Protocol.control_frame (CString.lit "FILE_NOT_FOUND");
           Server.frame_layout (CString.lit "f2.txt") (CString.lit "ADC:1")])
     = Some ([], Client2.NoContent (CString.lit "FILE_NOT_FOUND"), sock') /\
     Sock.pending sock' = Server.frame_layout (CString.lit "f2.txt") (CString.lit "ADC:1")) /\
  (exists sock',
     ClientSession.network_turn (fun _ => true) true 20 Queue.initial
       (Sock.delivering
          [Protocol.control_frame (CString.lit "FILE_NOT_FOUND");
           Server.frame_layout (CString.lit "f2.txt") (CString.lit "ADC:1")])
     = Some (ClientSession.Handled Queue.NotAdded, Queue.initial, sock') /\
     Sock.pending sock' = Server.frame_layout (CString.lit "f2.txt") (CString.lit "ADC:1")).
Proof.
  apply (unopened_file_at_the_consumers (fun _ => true) true 20 Queue.initial
           (CString.lit "adc_data/f1.txt")
           (Server.send_control_message [] (CString.lit "FILE_NOT_FOUND")) _
           (Server.frame_layout (CString.lit "f2.txt") (CString.lit "ADC:1")) 2).
  - reflexivity.
  - reflexivity.
  - reflexivity.
Defined.

(** ** The filtered plot once the DSP window is long enough *)

Section PipelineSteady.
Import MachInt Double CircBuf Pipeline PipelineUse.
Local Open Scope float_scope.

(** [remove_dc_offset_temp] on a whole window. *)
Lemma remove_dc_offset_temp_window (window : list float) :
  window <> [] ->
  remove_dc_offset_temp (Some window) (Z.of_nat (length window))
  = (Some (map (without_mean window) window), Z.of_nat (length window)).
Proof.
  intros Hne. unfold remove_dc_offset_temp, without_mean, sum_and_nan_count.
  replace (Z.of_nat (length window) =? 0)%Z with false
    by (symmetry; apply Z.eqb_neq; destruct window; [congruence | cbn; lia]).
  rewrite Nat2Z.id, firstn_all.
  destruct (fold_left _ window (0, 0%Z)) as [sum nan_count].
  now destruct (int (Z.of_nat (length window) - nan_count) =? 0)%Z.
Qed.

Lemma last_n_snoc_last (n : nat) (pushed : list float) (x : float) :
  (0 < n)%nat ->
  nth (length (last_n n (pushed ++ [x])) - 1) (last_n n (pushed ++ [x])) NAN = x.
Proof.
  intros Hn. unfold last_n. rewrite length_drop, length_app. cbn [length].
  rewrite nth_skipn.
  replace (length pushed + 1 - n + (length pushed + 1 - (length pushed + 1 - n) - 1))%nat
    with (length pushed) by lia.
  now rewrite nth_middle.
Qed.
End PipelineSteady.

Section PipelineSteadyStep.
Import MachInt Double CircBuf Pipeline PipelineUse.
Variables ZERO_CAL SCALE_CAL : float.

(** [X19] The filtered plot once the DSP window is long enough: in a
    step after which the window holds at least 256 samples (the sample of
    the step included), with the snapshot allocated and a positive
    sampling rate, the value appended to the filtered-plot buffer and to
    the filtered values to save is the raw ADC sample of the step less
    the mean of the ADC samples of the window that are no NaN (the window
    being the newest samples the DSP buffer has room for). It is not a
    weight: no calibration is applied to it, and [fir_filter] hands its
    input on as it is. The raw plot gets the weight of the sample. *)
Theorem filtered_plot_after_warm_up st b pushed :
  let x := sample_of st in
  let window := last_n (Z.to_nat (max_size (dsp_raw_adc_buffer b))) (pushed ++ [x]) in
  let weight := Calibration.weight_of ZERO_CAL SCALE_CAL (Double.to_int x) in
  holds (dsp_raw_adc_buffer b) pushed ->
  256 <= max_size (dsp_raw_adc_buffer b) ->
  (255 <= length pushed)%nat ->
  (sampling_rate_of (current_file_interval_ms st) <=? 0)%float = false ->
  exists st' b',
    process_sample ZERO_CAL SCALE_CAL true st b = Processed st' b' /\
    current_raw_buffer b' = append_circular_buffer (current_raw_buffer b) weight /\
    current_filtered_buffer b'
    = append_circular_buffer (current_filtered_buffer b) (without_mean window x) /\
    all_raw_weights_to_save st' = all_raw_weights_to_save st ++ [weight] /\
    all_filtered_weights_to_save st'
    = all_filtered_weights_to_save st ++ [without_mean window x].
Proof.
  intros x window weight Hholds Hmax Hlen Hrate.
  set (dsp := append_circular_buffer (dsp_raw_adc_buffer b) x).
  assert (Hdsp : holds dsp (pushed ++ [x])) by now apply append_holds.
  assert (Hsize : max_size dsp = max_size (dsp_raw_adc_buffer b))
    by apply (appends_keep_max_size [x]).
  assert (Hm : 0 < max_size dsp <= INT_MAX) by apply Hdsp.
  assert (Hwlen : Z.of_nat (length window)
                  = Z.min (Z.of_nat (length (pushed ++ [x]))) (max_size dsp)).
  { unfold window, last_n. rewrite length_drop, length_app. cbn [length]. lia. }
  assert (Hcount : count dsp = Z.of_nat (length window)).
  { rewrite Hwlen. destruct Hdsp as (_ & d & _ & _ & Hfill & Hfull).
    destruct (Z.lt_ge_cases (Z.of_nat (length (pushed ++ [x]))) (max_size dsp)) as [Hlt|Hge].
    - destruct (Hfill Hlt) as (_ & _ & -> & _). lia.
    - destruct (Hfull Hge) as (-> & _). lia. }
  assert (Hw256 : 256 <= Z.of_nat (length window)).
  { rewrite Hwlen, length_app. cbn [length]. lia. }
  assert (Hsnap : get_circular_buffer_snapshot true dsp
                  = (Some window, Z.of_nat (length window), dsp)).
  { rewrite (snapshot_of_holds dsp (pushed ++ [x]) Hdsp) by (destruct pushed; discriminate).
    now rewrite Hwlen, Hsize. }
  unfold process_sample. fold x. fold dsp.
  change (FFT_WINDOW_SIZE <? FIR_NUM_TAPS)%Z with false. cbv iota.
  rewrite Hcount.
  replace (FFT_WINDOW_SIZE <=? Z.of_nat (length window))%Z with true
    by (symmetry; apply Z.leb_le; unfold FFT_WINDOW_SIZE; lia).
  replace (FIR_NUM_TAPS <=? Z.of_nat (length window))%Z with true
    by (symmetry; apply Z.leb_le; unfold FIR_NUM_TAPS; lia).
  rewrite Hsnap.
  rewrite remove_dc_offset_temp_window by (destruct window; [cbn in Hw256; lia | discriminate]).
  unfold compute_fft, fir_filter.
  replace (Z.of_nat (length window) <? 2)%Z with false by (symmetry; apply Z.ltb_ge; lia).
  replace (Z.of_nat (length window) =? 0)%Z with false by (symmetry; apply Z.eqb_neq; lia).
  cbn [current_file_interval_ms current_file_raw_adc_values current_file_num_samples
       current_file_index all_raw_weights_to_save all_filtered_weights_to_save
       last_fir_coefficients_to_save last_fft_frequencies_to_save
       last_fft_magnitude_to_save].
  fold (sampling_rate_of (current_file_interval_ms st)). rewrite Hrate.
  cbn [orb].
  replace (0 <? Z.of_nat (length window))%Z with true by (symmetry; apply Z.ltb_lt; lia).
  do 2 eexists. split; [reflexivity|].
  cbn [current_raw_buffer current_filtered_buffer all_raw_weights_to_save
       all_filtered_weights_to_save].
  assert (Hy : nth (Z.to_nat (Z.of_nat (length window) - 1))
                   (take (Z.to_nat (Z.of_nat (length window)))
                         (map (without_mean window) window)) NAN
               = without_mean window x).
  { rewrite Nat2Z.id, firstn_all2 by (rewrite length_map; lia).
    replace (Z.to_nat (Z.of_nat (length window) - 1)) with (length window - 1)%nat by lia.
    rewrite (nth_indep _ NAN (without_mean window NAN)) by (rewrite length_map; lia).
    rewrite map_nth. f_equal. unfold window. apply last_n_snoc_last. lia. }
  rewrite Hy. repeat split.
Qed.
End PipelineSteadyStep.

(** The 256th sample of the ramp, 1255: the window is 1000, ..., 1255,
    its mean is 1127.5, and the filtered plot gets 127.5, while the raw
    plot gets the weight of 1255. *)
Lemma filtered_plot_after_warm_up_witness :
  exists st' b',
    Pipeline.process_sample Calibration.client_ZERO_CAL Calibration.client_SCALE_CAL true
                            (SampleStates.state_after 255).1 (SampleStates.state_after 255).2
    = Pipeline.Processed st' b' /\
    Pipeline.current_filtered_buffer b'
    = CircBuf.append_circular_buffer
        (Pipeline.current_filtered_buffer (SampleStates.state_after 255).2) 127.5%float /\
    Pipeline.current_raw_buffer b'
    = CircBuf.append_circular_buffer
        (Pipeline.current_raw_buffer (SampleStates.state_after 255).2)
        (Calibration.weight_of Calibration.client_ZERO_CAL Calibration.client_SCALE_CAL 1255).
Proof.
  destruct (filtered_plot_after_warm_up
              Calibration.client_ZERO_CAL Calibration.client_SCALE_CAL
              (SampleStates.state_after 255).1 (SampleStates.state_after 255).2
              (take 255 SampleStates.ramp))
    as (st' & b' & E & Hraw & Hf & _).
  - split; [vm_compute; split; [reflexivity | discriminate]|].
    eexists. split; [vm_compute; reflexivity|].
    split; [vm_compute; reflexivity|]. split.
    + intros _. vm_compute. repeat split.
    + intros H. exfalso. apply H. vm_compute. reflexivity.
  - vm_compute. discriminate.
  - vm_compute. lia.
  - vm_compute. reflexivity.
  - exists st', b'. split; [exact E|]. split.
    + rewrite Hf.
      apply (f_equal (CircBuf.append_circular_buffer
                        (Pipeline.current_filtered_buffer (SampleStates.state_after 255).2))).
      vm_compute. reflexivity.
    + rewrite Hraw.
      apply (f_equal (CircBuf.append_circular_buffer
                        (Pipeline.current_raw_buffer (SampleStates.state_after 255).2))).
      vm_compute. reflexivity.
Defined.

(** ** The GUI thread works the queue off *)

Section GuiSteps.
Import MachInt Double CircBuf Queue Pipeline Gui.
Variables ZERO_CAL SCALE_CAL : float.

(** With the snapshot allocated, a step handles its sample. *)
Lemma process_sample_handles st b :
  exists st' b',
    process_sample ZERO_CAL SCALE_CAL true st b = Processed st' b' /\
    current_file_raw_adc_values st' = current_file_raw_adc_values st /\
    current_file_num_samples st' = current_file_num_samples st /\
    current_file_interval_ms st' = current_file_interval_ms st /\
    current_file_index st' = int (current_file_index st + 1) /\
    all_raw_weights_to_save st'
    = all_raw_weights_to_save st ++ [raw_weight ZERO_CAL SCALE_CAL (sample_of st)] /\
    length (all_filtered_weights_to_save st') = S (length (all_filtered_weights_to_save st)).
Proof.
  unfold process_sample, raw_weight.
  set (dsp := append_circular_buffer (dsp_raw_adc_buffer b) (sample_of st)).
  change (FFT_WINDOW_SIZE <? FIR_NUM_TAPS) with false. cbv iota.
  destruct (Z.leb_spec FFT_WINDOW_SIZE (count dsp)) as [Hready|Hwarm].
  - unfold get_circular_buffer_snapshot.
    replace (count dsp =? 0) with false
      by (symmetry; apply Z.eqb_neq; unfold FFT_WINDOW_SIZE in Hready; lia).
    cbn [negb].
    destruct (head dsp <? tail dsp);
      (destruct (remove_dc_offset_temp _ _) as [[removed|] removed_len];
       [destruct (compute_fft _ _ _) as [[[frequencies magnitude] dom_freq] fft_len];
        destruct (fir_filter _ _ _ _) as [[[[segment|] coefficients] segment_len] coeff_len];
        [destruct (0 <? segment_len)|] |]);
      (do 2 eexists; split; [reflexivity|]; cbn; rewrite length_app; cbn;
       repeat split; lia).
  - do 2 eexists. split; [reflexivity|]. cbn. rewrite length_app. cbn.
    repeat split; lia.
Qed.
End GuiSteps.

Section GuiFiles.
Import MachInt Double CircBuf Queue Pipeline Gui.
Variables ZERO_CAL SCALE_CAL : float.
Variables (new_source_id : Z) (network_thread_running : bool).

Lemma callbacks_app a b : forall s,
  callbacks ZERO_CAL SCALE_CAL (a + b) new_source_id network_thread_running s
  = '(s1, calls1) ← callbacks ZERO_CAL SCALE_CAL a new_source_id network_thread_running s;
    '(s2, calls2) ← callbacks ZERO_CAL SCALE_CAL b new_source_id network_thread_running s1;
    Some (s2, calls1 ++ calls2).
Proof.
  induction a as [|a IH]; intros s; cbn [Nat.add callbacks].
  - cbn. now destruct (callbacks _ _ b _ _ s) as [[s2 calls2]|].
  - destruct (process_data_gui_callback _ _ _ _ _ s) as [[[s1 calls] r]|]; [|reflexivity].
    cbn [mbind option_bind]. rewrite IH.
    destruct (callbacks _ _ a _ _ s1) as [[s2 calls2]|]; [|reflexivity].
    cbn [mbind option_bind].
    destruct (callbacks _ _ b _ _ s2) as [[s3 calls3]|]; [|reflexivity].
    cbn [mbind option_bind]. now rewrite app_assoc.
Qed.

(** The calls that handle the samples of a file from the [i]th on. *)
Lemma samples_phase values k : forall i s,
  is_processing_file s = true ->
  current_file_raw_adc_values (g_file_state s) = values ->
  current_file_num_samples (g_file_state s) = Z.of_nat (length values) ->
  Z.of_nat (length values) <= INT_MAX ->
  current_file_index (g_file_state s) = Z.of_nat i ->
  (i + k = length values)%nat ->
  exists s',
    callbacks ZERO_CAL SCALE_CAL k new_source_id network_thread_running s = Some (s', []) /\
    is_processing_file s' = true /\
    current_file_name s' = current_file_name s /\
    queue_state s' = queue_state s /\
    data_processing_source_id s' = data_processing_source_id s /\
    current_file_num_samples (g_file_state s') = Z.of_nat (length values) /\
    current_file_index (g_file_state s') = Z.of_nat (length values) /\
    all_raw_weights_to_save (g_file_state s')
    = all_raw_weights_to_save (g_file_state s)
      ++ map (raw_weight ZERO_CAL SCALE_CAL) (drop i values) /\
    length (all_filtered_weights_to_save (g_file_state s'))
    = (length (all_filtered_weights_to_save (g_file_state s)) + k)%nat.
Proof.
  induction k as [|k IH]; intros i s Hproc Hvalues Hnum Hmax Hindex Hk.
  - exists s. rewrite drop_ge by lia. cbn [callbacks map].
    rewrite app_nil_r, Nat.add_0_r. repeat split; try assumption.
    rewrite Hindex. f_equal. lia.
  - cbn [callbacks]. unfold process_data_gui_callback. rewrite Hproc, Hindex, Hnum.
    replace (Z.of_nat i <? Z.of_nat (length values)) with true
      by (symmetry; apply Z.ltb_lt; lia).
    destruct (process_sample_handles ZERO_CAL SCALE_CAL (g_file_state s) (buffers s))
      as (st' & b' & E & Hv' & Hn' & _ & Hi' & Hraw & Hfil).
    rewrite E. cbn [mbind option_bind].
    set (s1 := {| is_processing_file := true;
                  current_file_name := current_file_name s;
                  g_file_state := st';
                  buffers := b';
                  queue_state := queue_state s;
                  data_processing_source_id := data_processing_source_id s |}).
    destruct (IH (S i) s1) as (s' & Es & Hp & Hname & Hq & Hid & Hn & Hi & Hr & Hf);
      try (cbn; congruence); try lia.
    { cbn. rewrite Hi', Hindex. unfold INT_MAX in Hmax.
      rewrite int_small by (unfold INT_MAX; lia). lia. }
    rewrite Es. cbn [mbind option_bind app]. exists s'.
    split; [reflexivity|]. repeat split; try assumption.
    + cbn [s1 g_file_state] in Hr. rewrite Hr, Hraw, <- app_assoc. f_equal.
      unfold sample_of. rewrite Hindex, Hvalues, Nat2Z.id.
      destruct (nth_lookup_or_length values i NAN) as [Hl|Hl]; [|lia].
      now rewrite (drop_S _ _ _ Hl).
    + cbn [s1 g_file_state] in Hf. rewrite Hf, Hfil. lia.
Qed.
End GuiFiles.

Section GuiQueue.
Import MachInt CString Double CircBuf Queue QueueUse Pipeline Gui.
Variables ZERO_CAL SCALE_CAL : float.
Variables (new_source_id : Z) (network_thread_running : bool).

Lemma saved_app calls1 calls2 : saved (calls1 ++ calls2) = saved calls1 ++ saved calls2.
Proof. apply omap_app. Qed.

(** From the look at the queue on: the files that wait are handled one
    after the other. *)
Lemma works_queue_off l : forall s calls0,
  represents (queue_state s) l ->
  is_processing_file s = false ->
  new_source_id <> 0 ->
  Forall sized l ->
  exists s1 calls1 r s' more,
    check_queue new_source_id network_thread_running s calls0 = Some (s1, calls1, r) /\
    callbacks ZERO_CAL SCALE_CAL (calls_for l) new_source_id network_thread_running s1
    = Some (s', more) /\
    saved (calls1 ++ more)
    = saved calls0
      ++ map (fun data_item =>
                (take 255 (c_str (file_name data_item)),
                 map (raw_weight ZERO_CAL SCALE_CAL) (raw_adc_values data_item),
                 length (raw_adc_values data_item))) l /\
    is_processing_file s' = false /\
    queue_count (queue_state s') = 0.
Proof.
  induction l as [|data_item l IH]; intros s calls0 Hr Hidle Hid Hsized.
  - pose proof (represents_count _ _ Hr) as Hcount. cbn [length] in Hcount.
    unfold check_queue, take_file. rewrite Hcount, Hidle.
    change (0 <? Z.of_nat 0) with false. cbv iota.
    change (Z.of_nat 0 =? 0) with true. cbn [negb andb].
    destruct network_thread_running; cbn [negb andb].
    + destruct (negb (data_processing_source_id s =? 0));
        (do 5 eexists; split; [reflexivity|]; split; [reflexivity|];
         rewrite app_nil_r; cbn [map]; rewrite app_nil_r; now repeat split).
    + do 5 eexists. split; [reflexivity|]. split; [reflexivity|].
      rewrite app_nil_r, saved_app. cbn [map]. now repeat split.
  - pose proof (represents_count _ _ Hr) as Hcount. cbn [length] in Hcount.
    destruct Hr as [Hq Hw].
    destruct (take_file_first (queue_state s) Hq) as (item & q' & Etake & Hq' & Hfirst); [lia|].
    rewrite Hw in Hfirst. cbn [map] in Hfirst. injection Hfirst as <- Hrest.
    apply Forall_cons in Hsized as [[Hnum Hmax] Hsized].
    unfold check_queue. rewrite Etake. unfold start_file.
    replace (new_source_id =? 0) with false by (symmetry; now apply Z.eqb_neq).
    set (s1 := {| is_processing_file := true;
                  current_file_name := take 255 (c_str (file_name data_item));
                  g_file_state := _; buffers := _; queue_state := q';
                  data_processing_source_id := new_source_id |}).
    destruct (samples_phase ZERO_CAL SCALE_CAL new_source_id network_thread_running
                (raw_adc_values data_item) (length (raw_adc_values data_item)) 0 s1)
      as (s2 & E2 & Hp2 & Hname2 & Hq2 & Hid2 & Hn2 & Hi2 & Hraw2 & Hfil2);
      try reflexivity; try (cbn; lia).
    cbn [s1 g_file_state current_file_name queue_state data_processing_source_id
         all_raw_weights_to_save all_filtered_weights_to_save app length Nat.add]
      in Hname2, Hq2, Hid2, Hraw2, Hfil2.
    rewrite drop_0 in Hraw2.
    destruct (IH {| is_processing_file := false;
                    current_file_name := [];
                    g_file_state := zeroed_file_state;
                    buffers := buffers s2;
                    queue_state := queue_state s2;
                    data_processing_source_id := 0 |}
                 [write_data_to_file (current_file_name s2)
                    (all_raw_weights_to_save (g_file_state s2))
                    (all_filtered_weights_to_save (g_file_state s2))
                    (last_fir_coefficients_to_save (g_file_state s2))
                    (last_fft_frequencies_to_save (g_file_state s2))
                    (last_fft_magnitude_to_save (g_file_state s2));
                  g_source_remove new_source_id])
      as (s3 & calls3 & r3 & s' & more & E3 & Es' & Hsaved & Hidle' & Hempty);
      [cbn [queue_state]; rewrite Hq2; now split | reflexivity | exact Hid | exact Hsized |].
    assert (Ecall : process_data_gui_callback ZERO_CAL SCALE_CAL true new_source_id
                      network_thread_running s2 = Some (s3, calls3, r3)).
    { unfold process_data_gui_callback. rewrite Hp2, Hi2, Hn2, Z.ltb_irrefl, Hid2.
      replace (new_source_id =? 0) with false by (symmetry; now apply Z.eqb_neq).
      cbn [negb app]. exact E3. }
    exists s1, (calls0 ++ [g_timeout_add (interval_ms data_item)]), G_SOURCE_CONTINUE,
           s', (calls3 ++ more).
    split; [reflexivity|]. split.
    + cbn [calls_for fold_right]. fold (calls_for l).
      rewrite callbacks_app, callbacks_app, E2. cbn [mbind option_bind callbacks].
      rewrite Ecall. cbn [mbind option_bind]. rewrite Es'. cbn [mbind option_bind app].
      now rewrite app_nil_r.
    + split; [|now split].
      rewrite (saved_app (calls0 ++ _)), (saved_app calls0), Hsaved.
      change (saved [g_timeout_add (interval_ms data_item)])
        with (@nil (list byte * list float * nat)).
      rewrite app_nil_r. f_equal. cbn [map].
      rewrite <- Hname2, <- Hfil2. rewrite <- Hraw2. reflexivity.
Qed.
End GuiQueue.

(** [X20] The GUI thread of client.c works the queue off: from a call
    of [process_data_gui_callback] that finds no file in work, with
    files waiting in the queue (each with as many samples as its
    [num_samples] says), nothing put in the queue meanwhile, the snapshots
    allocated and [g_timeout_add] succeeding, one call for each sample
    and one to finish each file, after the first, lead to exactly one
    [write_data_to_file] for each file, in the order the files waited,
    with the name of the file, one raw weight for each of its samples, in
    their order, and as many filtered weights; then no file is in work
    and the queue is empty. *)
Theorem gui_thread_saves_queued_files
        (ZERO_CAL SCALE_CAL : float) (new_source_id : Z) (network_thread_running : bool)
        (s : Gui.State) (waiting : list Queue.QueuedData) :
  Gui.is_processing_file s = false ->
  QueueUse.represents (Gui.queue_state s) waiting ->
  new_source_id <> 0 ->
  Forall Gui.sized waiting ->
  exists s' calls,
    Gui.callbacks ZERO_CAL SCALE_CAL (S (Gui.calls_for waiting)) new_source_id
                  network_thread_running s
    = Some (s', calls) /\
    Gui.saved calls
    = map (fun data_item =>
             (take 255 (CString.c_str (Queue.file_name data_item)),
              map (Gui.raw_weight ZERO_CAL SCALE_CAL) (Queue.raw_adc_values data_item),
              length (Queue.raw_adc_values data_item))) waiting /\
    Gui.is_processing_file s' = false /\
    Queue.queue_count (Gui.queue_state s') = 0.
Proof.
  intros Hidle Hr Hid Hsized.
  destruct (works_queue_off ZERO_CAL SCALE_CAL new_source_id network_thread_running
              waiting s [] Hr Hidle Hid Hsized)
    as (s1 & calls1 & r & s' & more & E1 & Es' & Hsaved & Hidle' & Hempty).
  exists s', (calls1 ++ more). split; [|now split].
  cbn [Gui.callbacks]. unfold Gui.process_data_gui_callback. rewrite Hidle, E1.
  cbn [mbind option_bind]. now rewrite Es'.
Qed.

(** Two files, of two samples and of one: six calls. *)
Lemma gui_thread_saves_queued_files_witness :
  exists s' calls,
    Gui.callbacks Calibration.client_ZERO_CAL Calibration.client_SCALE_CAL 6 1 false
                  SampleGui.state
    = Some (s', calls) /\
    Gui.saved calls
    = [(CString.lit "f1.txt",
        [Calibration.weight_of Calibration.client_ZERO_CAL Calibration.client_SCALE_CAL 100;
         Calibration.weight_of Calibration.client_ZERO_CAL Calibration.client_SCALE_CAL 200],
        2%nat);
       (CString.lit "f2.txt",
        [Calibration.weight_of Calibration.client_ZERO_CAL Calibration.client_SCALE_CAL 7],
        1%nat)].
Proof.
  destruct (gui_thread_saves_queued_files
              Calibration.client_ZERO_CAL Calibration.client_SCALE_CAL 1 false
              SampleGui.state SampleGui.files)
    as (s' & calls & E & Hsaved & _).
  - reflexivity.
  - split; [repeat split; vm_compute; congruence | vm_compute; reflexivity].
  - discriminate.
  - repeat constructor; vm_compute; congruence.
  - exists s', calls. split; [exact E|]. rewrite Hsaved. vm_compute. reflexivity.
Defined.

(** [X21] The callback without work: called when no file is in work
    and none waits in the queue, [process_data_gui_callback] leaves the
    state as it is and, while the network thread runs and no timeout is
    registered, returns [G_SOURCE_REMOVE] without registering one (so the
    idle source [main] adds is removed if its first call comes before the
    first file); once the network thread has ended it calls
    [gtk_main_quit]. *)
Theorem gui_callback_without_work
        (ZERO_CAL SCALE_CAL : float) (snapshot_alloc_ok : bool) (new_source_id : Z)
        (network_thread_running : bool) (s : Gui.State) :
  Gui.is_processing_file s = false ->
  Queue.queue_count (Gui.queue_state s) = 0 ->
  Gui.process_data_gui_callback ZERO_CAL SCALE_CAL snapshot_alloc_ok new_source_id
                                network_thread_running s
  = Some (s,
          if network_thread_running then [] else [Gui.gtk_main_quit],
          if network_thread_running && negb (Gui.data_processing_source_id s =? 0)
          then Gui.G_SOURCE_CONTINUE else Gui.G_SOURCE_REMOVE).
Proof.
  intros Hidle Hempty.
  unfold Gui.process_data_gui_callback, Gui.check_queue, Queue.take_file.
  rewrite Hidle, Hempty. cbn [Z.ltb Z.compare Z.eqb negb andb].
  destruct network_thread_running; cbn [negb andb app]; [|reflexivity].
  now destruct (Gui.data_processing_source_id s =? 0).
Qed.

(** The first call of the idle source, before any file has arrived. *)
Lemma gui_callback_without_work_witness :
  Gui.process_data_gui_callback Calibration.client_ZERO_CAL Calibration.client_SCALE_CAL
                                true 1 true (Gui.initial 0%float)
  = Some (Gui.initial 0%float, [], Gui.G_SOURCE_REMOVE).
Proof.
  apply (gui_callback_without_work Calibration.client_ZERO_CAL Calibration.client_SCALE_CAL
           true 1 true (Gui.initial 0%float)).
  - reflexivity.
  - reflexivity.
Defined.

(** ** The samples [process_data] of c2.c reads *)

Section Client2Samples.
Import MachInt CString Config Printf AdcText Client2Process.

Lemma long_small x : - 2 ^ 63 <= x < 2 ^ 63 -> long x = x.
Proof.
  unfold long, to_signed. intros H.
  change (2 ^ (64 - 1)) with (2 ^ 63). rewrite Z.mod_small; lia.
Qed.

(** [%ld] reads a numeral as its value. *)
Lemma scan_ld_numeral negative digits post :
  digits <> [] -> Forall is_digit digits -> ends_numeral post ->
  - 2 ^ 63 <= numeral_value negative digits < 2 ^ 63 ->
  scan_ld (numeral_text negative digits ++ post) = Some (numeral_value negative digits).
Proof.
  intros Hne Hd Hpost Hrange.
  destruct digits as [|d digits]; [congruence|].
  pose proof Hd as Hd'. apply Forall_cons in Hd' as [Hd0 _].
  destruct (digit_char_plain d Hd0) as (Hsp & Hminus & Hplus).
  unfold scan_ld, numeral_text, numeral_value in *.
  destruct negative.
  - cbn [app skip_spaces isspace].
    cbn [map app]. rewrite (digit_char_value d Hd0).
    change (digit_char d :: map digit_char digits ++ post)
      with (map digit_char (d :: digits) ++ post).
    rewrite scan_digits_value by assumption. now rewrite long_small by exact Hrange.
  - cbn [app]. replace (skip_spaces (map digit_char (d :: digits) ++ post))
      with (map digit_char (d :: digits) ++ post)
      by (cbn [map app skip_spaces]; now rewrite Hsp).
    cbn [map app]. destruct (digit_char d) eqn:Ed; try congruence;
      rewrite <- Ed, (digit_char_value d Hd0);
      change (digit_char d :: map digit_char digits ++ post)
        with (map digit_char (d :: digits) ++ post);
      rewrite scan_digits_value by assumption; now rewrite long_small by exact Hrange.
Qed.

Lemma scan_ld_format_d n post :
  - 2 ^ 63 <= n < 2 ^ 63 -> ends_numeral post ->
  scan_ld (format_d n ++ post) = Some n.
Proof.
  intros Hn Hpost. destruct (format_d_numeral n) as (ds & -> & Hne & Hd & Hv).
  rewrite scan_ld_numeral; rewrite ?Hv; try assumption. reflexivity.
Qed.

Lemma file_text_long_no_nul lines :
  Forall valid_long_line lines -> Forall (fun b => b <> NUL) (file_text lines).
Proof.
  induction 1 as [|l lines Hl _ IH]; [constructor|].
  unfold file_text. cbn [map concat]. apply Forall_app. split; [|exact IH].
  destruct l as [adc|text]; cbn [line_text valid_long_line] in *.
  - apply Forall_app. split; [repeat constructor; discriminate|].
    apply Forall_app. split; [|repeat constructor; discriminate].
    eapply Forall_impl; [apply format_d_chars|]. cbn beta. tauto.
  - apply Forall_app. split; [|repeat constructor; discriminate].
    eapply Forall_impl; [apply Hl|]. cbn beta. tauto.
Qed.

(** The loop over the lines (c2.c:228-241), from any number of samples
    read before. *)
Lemma c2_adc_lines_fold lines : forall raw_adc_values_long,
  Forall valid_long_line lines ->
  fold_left
    (fun raw_adc_values_long line =>
       match strstr line (lit "ADC:") with
       | Some _ =>
           match sscanf_ld line (lit "ADC:") with
           | Some adc_val => raw_adc_values_long ++ [adc_val]
           | None => raw_adc_values_long
           end
       | None => raw_adc_values_long
       end)
    (strtok_lines (file_text lines) []) raw_adc_values_long
  = raw_adc_values_long ++ samples lines.
Proof.
  induction lines as [|l lines IH]; intros raw Hv.
  - cbn. now rewrite app_nil_r.
  - apply Forall_cons in Hv as [Hl Hv].
    unfold file_text. cbn [map concat].
    fold (file_text lines).
    destruct l as [adc|text]; cbn [line_text valid_long_line] in *.
    + change (samples (SampleLine adc :: lines)) with (adc :: samples lines).
      pose proof (format_d_chars adc) as Hchars.
      replace ((lit "ADC:" ++ format_d adc ++ [x0a]) ++ file_text lines)
        with ((lit "ADC:" ++ format_d adc) ++ x0a :: file_text lines)
        by now rewrite <- !app_assoc.
      rewrite strtok_lines_line.
      2:{ apply Forall_app. split; [repeat constructor; discriminate|].
          eapply Forall_impl; [exact Hchars|]. cbn beta. tauto. }
      rewrite app_nil_l.
      assert (Hne : lit "ADC:" ++ format_d adc <> [])
        by (change (lit "ADC:") with [x41; x44; x43; x3a]; discriminate).
      destruct (lit "ADC:" ++ format_d adc) as [|b0 token] eqn:Etok; [congruence|].
      rewrite <- Etok. clear Etok Hne b0 token.
      cbn [fold_left].
      assert (Hc : c_str (lit "ADC:" ++ format_d adc) = lit "ADC:" ++ format_d adc).
      { apply c_str_id. apply Forall_app. split; [repeat constructor; discriminate|].
        eapply Forall_impl; [exact Hchars|]. cbn beta. tauto. }
      unfold strstr, sscanf_ld. rewrite Hc.
      change (c_str (lit "ADC:")) with (lit "ADC:").
      rewrite find_from_here, starts_with_app, drop_literal.
      rewrite <- (app_nil_r (format_d adc)), scan_ld_format_d by (try exact Hl; exact I).
      rewrite IH by exact Hv. now rewrite <- app_assoc.
    + change (samples (OtherLine text :: lines)) with (samples lines).
      destruct Hl as [Hstart Hchars].
      replace ((text ++ [x0a]) ++ file_text lines)
        with (text ++ x0a :: file_text lines) by now rewrite <- !app_assoc.
      rewrite strtok_lines_line
        by (eapply Forall_impl; [exact Hchars|]; cbn beta; tauto).
      rewrite app_nil_l. destruct text as [|b text]; [now apply IH|].
      cbn [fold_left].
      assert (Hc : c_str (b :: text) = b :: text).
      { apply c_str_id. eapply Forall_impl; [exact Hchars|]. cbn beta. tauto. }
      unfold sscanf_ld. rewrite Hc, Hstart.
      destruct (strstr (b :: text) (lit "ADC:")); now apply IH.
Qed.

Lemma c2_parse_adc_lines_file_text lines :
  Forall valid_long_line lines ->
  parse_adc_lines (c_str (file_text lines ++ [NUL])) = samples lines.
Proof.
  intros Hv. unfold parse_adc_lines.
  rewrite (c_str_terminated _ (file_text_long_no_nul lines Hv)).
  rewrite (c_str_id _ (file_text_long_no_nul lines Hv)).
  now rewrite c2_adc_lines_fold.
Qed.
End Client2Samples.

(** [X22] The raw weights of c2.c: for a file as [main] hands it to
    [process_data], with lines that each end with a line feed, the
    samples are the numbers of the lines [ADC:<n>] ([n] a [long]), in the
    order of the lines, lines that do not start with [ADC:] give none,
    and [raw_weights] holds the weight of each sample, in this order;
    without a sample [process_data] returns before it computes
    anything. *)
Theorem c2_raw_weights_of_file
        (ZERO_CAL SCALE_CAL : float) (lines : list AdcText.line) :
  Forall AdcText.valid_long_line lines ->
  Z.of_nat (length (AdcText.samples lines)) <= MachInt.INT_MAX ->
  Client2Process.raw_weights ZERO_CAL SCALE_CAL
    (CString.c_str (AdcText.file_text lines ++ [CString.NUL]))
  = match AdcText.samples lines with
    | [] => None
    | samples =>
        Some (Z.of_nat (length samples),
              map (Calibration.normalize_to_weight ZERO_CAL SCALE_CAL) samples)
    end.
Proof.
  intros Hv Hlen. unfold Client2Process.raw_weights.
  rewrite (c2_parse_adc_lines_file_text lines Hv).
  unfold MachInt.INT_MAX in Hlen.
  rewrite int_small by (unfold MachInt.INT_MAX; lia).
  destruct (AdcText.samples lines) as [|adc samples]; [reflexivity|].
  now replace (Z.of_nat (length (adc :: samples)) =? 0) with false
    by (symmetry; apply Z.eqb_neq; cbn [length]; lia).
Qed.

(** A header, a sample beyond [int], a sample below zero. *)
Lemma c2_raw_weights_of_file_witness :
  Client2Process.raw_weights Calibration.c2_ZERO_CAL Calibration.c2_SCALE_CAL
    (CString.lit "time,adc" ++ [x0a] ++ CString.lit "ADC:5000000000" ++ [x0a] ++
     CString.lit "ADC:-5" ++ [x0a])
  = Some (2, [Calibration.normalize_to_weight Calibration.c2_ZERO_CAL
                Calibration.c2_SCALE_CAL 5000000000;
              Calibration.normalize_to_weight Calibration.c2_ZERO_CAL
                Calibration.c2_SCALE_CAL (-5)]).
Proof.
  apply (c2_raw_weights_of_file Calibration.c2_ZERO_CAL Calibration.c2_SCALE_CAL
           [AdcText.OtherLine (CString.lit "time,adc"); AdcText.SampleLine 5000000000;
            AdcText.SampleLine (-5)]).
  - repeat constructor; try discriminate.
  - vm_compute. discriminate.
Defined.

(** [X23] A mode that does not fit [char mode[50]] of c2.c: for a mode
    of 48 characters or more (without white space), what [send_config]
    sends makes [main] of c2.c store the mode, the backslash, the n and
    the terminator, more than 50 bytes, through [%s] into the array of
    50: the store runs past the array. *)
Theorem long_mode_overruns_c2
        (malloc_ok : Z -> bool) (sock : Sock.socket) (interval_ms : Z)
        (mode rest : list byte) :
  - 2 ^ 31 <= interval_ms <= MachInt.INT_MAX ->
  ConfigText.plain_word mode -> (48 <= length mode <= 4000)%nat ->
  (forall size, 0 < size <= 4096 -> malloc_ok size = true) ->
  Sock.pending sock = concat (ServerSession.send_config [] interval_ms mode) ++ rest ->
  Client2Session.recv_config malloc_ok sock = Some Client2Session.ModeOverrun.
Proof.
  intros Hi Hm Hlen Hmalloc Hp.
  rewrite send_config_bytes in Hp by (try assumption; lia).
  cbn [app concat] in Hp. rewrite app_nil_r, <- app_assoc in Hp.
  pose proof (length_config_text interval_ms mode Hi) as Hl.
  destruct (c2_recv_config_text malloc_ok sock _ rest Hp) as (sock' & E & P);
    [lia | apply Hmalloc; lia |].
  destruct (c2_parse_config_text interval_ms mode Hi Hm) as [Ei Em].
  replace (Z.of_nat (length mode) + 3 <=? Config.sizeof_mode) with false in Em
    by (symmetry; apply Z.leb_gt; unfold Config.sizeof_mode; lia).
  now rewrite Em in E.
Qed.

(** A mode of 48 letters. *)
Lemma long_mode_overruns_c2_witness :
  Client2Session.recv_config (fun _ => true)
    (Sock.delivering (ServerSession.send_config [] 20 (replicate 48 x61)))
  = Some Client2Session.ModeOverrun.
Proof.
  apply (long_mode_overruns_c2 (fun _ => true) _ 20 (replicate 48 x61) []).
  - vm_compute. split; discriminate.
  - apply Forall_replicate. split; [discriminate | reflexivity].
  - cbn. lia.
  - reflexivity.
  - reflexivity.
Defined.

(** ** A whole session: [handle_client] of server.c and the network
    thread of client.c *)

Section ClientSessionFacts.
Import MachInt ByteOrder CString Sock Config Protocol Queue QueueUse ServerSession Session.
Variable malloc_ok : Z -> bool.
Hypothesis malloc_succeeds : forall size, malloc_ok size = true.

Lemma length_c_str s : (length (c_str s) <= length s)%nat.
Proof.
  induction s as [|b s IH]; cbn; [lia|]. destruct (Byte.eqb b NUL); cbn; lia.
Qed.

Lemma length_c_str_terminated s : (length (c_str (s ++ [NUL])) <= length s)%nat.
Proof.
  induction s as [|b s IH]; cbn; [lia|]. destruct (Byte.eqb b NUL); cbn; lia.
Qed.

Lemma length_strtok_lines s : forall line,
  (length (strtok_lines s line)
   <= length s + match line with [] => 0 | _ => 1 end)%nat.
Proof.
  induction s as [|b s IH]; intros line; cbn [strtok_lines length].
  - destruct line; cbn; lia.
  - destruct (Byte.eqb b x0a).
    + destruct line; cbn [length]; specialize (IH []); cbn in IH; lia.
    + specialize (IH (line ++ [b])). destruct (line ++ [b]) eqn:E.
      * destruct line; discriminate.
      * destruct line; lia.
Qed.

Lemma length_parse_adc_lines content :
  (length (ClientSession.parse_adc_lines content) <= length content)%nat.
Proof.
  unfold ClientSession.parse_adc_lines.
  pose proof (length_strtok_lines (c_str content) []) as Ht.
  pose proof (length_c_str content) as Hc. cbn in Ht.
  assert (H : forall tokens (acc : list float),
             (length (fold_left
                        (fun raw_adc_values current_adc_line =>
                           match strstr current_adc_line (lit "ADC:") with
                           | Some _ =>
                               match sscanf_d current_adc_line (lit "ADC:") with
                               | Some adc_val => raw_adc_values ++ [Double.of_Z adc_val]
                               | None => raw_adc_values
                               end
                           | None => raw_adc_values
                           end) tokens acc)
              <= length acc + length tokens)%nat).
  { induction tokens as [|t tokens IH]; intros acc; cbn [fold_left length]; [lia|].
    destruct (strstr t (lit "ADC:")); [destruct (sscanf_d t (lit "ADC:"))|];
      rewrite IH; rewrite ?length_app; cbn [length]; lia. }
  rewrite H. cbn [length]. lia.
Qed.

(** client.c at [END_OF_TRANSMISSION]: the loop stops behind the name. *)
Lemma client_stops_at_eot sock rest :
  pending sock = control_frame (lit "END_OF_TRANSMISSION") ++ rest ->
  exists sock',
    Client.receive_one malloc_ok sock = Some (Client.Break Client.EndOfTransmission sock') /\
    pending sock' = big_endian 8 0 ++ rest.
Proof.
  intros Hp. unfold control_frame, Server.frame_layout in Hp.
  rewrite <- !app_assoc in Hp.
  destruct (client_recv_file_name_short sock _ _ Hp) as (sock1 & E1 & P1);
    [cbn; lia|].
  unfold Client.receive_one. rewrite E1. cbn [mbind option_bind].
  change (strcmp_is_0 (lit "END_OF_TRANSMISSION" ++ [NUL]) (lit "END_OF_TRANSMISSION"))
    with true. cbv iota.
  exists sock1. split; [reflexivity|]. rewrite P1. now rewrite app_nil_l.
Qed.

(** One turn of the loop on the frame of a file. *)
Lemma client_turn_on_file interval_ms q l sock name content rest :
  pending sock = Server.frame_layout name content ++ rest ->
  c_name name -> Z.of_nat (length name) < 256 ->
  strcmp_is_0 (name ++ [NUL]) (lit "END_OF_TRANSMISSION") = false ->
  Client.is_server_message (name ++ [NUL]) = false ->
  Z.of_nat (length content) < INT_MAX ->
  represents q l ->
  (length l + length (option_list (queued interval_ms (name, content))) <= 10)%nat ->
  exists result q' sock',
    ClientSession.network_turn malloc_ok true interval_ms q sock
    = Some (ClientSession.Handled result, q', sock') /\
    represents q' (l ++ option_list (queued interval_ms (name, content))) /\
    pending sock' = rest.
Proof.
  intros Hp Hc Hname Heot Hmsg Hlen Hr Hroom.
  destruct (client_receive_one_frame malloc_ok sock name content rest Hp Hc Hname Heot Hmsg)
    as (sock' & E & P); [lia | apply malloc_succeeds |].
  unfold ClientSession.network_turn. rewrite E. cbn [mbind option_bind].
  set (values := ClientSession.parse_adc_lines (c_str (content ++ [NUL]))) in *.
  assert (Hv : (length values <= length content)%nat).
  { unfold values. rewrite length_parse_adc_lines. apply length_c_str_terminated. }
  unfold INT_MAX in Hlen. rewrite int_small by (unfold INT_MAX; lia).
  pose proof (apply_refines q l
                (Offer true (match values with [] => None | _ => Some values end)
                       (Z.of_nat (length values)) interval_ms name) Hr) as [_ Hr'].
  cbn [QueueUse.apply] in Hr'.
  destruct (put_file true q _ _ interval_ms name) as [q' result].
  exists result, q', sock'. split; [reflexivity|]. split; [|exact P].
  cbn [fst] in Hr'. unfold queued in *. cbn [fst snd] in *. fold values in Hroom |- *.
  destruct values as [|v values']; cbn [fifo_apply fst option_list] in *.
  - now rewrite app_nil_r.
  - assert (Hl : (length l < 10)%nat) by (simpl in Hroom; lia).
    replace (length l <? 10)%nat with true in Hr' by (symmetry; now apply Nat.ltb_lt).
    exact Hr'.
Qed.
End ClientSessionFacts.

Section ClientSessionLoop.
Import MachInt ByteOrder CString Sock Config Protocol Queue QueueUse ServerSession Session.
Variable malloc_ok : Z -> bool.
Hypothesis malloc_succeeds : forall size, malloc_ok size = true.
Variable interval_ms : Z.

Lemma queued_cons file files :
  omap (queued interval_ms) (file :: files)
  = option_list (queued interval_ms file) ++ omap (queued interval_ms) files.
Proof. cbn. now destruct (queued interval_ms file). Qed.

(** The frames of files, one turn each, up to what ends the loop. *)
Lemma network_loop_frames files : forall q l sock tail_bytes fuel why rest,
  represents q l ->
  Forall (fun '(name, content) =>
            c_name name /\ Z.of_nat (length name) < 256 /\
            strcmp_is_0 (name ++ [NUL]) (lit "END_OF_TRANSMISSION") = false /\
            Client.is_server_message (name ++ [NUL]) = false /\
            Z.of_nat (length content) < INT_MAX) files ->
  (length l + length (omap (queued interval_ms) files) <= 10)%nat ->
  pending sock = concat (map frame_of files) ++ tail_bytes ->
  (forall q0 sock0,
      pending sock0 = tail_bytes ->
      exists sock_end,
        ClientSession.network_turn malloc_ok true interval_ms q0 sock0
        = Some (ClientSession.Stopped why, q0, sock_end) /\
        pending sock_end = rest) ->
  exists results q' sock_end,
    ClientSession.network_loop malloc_ok (length files + S fuel) interval_ms q sock
    = Some (results, why, q', sock_end) /\
    represents q' (l ++ omap (queued interval_ms) files) /\
    pending sock_end = rest.
Proof.
  induction files as [|[name content] files IH];
    intros q l sock tail_bytes fuel why rest Hr Hf Hroom Hp Hend.
  - cbn [length Nat.add map concat app] in *.
    destruct (Hend q sock Hp) as (sock_end & E & P).
    cbn [ClientSession.network_loop]. rewrite E. cbn [mbind option_bind].
    exists [], q, sock_end. split; [reflexivity|]. split; [|exact P].
    cbn. now rewrite app_nil_r.
  - apply Forall_cons in Hf as [(Hc & Hn & Heot & Hmsg & Hlen) Hf].
    rewrite queued_cons in Hroom |- *. rewrite length_app in Hroom.
    cbn [map concat] in Hp. unfold frame_of at 1 in Hp. cbn [fst snd] in Hp.
    rewrite <- app_assoc in Hp.
    destruct (client_turn_on_file malloc_ok malloc_succeeds interval_ms q l sock name content
                _ Hp Hc Hn Heot Hmsg Hlen Hr) as (result & q1 & sock1 & E1 & Hr1 & P1); [lia|].
    destruct (IH q1 _ sock1 tail_bytes fuel why rest Hr1 Hf) as (results & q' & sock_end & E & Hr' & P);
      [rewrite length_app; lia | exact P1 | exact Hend |].
    cbn [length Nat.add ClientSession.network_loop]. rewrite E1. cbn [mbind option_bind].
    rewrite E. cbn [mbind option_bind].
    exists (result :: results), q', sock_end. split; [reflexivity|].
    split; [|exact P]. now rewrite app_assoc.
Qed.

(** The files that are sent are frames client.c receives whole. *)
Lemma sent_files_received_by_client fopen_rb entries :
  Forall (carried_to_client fopen_rb) entries ->
  Forall (fun '(name, content) =>
            c_name name /\ Z.of_nat (length name) < 256 /\
            strcmp_is_0 (name ++ [NUL]) (lit "END_OF_TRANSMISSION") = false /\
            Client.is_server_message (name ++ [NUL]) = false /\
            Z.of_nat (length content) < INT_MAX)
         (sent_files fopen_rb entries).
Proof.
  induction 1 as [|dir entries Hdir _ IH]; [constructor|].
  rewrite sent_files_cons.
  destruct (is_sent dir) eqn:Es; [|exact IH].
  destruct (Hdir Es) as (Hname & Hslash & Hlen & Heot & Hmsg & content & Hopen & Hsize).
  rewrite Hopen. constructor; [|exact IH].
  repeat split; try assumption. lia.
Qed.
End ClientSessionLoop.

(** The session by the contents of the files, with the entries of the
    queue as the loop of client.c makes them. *)
Lemma client_session_by_content
        (malloc_ok : Z -> bool) (fopen_rb : list byte -> option (list byte))
        (opendir_result : option (list ServerSession.dirent)) (fuel : nat) :
  let entries := default [] opendir_result in
  let files := Session.sent_files fopen_rb entries in
  (forall size, malloc_ok size = true) ->
  Forall (Session.carried_to_client fopen_rb) entries ->
  Z.of_nat (length entries) <= MachInt.INT_MAX ->
  (length (omap (Session.queued 20) files) <= 10)%nat ->
  (length entries < fuel)%nat ->
  exists w,
    ServerSession.handle_client opendir_result fopen_rb = Some w /\
    forall sock,
      Sock.pending sock = concat w ->
      exists results q' sock',
        ClientSession.network_thread_func malloc_ok fuel Queue.initial sock
        = Some (ClientSession.Ended 20 results (Session.client_exit files) q' sock') /\
        Queue.waiting q' = map Some (omap (Session.queued 20) files) /\
        Sock.pending sock' = Session.client_unread files.
Proof.
  intros entries files Hm Hc Hmax Hroom Hfuel.
  destruct (handle_client_wire fopen_rb opendir_result
              (carried_to_client_sendable fopen_rb _ Hc) Hmax) as (w & Ew & Cw).
  exists w. split; [exact Ew|]. intros sock Hp. rewrite Cw in Hp.
  fold entries in Hp. fold files in Hp.
  unfold ClientSession.network_thread_func.
  destruct (client_recv_config_text malloc_ok sock _ _ Hp) as (sock1 & E1 & P1);
    [vm_compute; discriminate | apply Hm |].
  rewrite (client_parse_config_text 20 (CString.lit "interval")) in E1;
    [| vm_compute; split; discriminate | repeat constructor; discriminate].
  rewrite E1. cbn [mbind option_bind].
  pose proof (length_sent_files fopen_rb entries) as Hlen. fold files in Hlen.
  destruct (network_loop_frames malloc_ok Hm 20 files Queue.initial [] sock1
              (Protocol.control_frame (Session.last_message files))
              (fuel - length files - 1)%nat (Session.client_exit files)
              (Session.client_unread files))
    as (results & q' & sock_end & E & Hr & P).
  - apply initial_represents.
  - now apply sent_files_received_by_client.
  - cbn [length]. lia.
  - exact P1.
  - intros q0 sock0 Hp0. unfold ClientSession.network_turn.
    destruct files as [|file files'];
      cbn [Session.last_message Session.client_exit Session.client_unread] in *.
    + destruct (client_stops_at_server_message malloc_ok sock0
                  (CString.lit "NO_FILES_IN_FOLDER") [])
        as (sock_end & Es & Ps);
        [constructor | discriminate | repeat constructor; discriminate | cbn; lia
         | now rewrite app_nil_r |].
      rewrite Es. now exists sock_end.
    + destruct (client_stops_at_eot malloc_ok sock0 []) as (sock_end & Es & Ps);
        [now rewrite app_nil_r|].
      rewrite Es. exists sock_end. split; [reflexivity|]. now rewrite app_nil_r in Ps.
  - replace (length files + S (fuel - length files - 1))%nat with fuel in E by lia.
    rewrite E. cbn [mbind option_bind]. exists results, q', sock_end.
    split; [reflexivity|]. split; [|exact P]. apply Hr.
Qed.

Section SessionOfLines.
Import MachInt CString Protocol ServerSession AdcText Session.
Variable lines_of : list byte -> option (list line).

Lemma sent_lines_cons dir entries :
  sent_lines lines_of (dir :: entries)
  = if is_sent dir
    then match lines_of (filepath_of dir) with
         | Some lines => (d_name dir, lines) :: sent_lines lines_of entries
         | None => sent_lines lines_of entries
         end
    else sent_lines lines_of entries.
Proof.
  unfold sent_lines. cbn.
  destruct (is_sent dir); [|reflexivity]. now destruct (lines_of (filepath_of dir)).
Qed.

Lemma omap_cons_option_list {A B : Type} (f : A -> option B) x l :
  omap f (x :: l) = option_list (f x) ++ omap f l.
Proof. cbn. now destruct (f x). Qed.

Lemma strcmp_is_0_other name (literal : list byte) :
  c_name name -> c_str literal = literal -> name <> literal ->
  strcmp_is_0 (name ++ [NUL]) literal = false.
Proof.
  intros Hc Hl Hne. apply not_true_is_false. unfold strcmp_is_0.
  rewrite bytes_eqb_eq, (c_str_terminated _ Hc), Hl. exact Hne.
Qed.

(** The entries client.c gets whole are entries [carried_to_client]. *)
Lemma lines_carried_to_client_carried entries :
  Forall (lines_carried_to_client lines_of) entries ->
  Forall (carried_to_client (fopen_text lines_of)) entries.
Proof.
  intros Hall. eapply Forall_impl; [exact Hall|]. intros dir H Hs.
  destruct (H Hs) as (Hname & Hslash & Hlen & Heot & Hsel & Hnone & Hfound
                      & lines & Hopen & _ & Hsize).
  repeat split; try assumption.
  - now apply strcmp_is_0_other.
  - unfold Client.is_server_message.
    rewrite (strcmp_is_0_other _ (lit "NO_FILE_SELECTED") Hname eq_refl Hsel).
    rewrite (strcmp_is_0_other _ (lit "NO_FILES_IN_FOLDER") Hname eq_refl Hnone).
    rewrite (strstr_terminated _ _ Hname).
    rewrite (strstr_absent _ _ Hname); [reflexivity | | exact Hfound].
    repeat constructor; discriminate.
  - exists (file_text lines). unfold fopen_text. now rewrite Hopen.
Qed.

(** The entries the loop of client.c makes are the samples of the lines. *)
Lemma queued_of_lines interval_ms entries :
  Forall (lines_carried_to_client lines_of) entries ->
  omap (queued interval_ms) (sent_files (fopen_text lines_of) entries)
  = omap (queued_samples interval_ms) (sent_lines lines_of entries).
Proof.
  induction 1 as [|dir entries Hdir _ IH]; [reflexivity|].
  rewrite sent_files_cons, sent_lines_cons.
  destruct (is_sent dir) eqn:Es; [|exact IH].
  destruct (Hdir Es) as (Hname & _ & Hlen & _ & _ & _ & _ & lines & Hopen & Hvalid & _).
  unfold fopen_text at 1. rewrite Hopen.
  rewrite !omap_cons_option_list, IH. f_equal.
  unfold queued, queued_samples. cbn [fst snd].
  rewrite (client_samples_of_content lines Hvalid).
  destruct (samples lines) as [|adc adcs]; [reflexivity|].
  cbn [map option_list]. unfold QueueUse.entry.
  rewrite (c_str_id _ Hname), firstn_all2 by lia.
  cbn [length]. now rewrite length_map.
Qed.

Lemma sent_files_of_lines_nil entries :
  sent_files (fopen_text lines_of) entries = [] <-> sent_lines lines_of entries = [].
Proof.
  induction entries as [|dir entries IH]; [tauto|].
  rewrite sent_files_cons, sent_lines_cons. unfold fopen_text at 1.
  destruct (is_sent dir); [|exact IH].
  destruct (lines_of (filepath_of dir)); [|exact IH].
  split; discriminate.
Qed.
End SessionOfLines.

(** [X24] A whole session between server.c and client.c, for a data
    folder given by the lines of its files: when every file that
    [handle_client] sends can be opened and holds lines that each end with
    a line feed, a line being [ADC:<n>] with [n] an [int] or a line that
    does not start with [ADC:], fewer than [INT_MAX] bytes in all, when
    its name fits the path buffer and is no message of the server, and at
    most ten of the files hold a sample, then the network thread of
    client.c, on the bytes [handle_client] sent and with nothing taken
    from the queue meanwhile, reads the interval 20 and leaves in the
    queue one entry for each file with a sample, in the order of the
    directory: the samples [n] of its lines in their order, their number,
    the interval 20 and the name; files without a sample are skipped. Its
    loop ends at the last message of the server; at [END_OF_TRANSMISSION]
    the eight bytes of the content length stay unread. *)
Theorem session_from_server_to_client
        (malloc_ok : Z -> bool) (lines_of : list byte -> option (list AdcText.line))
        (opendir_result : option (list ServerSession.dirent)) (fuel : nat) :
  let entries := default [] opendir_result in
  let files := Session.sent_lines lines_of entries in
  (forall size, malloc_ok size = true) ->
  Forall (Session.lines_carried_to_client lines_of) entries ->
  Z.of_nat (length entries) <= MachInt.INT_MAX ->
  (length (omap (Session.queued_samples 20) files) <= 10)%nat ->
  (length entries < fuel)%nat ->
  exists w,
    ServerSession.handle_client opendir_result (Session.fopen_text lines_of) = Some w /\
    forall sock,
      Sock.pending sock = concat w ->
      exists results q' sock',
        ClientSession.network_thread_func malloc_ok fuel Queue.initial sock
        = Some (ClientSession.Ended 20 results
                  (match files with
                   | [] => Client.ServerMessage (CString.lit "NO_FILES_IN_FOLDER")
                   | _ => Client.EndOfTransmission
                   end) q' sock') /\
        Queue.waiting q' = map Some (omap (Session.queued_samples 20) files) /\
        Sock.pending sock' = match files with
                             | [] => []
                             | _ => ByteOrder.big_endian 8 0
                             end.
Proof.
  intros entries files Hm Hc Hmax Hroom Hfuel.
  pose proof (queued_of_lines lines_of 20 entries Hc) as Hq.
  destruct (client_session_by_content malloc_ok (Session.fopen_text lines_of)
              opendir_result fuel Hm
              (lines_carried_to_client_carried lines_of _ Hc) Hmax)
    as (w & Ew & H).
  { fold entries. rewrite Hq. exact Hroom. }
  { exact Hfuel. }
  exists w. split; [exact Ew|]. intros sock Hp.
  destruct (H sock Hp) as (results & q' & sock' & E & Hw & P).
  fold entries in E, Hw, P. rewrite Hq in Hw. fold files in Hw.
  pose proof (sent_files_of_lines_nil lines_of entries) as Hnil. fold files in Hnil.
  exists results, q', sock'.
  destruct (Session.sent_files (Session.fopen_text lines_of) entries) as [|f fs];
    destruct files as [|g gs];
    cbn [Session.client_exit Session.client_unread] in E, P;
    try (now destruct Hnil as [Hnil1 Hnil2];
         first [specialize (Hnil1 eq_refl) | specialize (Hnil2 eq_refl)]);
    now split.
Qed.

(** The sample folder: [b.txt] and [a.txt] wait in the queue, in this
    order. *)
Lemma session_from_server_to_client_witness :
  exists w results q' sock',
    ServerSession.handle_client (Some SampleFolder.entries) SampleFolder.fopen_rb = Some w /\
    ClientSession.network_thread_func (fun _ => true) 6 Queue.initial (Sock.delivering w)
    = Some (ClientSession.Ended 20 results Client.EndOfTransmission q' sock') /\
    Queue.waiting q'
    = [Some (QueueUse.entry [Double.of_Z 2] 1 20 (CString.lit "b.txt"));
       Some (QueueUse.entry [Double.of_Z 1; Double.of_Z 3] 2 20 (CString.lit "a.txt"))] /\
    Sock.pending sock' = ByteOrder.big_endian 8 0.
Proof.
  destruct (session_from_server_to_client (fun _ => true) SampleFolder.lines_of
              (Some SampleFolder.entries) 6) as (w & Ew & H).
  - reflexivity.
  - change (Forall (Session.lines_carried_to_client SampleFolder.lines_of)
                   SampleFolder.entries).
    unfold SampleFolder.entries.
    repeat (constructor;
            [unfold Session.lines_carried_to_client; intros Hs;
             first [ vm_compute in Hs; discriminate Hs
                   | split; [repeat constructor; discriminate|];
                     split; [repeat constructor; discriminate|];
                     split; [cbn; lia|];
                     split; [discriminate|];
                     split; [discriminate|];
                     split; [discriminate|];
                     split; [intros (pre & post & E);
                             apply (f_equal (@length byte)) in E;
                             rewrite !length_app in E; cbn in E; lia|];
                     eexists; split; [reflexivity|];
                     split; [repeat constructor; vm_compute; discriminate
                            | vm_compute; reflexivity] ]
            |]).
    constructor.
  - vm_compute. discriminate.
  - vm_compute. lia.
  - cbn. lia.
  - assert (Ew' : ServerSession.handle_client (Some SampleFolder.entries)
                                              SampleFolder.fopen_rb = Some w).
    { rewrite <- Ew. reflexivity. }
    exists w. destruct (H (Sock.delivering w)) as (results & q' & sock' & E & Hw & P).
    + revert Ew. vm_compute. intros [= <-]. reflexivity.
    + exists results, q', sock'. split; [exact Ew'|]. split; [exact E|].
      split; [rewrite Hw; vm_compute; reflexivity | exact P].
Defined.
